(** * generate_stats.py: commit-log statistics, report and musical score

    A shallow embedding of [src/generate_stats.py] and the properties of its
    parser, classifier, aggregator, musical encoder and report renderer.

    Conventions of the embedding.
    - A Python [str] is a [string] (a sequence of 8-bit characters);
      [str.lower] is the ASCII case mapping, which is all the keyword tests
      of the script can observe.
    - A Python [int] is a [Z].  A Python [float] is idealised as an exact
      rational [Q]; a float division by zero raises, and the embedding says so
      explicitly.  The idealisation leaves out the rounding of the floats and
      their range: the texts of the percentages, of the averages and of the
      bars can differ from the script's in the last digit or block, and
      counters beyond the range of a float, on which the script raises
      [OverflowError], are outside the embedding.  No property below is
      about those texts, and the properties on whether the report raises
      are stated for counters within [exact_counts].
    - A [dict] (and a [defaultdict]) is an association list in insertion
      order, because the script depends on that order ([list(d.keys())],
      [max], stable [sorted]).
    - The standard library's [datetime] and the external [git] process are
      not part of the script; they are the fields of the class [Runtime]. *)

From Stdlib Require Import String Ascii List ZArith QArith Qabs Bool Lia.
From Stdlib Require Import Sorted Permutation.
From Stdlib Require Import DecimalString OrdersEx.
Import ListNotations.

Local Open Scope string_scope.
Local Open Scope list_scope.
Local Open Scope Z_scope.

Set Implicit Arguments.

(* ================================================================== *)
(** ** Python strings *)

Module PyStr.

Definition lower_char (c : ascii) : ascii :=
  let n := nat_of_ascii c in
  if ((65 <=? n)%nat && (n <=? 90)%nat)%bool then ascii_of_nat (n + 32) else c.

(** [s.lower()] *)
Fixpoint lower (s : string) : string :=
  match s with
  | EmptyString => EmptyString
  | String c s' => String (lower_char c) (lower s')
  end.

(** [needle in hay] *)
Fixpoint contains (needle hay : string) : bool :=
  match hay with
  | EmptyString => prefix needle EmptyString
  | String _ hay' => prefix needle hay || contains needle hay'
  end.

(** [s.split(sep)] for a one-character separator *)
Fixpoint split (sep : ascii) (s : string) : list string :=
  match s with
  | EmptyString => [EmptyString]
  | String c s' =>
      if Ascii.eqb c sep then EmptyString :: split sep s'
      else match split sep s' with
           | [] => [String c EmptyString]
           | w :: ws => String c w :: ws
           end
  end.

(** [s.replace(old, new)] for a one-character [old] *)
Fixpoint replace (old : ascii) (new : string) (s : string) : string :=
  match s with
  | EmptyString => EmptyString
  | String c s' =>
      if Ascii.eqb c old then new ++ replace old new s'
      else String c (replace old new s')
  end.

(** [s * n] *)
Definition repeat (s : string) (n : Z) : string :=
  String.concat EmptyString (List.repeat s (Z.to_nat n)).

(** [str(n)] *)
Definition str (n : Z) : string := NilZero.string_of_int (Z.to_int n).

(** [s.capitalize()] *)
Definition upper_char (c : ascii) : ascii :=
  let n := nat_of_ascii c in
  if ((97 <=? n)%nat && (n <=? 122)%nat)%bool then ascii_of_nat (n - 32) else c.

Definition capitalize (s : string) : string :=
  match s with
  | EmptyString => EmptyString
  | String c s' => String (upper_char c) (lower s')
  end.

(** Lexicographic order on strings, the order of [sorted] and [<]. *)
Definition ltb (a b : string) : bool :=
  match String_as_OT.compare a b with Lt => true | _ => false end.

Definition leb (a b : string) : bool :=
  match String_as_OT.compare a b with Gt => false | _ => true end.

End PyStr.

(* ================================================================== *)
(** ** Python dictionaries in insertion order *)

Class Key (K : Type) := {
  keqb : K -> K -> bool;
  keqb_spec : forall a b, reflect (a = b) (keqb a b)
}.

#[export] Instance Key_string : Key string :=
  {| keqb := String.eqb; keqb_spec := String.eqb_spec |}.

#[export] Instance Key_Z : Key Z :=
  {| keqb := Z.eqb; keqb_spec := Z.eqb_spec |}.

Module Dict.
Section Dict.
Context {K V : Type} `{Key K}.

Definition t := list (K * V).

Definition keys (d : t) : list K := map fst d.
Definition values (d : t) : list V := map snd d.
Definition items (d : t) : list (K * V) := d.

(** [d.get(k)]; [None] is an absent key *)
Fixpoint get (k : K) (d : t) : option V :=
  match d with
  | [] => None
  | (k', v) :: d' => if keqb k k' then Some v else get k d'
  end.

(** [d.get(k, default)] *)
Definition get_default (k : K) (default : V) (d : t) : V :=
  match get k d with Some v => v | None => default end.

(** [d[k] = v]: an existing key keeps its place, a new key goes last *)
Fixpoint set (k : K) (v : V) (d : t) : t :=
  match d with
  | [] => [(k, v)]
  | (k', v') :: d' =>
      if keqb k k' then (k', v) :: d' else (k', v') :: set k v d'
  end.

Definition mem (k : K) (d : t) : bool :=
  match get k d with Some _ => true | None => false end.

End Dict.

(** [d[k] += 1] on a [defaultdict(int)] *)
Definition incr {K} `{Key K} (k : K) (d : list (K * Z)) : list (K * Z) :=
  set k (get_default k 0 d + 1) d.

(** [sum(d.values())] *)
Definition sum_values {K} (d : list (K * Z)) : Z :=
  fold_right Z.add 0 (values d).

End Dict.

(* ================================================================== *)
(** ** Exceptions *)

Inductive PyError : Type :=
| ValueError
| ZeroDivisionError
| KeyError
| IndexError.

Inductive Result (A : Type) : Type :=
| Ok (a : A)
| Raise (e : PyError).

Arguments Ok {A} a.
Arguments Raise {A} e.

Definition bind {A B} (m : Result A) (k : A -> Result B) : Result B :=
  match m with
  | Ok a => k a
  | Raise e => Raise e
  end.

Notation "x <- m ;; k" := (bind m (fun x => k))
  (at level 61, m at next level, right associativity).

(** Run [f] on every element, left to right, stopping at the first raise. *)
Fixpoint map_result {A B} (f : A -> Result B) (l : list A) : Result (list B) :=
  match l with
  | [] => Ok []
  | x :: l' => y <- f x ;; ys <- map_result f l' ;; Ok (y :: ys)
  end.

(* ================================================================== *)
(** ** Python lists and built-ins *)

Module PyList.

Definition len {A} (l : list A) : Z := Z.of_nat (length l).

(** [l[i]], negative indices counting from the end *)
Definition index {A} (l : list A) (i : Z) : Result A :=
  let j := if i <? 0 then i + len l else i in
  if j <? 0 then Raise IndexError
  else match nth_error l (Z.to_nat j) with
       | Some x => Ok x
       | None => Raise IndexError
       end.

(** [l[-n:]] for [n > 0] *)
Definition lastn {A} (n : nat) (l : list A) : list A :=
  skipn (length l - n) l.

(** [l[::3]] *)
Fixpoint every_third {A} (l : list A) : list A :=
  match l with
  | x :: _ :: _ :: l' => x :: every_third l'
  | x :: _ => [x]
  | [] => []
  end.

(** [enumerate(l)] *)
Fixpoint enumerate_from {A} (i : Z) (l : list A) : list (Z * A) :=
  match l with
  | [] => []
  | x :: l' => (i, x) :: enumerate_from (i + 1) l'
  end.

Definition enumerate {A} (l : list A) : list (Z * A) := enumerate_from 0 l.

(** [sum(l)] *)
Definition sum (l : list Z) : Z := fold_left Z.add l 0.

(** Stable insertion: [x] was before every element of [l] in the input,
    so it stays in front of the elements it does not have to follow. *)
Fixpoint insert {A} (before : A -> A -> bool) (x : A) (l : list A) : list A :=
  match l with
  | [] => [x]
  | y :: l' => if before x y then x :: y :: l' else y :: insert before x l'
  end.

(** [sorted(l)] as the stable sort it is; [before x y] says that [x] need
    not come after [y]. *)
Definition sorted {A} (before : A -> A -> bool) (l : list A) : list A :=
  fold_right (insert before) [] l.

(** [max(l, key=key)]: the first element of greatest key;
    [None] is the [ValueError] of an empty argument. *)
Fixpoint max_by {A} (key : A -> Z) (l : list A) : option A :=
  match l with
  | [] => None
  | x :: l' =>
      match max_by key l' with
      | None => Some x
      | Some y => if key x <? key y then Some y else Some x
      end
  end.

End PyList.

(* ================================================================== *)
(** ** What the script takes from outside *)

(** The [datetime] module and the [git] subprocess.  [fromisoformat]
    returns [None] where the library raises [ValueError]; [sub_days a b] is
    [(a - b).days]; [subprocess_stdout cmd] is the captured standard output of
    the shell command [cmd]. *)
Class Runtime : Type := {
  datetime : Type;
  fromisoformat : string -> option datetime;
  strftime : datetime -> string -> string;
  hour_of : datetime -> Z;
  sub_days : datetime -> datetime -> Z;
  datetime_now : datetime;
  subprocess_stdout : string -> string
}.

(* ================================================================== *)
(** ** The script *)

Module GenerateStats.

Import PyStr Dict PyList.

Definition is_space (c : ascii) : bool :=
  let n := nat_of_ascii c in
  (((9 <=? n)%nat && (n <=? 13)%nat) || ((28 <=? n)%nat && (n <=? 32)%nat))%bool.

Fixpoint lstrip (s : string) : string :=
  match s with
  | EmptyString => EmptyString
  | String c s' => if is_space c then lstrip s' else s
  end.

Fixpoint rstrip (s : string) : string :=
  match s with
  | EmptyString => EmptyString
  | String c s' =>
      match rstrip s' with
      | EmptyString => if is_space c then EmptyString else String c EmptyString
      | r => String c r
      end
  end.

(** [s.strip()], for the white space of ASCII; the white space of Unicode
    beyond it is not told apart from other characters. *)
Definition strip (s : string) : string := rstrip (lstrip s).

Definition newline : ascii := ascii_of_nat 10.

Section WithRuntime.
Context {RT : Runtime}.

(** [run_git_command], lines 13-16 *)
Definition run_git_command (cmd : string) : string :=
  strip (subprocess_stdout cmd).

(** The dictionary built at lines 56-65. *)
Record Commit : Type := {
  hash : string;
  author : string;
  email : string;
  date : datetime;
  message : string;
  day : string;
  hour : Z;
  weekday : string
}.

(** An entry of [release_history], lines 79-82. *)
Record Release : Type := {
  release_date : string;
  release_message : string
}.

(** The dictionary [stats], lines 26-36. *)
Record Stats : Type := {
  total_commits : Z;
  authors : list (string * Z);
  commits_by_day : list (string * Z);
  commits_by_hour : list (Z * Z);
  commit_types : list (string * Z);
  file_changes : list (string * Z);
  languages : list (string * Z);
  release_history : list Release;
  productivity_score : list (string * Q)
}.

Definition empty_stats : Stats :=
  {| total_commits := 0;
     authors := [];
     commits_by_day := [];
     commits_by_hour := [];
     commit_types := [];
     file_changes := [];
     languages := [];
     release_history := [];
     productivity_score := [] |}.

Definition with_total_commits (n : Z) (s : Stats) : Stats :=
  {| total_commits := n; authors := authors s;
     commits_by_day := commits_by_day s; commits_by_hour := commits_by_hour s;
     commit_types := commit_types s; file_changes := file_changes s;
     languages := languages s; release_history := release_history s;
     productivity_score := productivity_score s |}.

Definition with_authors (d : list (string * Z)) (s : Stats) : Stats :=
  {| total_commits := total_commits s; authors := d;
     commits_by_day := commits_by_day s; commits_by_hour := commits_by_hour s;
     commit_types := commit_types s; file_changes := file_changes s;
     languages := languages s; release_history := release_history s;
     productivity_score := productivity_score s |}.

Definition with_commits_by_day (d : list (string * Z)) (s : Stats) : Stats :=
  {| total_commits := total_commits s; authors := authors s;
     commits_by_day := d; commits_by_hour := commits_by_hour s;
     commit_types := commit_types s; file_changes := file_changes s;
     languages := languages s; release_history := release_history s;
     productivity_score := productivity_score s |}.

Definition with_commits_by_hour (d : list (Z * Z)) (s : Stats) : Stats :=
  {| total_commits := total_commits s; authors := authors s;
     commits_by_day := commits_by_day s; commits_by_hour := d;
     commit_types := commit_types s; file_changes := file_changes s;
     languages := languages s; release_history := release_history s;
     productivity_score := productivity_score s |}.

Definition with_commit_types (d : list (string * Z)) (s : Stats) : Stats :=
  {| total_commits := total_commits s; authors := authors s;
     commits_by_day := commits_by_day s; commits_by_hour := commits_by_hour s;
     commit_types := d; file_changes := file_changes s;
     languages := languages s; release_history := release_history s;
     productivity_score := productivity_score s |}.

Definition with_file_changes (d : list (string * Z)) (s : Stats) : Stats :=
  {| total_commits := total_commits s; authors := authors s;
     commits_by_day := commits_by_day s; commits_by_hour := commits_by_hour s;
     commit_types := commit_types s; file_changes := d;
     languages := languages s; release_history := release_history s;
     productivity_score := productivity_score s |}.

Definition with_languages (d : list (string * Z)) (s : Stats) : Stats :=
  {| total_commits := total_commits s; authors := authors s;
     commits_by_day := commits_by_day s; commits_by_hour := commits_by_hour s;
     commit_types := commit_types s; file_changes := file_changes s;
     languages := d; release_history := release_history s;
     productivity_score := productivity_score s |}.

Definition with_release_history (l : list Release) (s : Stats) : Stats :=
  {| total_commits := total_commits s; authors := authors s;
     commits_by_day := commits_by_day s; commits_by_hour := commits_by_hour s;
     commit_types := commit_types s; file_changes := file_changes s;
     languages := languages s; release_history := l;
     productivity_score := productivity_score s |}.

Definition with_productivity_score (d : list (string * Q)) (s : Stats) : Stats :=
  {| total_commits := total_commits s; authors := authors s;
     commits_by_day := commits_by_day s; commits_by_hour := commits_by_hour s;
     commit_types := commit_types s; file_changes := file_changes s;
     languages := languages s; release_history := release_history s;
     productivity_score := d |}.

(* ---------------------------------------------------------------- *)
(** *** [analyze_git_history], lines 18-113 *)

(** Lines 76-92: the classification block of the aggregator. *)
Definition classify_commit (stats : Stats) (commit : Commit) (message : string)
  : Stats :=
  let msg_lower := lower message in
  if contains "release" msg_lower || contains "version" msg_lower then
    let stats := with_commit_types (incr "release" (commit_types stats)) stats in
    with_release_history
      (release_history stats ++
         [{| release_date := day commit; release_message := message |}])
      stats
  else if contains "fix" msg_lower then
    with_commit_types (incr "fix" (commit_types stats)) stats
  else if contains "add" msg_lower || contains "implement" msg_lower then
    with_commit_types (incr "feature" (commit_types stats)) stats
  else if contains "merge" msg_lower then
    with_commit_types (incr "merge" (commit_types stats)) stats
  else if contains "test" msg_lower then
    with_commit_types (incr "test" (commit_types stats)) stats
  else
    with_commit_types (incr "other" (commit_types stats)) stats.

(** Lines 97-102: the body of the loop over the changed files. *)
Definition count_file (stats : Stats) (file : string) : Stats :=
  if String.eqb file "" then stats
  else
    let stats := with_file_changes (incr file (file_changes stats)) stats in
    if contains "." file then
      let ext := last (split "." file) "" in
      with_languages (incr ext (languages stats)) stats
    else stats.

(** Lines 95-102. *)
Definition count_files (stats : Stats) (commit_hash : string) : Stats :=
  let files_changed :=
    run_git_command
      ("git diff-tree --no-commit-id --name-only -r " ++ commit_hash) in
  fold_left count_file (split newline files_changed) stats.

(** Line 52; [None] is the exception caught at line 53. *)
Definition parse_date (date_str : string) : option datetime :=
  fromisoformat (replace "Z" "+00:00" date_str).

(** Lines 39-102: the body of the loop over the lines of the log. *)
Definition process_line (acc : list Commit * Stats) (line : string)
  : list Commit * Stats :=
  let '(commits, stats) := acc in
  if String.eqb line "" then acc
  else
    let parts := split "|" line in
    if 5 <=? len parts then
      let commit_hash := nth 0 parts "" in
      let author := nth 1 parts "" in
      let email := nth 2 parts "" in
      let date_str := nth 3 parts "" in
      let message := nth 4 parts "" in
      match parse_date date_str with
      | None => acc
      | Some date =>
          let commit :=
            {| hash := commit_hash;
               author := author;
               email := email;
               date := date;
               message := message;
               day := strftime date "%Y-%m-%d";
               hour := hour_of date;
               weekday := strftime date "%A" |} in
          let commits := commits ++ [commit] in
          let stats := with_total_commits (total_commits stats + 1) stats in
          let stats := with_authors (incr author (authors stats)) stats in
          let stats :=
            with_commits_by_day (incr (day commit) (commits_by_day stats)) stats in
          let stats :=
            with_commits_by_hour
              (incr (hour commit) (commits_by_hour stats)) stats in
          let stats := classify_commit stats commit message in
          let stats := count_files stats commit_hash in
          (commits, stats)
      end
    else acc.

(** Lines 25-102: the loop over [commits_raw]. *)
Definition aggregate (commits_raw : string) : list Commit * Stats :=
  fold_left process_line (split newline commits_raw) ([], empty_stats).

(** Line 110; the float division raises when its divisor is zero. *)
Definition decay_weight (age_days : Z) : Result Q :=
  let divisor := (1 + inject_Z age_days / 30)%Q in
  if Qeq_bool divisor 0 then Raise ZeroDivisionError
  else Ok (1 / divisor)%Q.

(** Lines 107-111: the body of the loop over [commits_by_day]. *)
Definition score_day (today : datetime) (stats : Stats) (item : string * Z)
  : Result Stats :=
  let '(day, count) := item in
  match fromisoformat day with
  | None => Raise ValueError
  | Some day_date =>
      let age_days := sub_days today day_date in
      weight <- decay_weight age_days ;;
      Ok (with_productivity_score
            (set day (inject_Z count * weight)%Q (productivity_score stats))
            stats)
  end.

Fixpoint score_days (today : datetime) (stats : Stats)
  (days : list (string * Z)) : Result Stats :=
  match days with
  | [] => Ok stats
  | item :: days' =>
      stats' <- score_day today stats item ;;
      score_days today stats' days'
  end.

(** Lines 104-111. *)
Definition finalize (stats : Stats) : Result Stats :=
  let today := datetime_now in
  score_days today stats (items (commits_by_day stats)).

Definition log_format : string := "%H|%an|%ae|%ad|%s|%b".

Definition analyze_git_history : Result (list Commit * Stats) :=
  let commits_raw :=
    run_git_command
      ("git log --pretty=format:'" ++ log_format ++ "' --date=iso-strict --all") in
  let '(commits, stats) := aggregate commits_raw in
  stats <- finalize stats ;;
  Ok (commits, stats).


(* ---------------------------------------------------------------- *)
(** *** [create_musical_representation], lines 115-184 *)

Record Note : Type := {
  pitch : string;
  duration : Q;
  instrument : string;
  velocity : Z;
  time : Q
}.

Record Movement : Type := {
  name : string;
  notes : list Note
}.

Record MusicalData : Type := {
  title : string;
  tempo : Z;
  time_signature : string;
  movements : list Movement
}.

(** Lines 119-126. *)
Definition note_map : list (string * string) :=
  [("release", "C5"); ("feature", "A4"); ("fix", "F4");
   ("merge", "D4"); ("test", "G4"); ("other", "C4")].

(** Line 130. *)
Definition instruments : list string :=
  ["piano"; "violin"; "cello"; "flute"; "guitar"].

(** [d[k]] on a plain dictionary *)
Definition getitem {V} (k : string) (d : list (string * V)) : Result V :=
  match get k d with
  | Some v => Ok v
  | None => Raise KeyError
  end.

(** Lines 131-134: the dictionary comprehension. *)
Fixpoint assign_instruments (pairs : list (Z * string))
  (author_instruments : list (string * string))
  : Result (list (string * string)) :=
  match pairs with
  | [] => Ok author_instruments
  | (i, author) :: pairs' =>
      ins <- index instruments (i mod len instruments) ;;
      assign_instruments pairs' (set author ins author_instruments)
  end.

(** Lines 147-148: the body of the grouping loop. *)
Definition add_to_week (commits_by_week : list (string * list Commit))
  (commit : Commit) : list (string * list Commit) :=
  let week := strftime (date commit) "%Y-W%U" in
  set week (get_default week [] commits_by_week ++ [commit]) commits_by_week.

(** Lines 145-148. *)
Definition group_by_week (commits : list Commit)
  : list (string * list Commit) :=
  fold_left add_to_week commits [].

(** Lines 158-170: the classification block of the encoder. *)
Definition commit_type_of (commit : Commit) : string :=
  let msg_lower := lower (message commit) in
  let commit_type := "other" in
  if contains "release" msg_lower || contains "version" msg_lower then "release"
  else if contains "fix" msg_lower then "fix"
  else if contains "add" msg_lower || contains "implement" msg_lower then "feature"
  else if contains "merge" msg_lower then "merge"
  else if contains "test" msg_lower then "test"
  else commit_type.

(** Lines 158-178: the note of one commit. *)
Definition make_note (author_instruments : list (string * string))
  (commit : Commit) : Result Note :=
  let commit_type := commit_type_of commit in
  pitch <- getitem commit_type note_map ;;
  Ok {| pitch := pitch;
        duration := if String.eqb commit_type "release" then 1 else (1 # 2);
        instrument := get_default (author commit) "piano" author_instruments;
        velocity := if String.eqb commit_type "release" then 100 else 80;
        time := (inject_Z (hour commit) / 24)%Q |}.

(** Lines 152-182: the movement of one week. *)
Definition make_movement (author_instruments : list (string * string))
  (item : string * list Commit) : Result Movement :=
  let '(week, week_commits) := item in
  notes <- map_result (make_note author_instruments) week_commits ;;
  Ok {| name := ("Week of " ++ week)%string; notes := notes |}.

(** The order of [sorted] on the items of [commits_by_week]: the weeks are
    the keys of a dictionary, hence distinct, and the tuples compare by
    their week. *)
Definition week_before (x y : string * list Commit) : bool :=
  PyStr.leb (fst x) (fst y).

Definition create_musical_representation (commits : list Commit)
  (stats : Stats) : Result MusicalData :=
  let authors := keys (authors stats) in
  author_instruments <- assign_instruments (enumerate authors) [] ;;
  let commits_by_week := group_by_week commits in
  movements <-
    map_result (make_movement author_instruments)
      (lastn 10 (sorted week_before (items commits_by_week))) ;;
  Ok {| title := "The Para Symphony - A Git History in Music";
        tempo := 120;
        time_signature := "4/4";
        movements := movements |}.

(* ---------------------------------------------------------------- *)
(** *** [generate_summary_report], lines 186-265 *)

(** The glyphs of the report, as the source file has them. *)
Definition star_glyph : string := "â­".
Definition block_glyph : string := "â–ˆ".
Definition dot_glyph : string := "Â·".
Definition brightest_glyph : string := "ðŸŒŸ".
Definition recent_glyph : string := "ðŸ“ˆ".
Definition hottest_glyph : string := "ðŸ”¥".

(** [int(x)] of a float: truncation towards zero *)
Definition int_of (q : Q) : Z := Z.quot (Qnum q) (Zpos (Qden q)).

Definition round_half_even (q : Q) : Z :=
  let n := Qnum q in
  let d := Zpos (Qden q) in
  let fl := n / d in
  match Z.compare (2 * (n mod d)) d with
  | Lt => fl
  | Gt => fl + 1
  | Eq => if Z.even fl then fl else fl + 1
  end.

(** [f"{q:.1f}"] of the exact value.  The script formats the float
    nearest to it, which at a tie of the last digit can round the other
    way. *)
Definition format_1f (q : Q) : string :=
  let m := round_half_even (Qabs q * 10)%Q in
  (if Qle_bool 0 q then "" else "-") ++ str (m / 10) ++ "." ++ str (m mod 10).

(** [f"{h:02d}"] *)
Definition format_02d (h : Z) : string :=
  if (0 <=? h) && (h <? 10) then "0" ++ str h else str h.

(** [count / total] of two integers, as the exact quotient; the script
    has the float nearest to it, and [OverflowError] beyond the range of the
    floats. *)
Definition true_div (a b : Z) : Result Q :=
  if b =? 0 then Raise ZeroDivisionError else Ok (inject_Z a / inject_Z b)%Q.

(** [max(l)] of a list of integers *)
Definition max_list (l : list Z) : Result Z :=
  match max_by (fun x => x) l with
  | Some m => Ok m
  | None => Raise ValueError
  end.

(** [sorted(d.items(), key=lambda x: x[1], reverse=True)] *)
Definition by_count_desc {K} (x y : K * Z) : bool := snd y <=? snd x.

Definition banner : string := PyStr.repeat "=" 60.

(** Lines 203-205. *)
Definition contributor_line (item : string * Z) : string :=
  let '(author, count) := item in
  let stars := PyStr.repeat star_glyph (Z.min (count / 10 + 1) 5) in
  "  " ++ author ++ ": " ++ str count ++ " commits " ++ stars.

(** Lines 212-214. *)
Definition commit_type_line (total_typed : Z) (item : string * Z)
  : Result string :=
  let '(ctype, count) := item in
  ratio <- true_div count total_typed ;;
  let percentage := (ratio * 100)%Q in
  let bar := PyStr.repeat block_glyph (int_of (percentage / 2)%Q) in
  Ok ("  " ++ capitalize ctype ++ ": " ++ bar ++ " " ++ format_1f percentage
        ++ "%")%string.

(** Lines 222-224. *)
Definition hour_bar (stats : Stats) (max_commits : Z) (hour : Z)
  : Result string :=
  let count := get_default hour 0 (commits_by_hour stats) in
  ratio <- true_div count max_commits ;;
  let height := int_of (ratio * 8)%Q in
  Ok (if 0 <? height then PyStr.repeat block_glyph height else dot_glyph).

(** [range(start, stop, step)] with [n] elements *)
Fixpoint range_step (start step : Z) (n : nat) : list Z :=
  match n with
  | O => []
  | S n' => start :: range_step (start + step) step n'
  end.

(** Lines 246-260: the facts below the heading [COSMIC FACTS:]. *)
Definition brightest_day_line (best_day : string * Z) : string :=
  "  " ++ brightest_glyph ++ " Brightest Day: " ++ fst best_day ++ " with "
    ++ str (snd best_day) ++ " commits".

Definition recent_activity_line (avg_recent : Q) : string :=
  "  " ++ recent_glyph ++ " Recent Activity: " ++ format_1f avg_recent
    ++ " commits/day (last 30 days)".

Definition hottest_file_line (most_changed : string * Z) : string :=
  "  " ++ hottest_glyph ++ " Hottest File: " ++ fst most_changed ++ " ("
    ++ str (snd most_changed) ++ " changes)".

Definition cosmic_facts (stats : Stats) : Result (list string) :=
  let report := [] in
  report <-
    match commits_by_day stats with
    | [] => Ok report
    | _ =>
        match max_by snd (items (commits_by_day stats)) with
        | Some best_day => Ok (report ++ [brightest_day_line best_day])
        | None => Raise ValueError
        end
    end ;;
  let recent_days := lastn 30 (sorted PyStr.leb (keys (commits_by_day stats))) in
  let recent_commits :=
    sum (map (fun day => get_default day 0 (commits_by_day stats)) recent_days) in
  let avg_recent :=
    match recent_days with
    | [] => 0%Q
    | _ => (inject_Z recent_commits / inject_Z (len recent_days))%Q
    end in
  let report := report ++ [recent_activity_line avg_recent] in
  match file_changes stats with
  | [] => Ok report
  | _ =>
      match max_by snd (items (file_changes stats)) with
      | Some most_changed => Ok (report ++ [hottest_file_line most_changed])
      | None => Raise ValueError
      end
  end.

(** Lines 189-263: the list [report]. *)
Definition report_lines (stats : Stats) : Result (list string) :=
  let report := [banner; "PARA GIT HISTORY: A COSMIC ANALYSIS"; banner; ""] in
  let report :=
    report ++
      [("Total Commits: " ++ str (total_commits stats))%string;
       ("Active Days: " ++ str (len (commits_by_day stats)))%string;
       ("Contributors: " ++ str (len (authors stats)))%string;
       ""] in
  let report := report ++ ["TOP STAR GAZERS:"] in
  let report :=
    report ++
      map contributor_line
        (firstn 5 (sorted by_count_desc (items (authors stats)))) in
  let report := report ++ [""; "COMMIT CONSTELLATION TYPES:"] in
  let total_typed := sum (values (commit_types stats)) in
  type_lines <-
    map_result (commit_type_line total_typed)
      (sorted by_count_desc (items (commit_types stats))) ;;
  let report := report ++ type_lines ++ [""; "CODING HOURS (24h UTC):"] in
  max_commits <-
    match commits_by_hour stats with
    | [] => Ok 1
    | _ => max_list (values (commits_by_hour stats))
    end ;;
  hour_chart <- map_result (hour_bar stats max_commits) (range_step 0 1 24) ;;
  let report :=
    report ++
      [("  " ++ String.concat ""
                  (map (fun h => format_02d h ++ " ") (range_step 0 3 8)))%string;
       ("  " ++ String.concat "   " (every_third hour_chart))%string;
       ""] in
  let report := report ++ ["LANGUAGE UNIVERSE:"] in
  let top_langs := firstn 10 (sorted by_count_desc (items (languages stats))) in
  let report :=
    report ++
      map (fun '(lang, count) =>
             ("  ." ++ lang ++ ": " ++ str count ++ " files touched")%string)
        top_langs in
  let report := report ++ [""; "RECENT STELLAR EVENTS (Releases):"] in
  let report :=
    report ++
      map (fun release =>
             ("  " ++ release_date release ++ ": " ++ release_message release)
             %string)
        (lastn 5 (release_history stats)) in
  let report := report ++ [""; "COSMIC FACTS:"] in
  facts <- cosmic_facts stats ;;
  let report := report ++ facts in
  Ok (report ++ [""; banner]).

Definition generate_summary_report (stats : Stats) : Result string :=
  report <- report_lines stats ;;
  Ok (String.concat (String newline "") report).

End WithRuntime.
End GenerateStats.

(* ================================================================== *)
(** ** A runtime to run the script on examples

    A small proleptic Gregorian calendar with the timestamps
    [YYYY-MM-DD[*HH[:MM[:SS]][+HH:MM[:SS]]]] that [git log --date=iso-strict]
    prints, the three [strftime] formats the script uses, and a [git]
    process given as a table from command lines to their output.  It serves
    the examples alone: no theorem on the script depends on it.  It takes
    fewer timestamps than the library does (no fractions of a second, no
    offset without a colon, no basic format), and it writes every year with
    four digits. *)

Module Calendar.

Record t : Type := {
  year : Z; month : Z; mday : Z;
  hh : Z; mi : Z; ss : Z;
  utcoffset : option Z
}.

Definition is_leap (y : Z) : bool :=
  ((y mod 4 =? 0) && negb (y mod 100 =? 0)) || (y mod 400 =? 0).

Definition days_in_month (y m : Z) : Z :=
  if m =? 2 then (if is_leap y then 29 else 28)
  else if (m =? 4) || (m =? 6) || (m =? 9) || (m =? 11) then 30
  else 31.

Definition days_before_year (y : Z) : Z :=
  let p := y - 1 in p * 365 + p / 4 - p / 100 + p / 400.

Fixpoint days_before_month_nat (y : Z) (m : nat) : Z :=
  match m with
  | O => 0
  | S m' => days_before_month_nat y m' + days_in_month y (Z.of_nat m)
  end.

(** Days of the year before the first of month [m]. *)
Definition days_before_month (y m : Z) : Z :=
  days_before_month_nat y (Z.to_nat (m - 1)).

(** [toordinal()]: 0001-01-01 is day 1. *)
Definition toordinal (d : t) : Z :=
  days_before_year (year d) + days_before_month (year d) (month d) + mday d.

(** [weekday()]: Monday is 0. *)
Definition weekday (d : t) : Z := (toordinal d + 6) mod 7.

Definition day_name (d : t) : string :=
  nth (Z.to_nat (weekday d))
    ["Monday"; "Tuesday"; "Wednesday"; "Thursday"; "Friday"; "Saturday";
     "Sunday"] "".

(** [%U]: week of the year, the first Sunday opening week 1. *)
Definition week_of_year (d : t) : Z :=
  let yday := days_before_month (year d) (month d) + mday d - 1 in
  let wday := (weekday d + 1) mod 7 in
  (yday + 7 - wday) / 7.

Definition pad (width : nat) (n : Z) : string :=
  let s := PyStr.str n in
  PyStr.repeat "0" (Z.of_nat (width - String.length s)) ++ s.

Definition strftime (d : t) (fmt : string) : string :=
  if String.eqb fmt "%Y-%m-%d" then
    pad 4 (year d) ++ "-" ++ pad 2 (month d) ++ "-" ++ pad 2 (mday d)
  else if String.eqb fmt "%A" then day_name d
  else if String.eqb fmt "%Y-W%U" then
    pad 4 (year d) ++ "-W" ++ pad 2 (week_of_year d)
  else fmt.

Definition digit (c : ascii) : option Z :=
  let n := nat_of_ascii c in
  if ((48 <=? n)%nat && (n <=? 57)%nat)%bool
  then Some (Z.of_nat (n - 48)) else None.

(** Read exactly [n] decimal digits. *)
Fixpoint digits (n : nat) (acc : Z) (s : string) : option (Z * string) :=
  match n with
  | O => Some (acc, s)
  | S n' =>
      match s with
      | String c s' =>
          match digit c with
          | Some v => digits n' (10 * acc + v) s'
          | None => None
          end
      | EmptyString => None
      end
  end.

Definition expect (c : ascii) (s : string) : option string :=
  match s with
  | String c' s' => if Ascii.eqb c c' then Some s' else None
  | EmptyString => None
  end.

Definition opt_bind {A B} (m : option A) (k : A -> option B) : option B :=
  match m with Some a => k a | None => None end.

(** [HH[:MM[:SS]]], returning what follows. *)
Definition clock (s : string) : option (Z * Z * Z * string) :=
  opt_bind (digits 2 0 s) (fun '(h, s1) =>
  match expect ":" s1 with
  | None => Some (h, 0, 0, s1)
  | Some s2 =>
      opt_bind (digits 2 0 s2) (fun '(m, s3) =>
      match expect ":" s3 with
      | None => Some (h, m, 0, s3)
      | Some s4 =>
          opt_bind (digits 2 0 s4) (fun '(sec, s5) => Some (h, m, sec, s5))
      end)
  end).

Definition valid_clock (h m s : Z) : bool :=
  (h <? 24) && (m <? 60) && (s <? 60).

(** [+HH:MM[:SS]] or [-HH:MM[:SS]] up to the end, in seconds. *)
Definition offset (s : string) : option Z :=
  match s with
  | String c s' =>
      let sign :=
        if Ascii.eqb c "+" then Some 1
        else if Ascii.eqb c "-" then Some (-1) else None in
      opt_bind sign (fun sg =>
      opt_bind (clock s') (fun '(h, m, sec, rest) =>
      if String.eqb rest "" && valid_clock h m sec
           && (5 <=? String.length s')%nat
      then Some (sg * (h * 3600 + m * 60 + sec)) else None))
  | EmptyString => None
  end.

Definition fromisoformat (s : string) : option t :=
  opt_bind (digits 4 0 s) (fun '(y, s1) =>
  opt_bind (expect "-" s1) (fun s2 =>
  opt_bind (digits 2 0 s2) (fun '(m, s3) =>
  opt_bind (expect "-" s3) (fun s4 =>
  opt_bind (digits 2 0 s4) (fun '(d, s5) =>
  if (1 <=? y) && (1 <=? m) && (m <=? 12) && (1 <=? d)
       && (d <=? days_in_month y m)
  then
    match s5 with
    | EmptyString =>
        Some {| year := y; month := m; mday := d;
                hh := 0; mi := 0; ss := 0; utcoffset := None |}
    | String _ s6 =>
        opt_bind (clock s6) (fun '(h, mn, sec, rest) =>
        if valid_clock h mn sec then
          match rest with
          | EmptyString =>
              Some {| year := y; month := m; mday := d;
                      hh := h; mi := mn; ss := sec; utcoffset := None |}
          | _ =>
              opt_bind (offset rest) (fun off =>
              Some {| year := y; month := m; mday := d;
                      hh := h; mi := mn; ss := sec; utcoffset := Some off |})
          end
        else None)
    end
  else None))))).

Definition seconds (d : t) : Z :=
  toordinal d * 86400 + hh d * 3600 + mi d * 60 + ss d
  - match utcoffset d with Some off => off | None => 0 end.

(** [(a - b).days] *)
Definition sub_days (a b : t) : Z := (seconds a - seconds b) / 86400.

(** The output of the commands of a table, and nothing for the others. *)
Fixpoint lookup_command (table : list (string * string)) (cmd : string)
  : string :=
  match table with
  | [] => ""
  | (c, out) :: table' =>
      if String.eqb c cmd then out else lookup_command table' cmd
  end.

End Calendar.

Definition calendar_runtime (today : Calendar.t)
  (git : list (string * string)) : Runtime :=
  {| datetime := Calendar.t;
     fromisoformat := Calendar.fromisoformat;
     strftime := Calendar.strftime;
     hour_of := Calendar.hh;
     sub_days := Calendar.sub_days;
     datetime_now := today;
     subprocess_stdout := Calendar.lookup_command git |}.

(** The log of the end-to-end scenario. *)
Definition scenario_log : string :=
  String.concat (String GenerateStats.newline "")
    ["abc123|Alice|a@x.com|2024-01-01T10:00:00+00:00|fix: null pointer|";
     "def456|Bob|b@x.com|2024-01-01T11:00:00+00:00|add: login page|";
     "ghi789|Alice|a@x.com|2024-01-02T09:00:00+00:00|release: v1.0|"].

Definition scenario_today : Calendar.t :=
  {| Calendar.year := 2024; Calendar.month := 1; Calendar.mday := 31;
     Calendar.hh := 12; Calendar.mi := 0; Calendar.ss := 0;
     Calendar.utcoffset := None |}.

Definition scenario_runtime : Runtime :=
  calendar_runtime scenario_today
    [("git log --pretty=format:'%H|%an|%ae|%ad|%s|%b' --date=iso-strict --all",
      scenario_log)].

(** A record of the scenario's runtime with a message of one's choice. *)
Definition scenario_commit (message : string)
  : @GenerateStats.Commit scenario_runtime :=
  @GenerateStats.Build_Commit scenario_runtime
    "abc123" "Alice" "a@x.com" scenario_today message
    "2024-01-31" 12 "Wednesday".

(** The records and the accumulator of the scenario after the loop. *)
Definition scenario_commits : list (@GenerateStats.Commit scenario_runtime) :=
  fst (@GenerateStats.aggregate scenario_runtime scenario_log).

Definition scenario_stats : GenerateStats.Stats :=
  snd (@GenerateStats.aggregate scenario_runtime scenario_log).

(** A record of Bob on the day of the scenario's report. *)
Definition bob_commit : @GenerateStats.Commit scenario_runtime :=
  @GenerateStats.Build_Commit scenario_runtime
    "def456" "Bob" "b@x.com" scenario_today "add: login page"
    "2024-01-31" 12 "Wednesday".


(** An accumulator whose only counter of a commit type is zero. *)
Definition zero_typed_stats : GenerateStats.Stats :=
  GenerateStats.with_commit_types [("fix", 0)] GenerateStats.empty_stats.

(** A log of two commits, the first with four changed paths, the second
    with none. *)
Definition files_log : string :=
  String.concat (String GenerateStats.newline "")
    ["abc123|Alice|a@x.com|2024-01-01T10:00:00+00:00|fix: null pointer|";
     "def456|Bob|b@x.com|2024-01-01T11:00:00+00:00|merge branch|"].

Definition files_runtime : Runtime :=
  calendar_runtime scenario_today
    [("git log --pretty=format:'%H|%an|%ae|%ad|%s|%b' --date=iso-strict --all",
      files_log);
     ("git diff-tree --no-commit-id --name-only -r abc123",
      String.concat (String GenerateStats.newline "")
        ["src/main.rs"; "README"; "pkg/data.tar.gz"; "src/lib.rs"])].

(* ================================================================== *)
(** ** The vocabulary of the specification *)

Module Spec.

Import PyStr.

(** The six commit-type tags. *)
Inductive Tag : Type := Release | Fix | Feature | Merge | Test | Other.

Definition tag_name (t : Tag) : string :=
  match t with
  | Release => "release"
  | Fix => "fix"
  | Feature => "feature"
  | Merge => "merge"
  | Test => "test"
  | Other => "other"
  end.

Definition all_tags : list Tag := [Release; Fix; Feature; Merge; Test; Other].

(** [message] contains [keyword], upper and lower case being the same. *)
Definition mentions (keyword message : string) : Prop :=
  exists pre w post,
    message = (pre ++ w ++ post)%string /\ lower w = lower keyword.

(** The priority order of the classifier: keywords and the tag they give. *)
Definition priority_rules : list (list string * Tag) :=
  [(["release"; "version"], Release);
   (["fix"], Fix);
   (["add"; "implement"], Feature);
   (["merge"], Merge);
   (["test"], Test)].

(** First match wins; without a match the tag is [Other]. *)
Inductive first_match (message : string)
  : list (list string * Tag) -> Tag -> Prop :=
| fm_none : first_match message [] Other
| fm_here keywords tag rules :
    (exists k, In k keywords /\ mentions k message) ->
    first_match message ((keywords, tag) :: rules) tag
| fm_later keywords tag rules tag' :
    (forall k, In k keywords -> ~ mentions k message) ->
    first_match message rules tag' ->
    first_match message ((keywords, tag) :: rules) tag'.

Definition classified (message : string) (tag : Tag) : Prop :=
  first_match message priority_rules tag.

(** The classification-to-pitch table and the two-valued fields. *)
Definition pitch_table (t : Tag) : string :=
  match t with
  | Release => "C5"
  | Feature => "A4"
  | Fix => "F4"
  | Merge => "D4"
  | Test => "G4"
  | Other => "C4"
  end.

Definition note_duration (t : Tag) : Q :=
  match t with Release => 1 | _ => 1 # 2 end.

Definition note_velocity (t : Tag) : Z :=
  match t with Release => 100 | _ => 80 end.

(** The elements of a list in the order of their first appearance. *)
Fixpoint first_seen (seen : list string) (l : list string) : list string :=
  match l with
  | [] => []
  | x :: l' =>
      if existsb (String.eqb x) seen then first_seen seen l'
      else x :: first_seen (x :: seen) l'
  end.

(** [c] does not occur in [s]. *)
Fixpoint free_of (c : ascii) (s : string) : Prop :=
  match s with
  | EmptyString => True
  | String c' s' => c' <> c /\ free_of c s'
  end.

(** [ext] is what follows the last ['.'] of [path]. *)
Definition suffix_after_last_dot (path ext : string) : Prop :=
  exists stem, path = (stem ++ "." ++ ext)%string /\ free_of "." ext.

(** How often [x] occurs in [l]. *)
Definition occurrences (x : string) (l : list string) : Z :=
  Z.of_nat (count_occ string_dec l x).

End Spec.

(** The lines of the three facts under [COSMIC FACTS:], by their fixed
    beginnings. *)
Definition is_brightest_day_line (line : string) : bool :=
  prefix ("  " ++ GenerateStats.brightest_glyph ++ " Brightest Day: ") line.

Definition is_recent_activity_line (line : string) : bool :=
  prefix ("  " ++ GenerateStats.recent_glyph ++ " Recent Activity: ") line.

Definition is_hottest_file_line (line : string) : bool :=
  prefix ("  " ++ GenerateStats.hottest_glyph ++ " Hottest File: ") line.

(** An accumulator whose mappings are all empty. *)
Definition blank_stats (n : Z) (scores : list (string * Q))
  : GenerateStats.Stats :=
  GenerateStats.with_productivity_score scores
    (GenerateStats.with_total_commits n GenerateStats.empty_stats).

Section ProofVocabulary.
Context {RT : Runtime}.
Import GenerateStats.

(** The week label of a commit, line 147. *)
Definition week_of (commit : Commit) : string :=
  strftime (date commit) "%Y-W%U".

(** The commits of week [w], in stream order. *)
Definition commits_of_week (w : string) (commits : list Commit)
  : list Commit :=
  filter (fun c => String.eqb (week_of c) w) commits.

(** A line that gives a record: not empty, at least five fields, and a
    fourth field that parses. *)
Definition accepts (line : string) : bool :=
  negb (String.eqb line "")
  && (5 <=? length (PyStr.split "|" line))%nat
  && match parse_date (nth 3 (PyStr.split "|" line) "") with
     | Some _ => true
     | None => false
     end.

(** The fields that the loop over the changed files leaves alone. *)
Definition same_commit_counts (s s' : Stats) : Prop :=
  total_commits s' = total_commits s /\
  authors s' = authors s /\
  commits_by_day s' = commits_by_day s /\
  commits_by_hour s' = commits_by_hour s /\
  commit_types s' = commit_types s /\
  release_history s' = release_history s /\
  productivity_score s' = productivity_score s.

(** The record that a line of the log gives. *)
Definition record_of (line : string) (commit : Commit) : Prop :=
  exists date,
    parse_date (nth 3 (PyStr.split "|" line) "") = Some date /\
    commit =
      {| hash := nth 0 (PyStr.split "|" line) "";
         author := nth 1 (PyStr.split "|" line) "";
         email := nth 2 (PyStr.split "|" line) "";
         date := date;
         message := nth 4 (PyStr.split "|" line) "";
         day := strftime date "%Y-%m-%d";
         hour := hour_of date;
         weekday := strftime date "%A" |}.

(** The sum of the counters of the six tags. *)
Definition sum_over_tags (commit_types : list (string * Z)) : Z :=
  PyList.sum
    (map (fun tag => Dict.get_default (Spec.tag_name tag) 0 commit_types)
       Spec.all_tags).

(** The record of lines 56-65 for the fields of a line and its date. *)
Definition commit_of (parts : list string) (date : datetime) : Commit :=
  {| hash := nth 0 parts "";
     author := nth 1 parts "";
     email := nth 2 parts "";
     date := date;
     message := nth 4 parts "";
     day := strftime date "%Y-%m-%d";
     hour := hour_of date;
     weekday := strftime date "%A" |}.

(** Lines 70-73: the four counters every record touches. *)
Definition count_commit (stats : Stats) (commit : Commit) : Stats :=
  with_commits_by_hour (Dict.incr (hour commit) (commits_by_hour stats))
    (with_commits_by_day (Dict.incr (day commit) (commits_by_day stats))
       (with_authors (Dict.incr (author commit) (authors stats))
          (with_total_commits (total_commits stats + 1) stats))).

End ProofVocabulary.

(* ================================================================== *)
(** ** The main program, lines 267-307

    What [main] prints and what it hands to [json.dump] and [f.write], in
    the order of the source.  The serialisation to JSON text and the file
    system are outside the script; a file is recorded as its name and the
    object written to it.  Every [print], [open] and write can be refused
    from outside (an encoding that lacks a character, a full disk, a closed
    pipe): the operations are numbered, and a parameter of [main] says which
    of them go through.  [generated_at] is the text of
    [datetime.now().isoformat()] at line 289, a second reading of the
    clock. *)

Module MainProgram.

Import PyStr Dict PyList GenerateStats.

(** The dictionary [stats_json], lines 288-298. *)
Record StatsJson : Type := {
  generated_at : string;
  json_total_commits : Z;
  json_authors : list (string * Z);
  json_commit_types : list (string * Z);
  json_languages : list (string * Z);
  recent_activity : list (string * Z)
}.

(** The order of [sorted] on pairs of a day and a count: by the day, and
    by the count for equal days. *)
Definition pair_before (x y : string * Z) : bool :=
  PyStr.ltb (fst x) (fst y) || (String.eqb (fst x) (fst y) && (snd x <=? snd y)).

(** [{day: count for day, count in items}] *)
Definition dict_of_items (items : list (string * Z)) : list (string * Z) :=
  fold_left (fun d item => set (fst item) (snd item) d) items [].

Section WithRuntime.
Context {RT : Runtime}.

(** Lines 288-298. *)
Definition stats_json (generated_at : string) (stats : Stats) : StatsJson :=
  {| generated_at := generated_at;
     json_total_commits := total_commits stats;
     json_authors := authors stats;
     json_commit_types := commit_types stats;
     json_languages := languages stats;
     recent_activity :=
       dict_of_items
         (lastn 30 (sorted pair_before (items (commits_by_day stats)))) |}.

(** What a file receives. *)
Inductive Artifact : Type :=
| JsonOfMusic (musical_data : MusicalData)
| JsonOfStats (stats_json : StatsJson)
| Text (text : string).

(** A file that [main] has opened for writing: cut to nothing and not
    written to the end, or written and closed. *)
Inductive FileState : Type :=
| Truncated
| Written (content : Artifact).

(** The standard output, one entry for every completed [print], and the
    files opened so far. *)
Record World : Type := {
  stdout : list string;
  files : list (string * FileState)
}.

(** How a run of [main] ends: it returns, one of its computations raises,
    or one of its operations on the outside world does. *)
Inductive Outcome : Type :=
| Returned
| Raised (e : PyError)
| Failed (operation : nat).

Definition print (text : string) (w : World) : World :=
  {| stdout := stdout w ++ [text]; files := files w |}.

(** [open(name, 'w')] *)
Definition open_w (name : string) (w : World) : World :=
  {| stdout := stdout w; files := set name Truncated (files w) |}.

(** [json.dump(content, f)] or [f.write(content)], and the end of the
    [with] block. *)
Definition dump (name : string) (content : Artifact) (w : World) : World :=
  {| stdout := stdout w; files := set name (Written content) (files w) |}.

(** The operation of number [operation]: it goes through, or it raises and
    leaves the world as it found it. *)
Definition attempt (io_ok : nat -> bool) (operation : nat)
  (effect : World -> World) (w : World) (rest : World -> World * Outcome)
  : World * Outcome :=
  if io_ok operation then rest (effect w) else (w, Failed operation).

Definition hello_text : string := "ðŸŒŒ Analyzing Para's Git Universe...".
Definition done_text : string := String newline "âœ¨ Analysis complete! Check out:".
Definition done_report : string := "  - cosmic_analysis.txt: Detailed statistics report".
Definition done_symphony : string := "  - git_symphony.json: Musical representation of commits".
Definition done_stats : string := "  - git_stats.json: Raw statistics data".
Definition done_index : string := "  - index.html: Interactive constellation visualization".

(** [main], lines 267-307: the world it leaves behind and how it ends. *)
Definition main (io_ok : nat -> bool) (generated_at : string) (w : World)
  : World * Outcome :=
  attempt io_ok 0 (print hello_text) w (fun w =>
  match analyze_git_history with
  | Raise e => (w, Raised e)
  | Ok (commits, stats) =>
  match create_musical_representation commits stats with
  | Raise e => (w, Raised e)
  | Ok musical_data =>
  attempt io_ok 1 (open_w "git_symphony.json") w (fun w =>
  attempt io_ok 2 (dump "git_symphony.json" (JsonOfMusic musical_data)) w
    (fun w =>
  match generate_summary_report stats with
  | Raise e => (w, Raised e)
  | Ok report =>
  attempt io_ok 3 (print report) w (fun w =>
  attempt io_ok 4 (open_w "cosmic_analysis.txt") w (fun w =>
  attempt io_ok 5 (dump "cosmic_analysis.txt" (Text report)) w (fun w =>
  let stats_json := stats_json generated_at stats in
  attempt io_ok 6 (open_w "git_stats.json") w (fun w =>
  attempt io_ok 7 (dump "git_stats.json" (JsonOfStats stats_json)) w (fun w =>
  attempt io_ok 8 (print done_text) w (fun w =>
  attempt io_ok 9 (print done_report) w (fun w =>
  attempt io_ok 10 (print done_symphony) w (fun w =>
  attempt io_ok 11 (print done_stats) w (fun w =>
  attempt io_ok 12 (print done_index) w (fun w =>
  (w, Returned)))))))))))
  end))
  end
  end).

(** The three files of a complete run, in the order of their writing. *)
Definition complete_files (musical_data : MusicalData) (report : string)
  (stats_json : StatsJson) : list (string * FileState) :=
  [("git_symphony.json", Written (JsonOfMusic musical_data));
   ("cosmic_analysis.txt", Written (Text report));
   ("git_stats.json", Written (JsonOfStats stats_json))].

End WithRuntime.
End MainProgram.

(* ================================================================== *)
(** ** Further vocabulary *)

(** The counters that [d[k] += 1] over a list of keys builds. *)
Definition tally {K} `{Key K} (ks : list K) : list (K * Z) :=
  fold_left (fun d k => Dict.incr k d) ks [].

(** How often [k] occurs in [ks]. *)
Definition count_of {K} `{Key K} (k : K) (ks : list K) : Z :=
  Z.of_nat (length (filter (keqb k) ks)).

(** The accumulators on which the report divides by zero: counters of
    commit types that add up to zero, or else hours whose greatest counter is
    zero. *)
Definition report_divides_by_zero (stats : GenerateStats.Stats) : bool :=
  match GenerateStats.commit_types stats with
  | [] => false
  | _ => PyList.sum (Dict.values (GenerateStats.commit_types stats)) =? 0
  end
  || match GenerateStats.commits_by_hour stats with
     | [] => false
     | _ =>
         match PyList.max_by (fun x => x)
                 (Dict.values (GenerateStats.commits_by_hour stats)) with
         | Some m => m =? 0
         | None => false
         end
     end.

(** One or zero, for counting the lines of a guarded fact. *)
Definition one_if_nonempty {A} (l : list A) : nat :=
  match l with [] => 0%nat | _ => 1%nat end.

(** A dictionary of counters as the aggregator builds them: distinct keys,
    every counter at least one. *)
Definition well_counted {K} (d : list (K * Z)) : Prop :=
  NoDup (Dict.keys d) /\ Forall (fun kv => 1 <= snd kv) d.

(** A counter as the report can show it: a natural number that a float
    holds exactly. *)
Definition exact_count (n : Z) : Prop := 0 <= n <= 2 ^ 53.

(** An accumulator of such counters.  On it the divisions of lines 212, 223
    and 254 stay within the range of the floats, and the bars of lines 213
    and 224 within fifty and eight blocks. *)
Definition exact_counts (stats : GenerateStats.Stats) : Prop :=
  exact_count (GenerateStats.total_commits stats) /\
  Forall exact_count (Dict.values (GenerateStats.authors stats)) /\
  Forall exact_count (Dict.values (GenerateStats.commits_by_day stats)) /\
  Forall exact_count (Dict.values (GenerateStats.commits_by_hour stats)) /\
  Forall exact_count (Dict.values (GenerateStats.commit_types stats)) /\
  Forall exact_count (Dict.values (GenerateStats.file_changes stats)) /\
  Forall exact_count (Dict.values (GenerateStats.languages stats)).

(** The same as tests. *)
Definition exact_countb (n : Z) : bool := (0 <=? n) && (n <=? 2 ^ 53).

Definition exact_countsb (stats : GenerateStats.Stats) : bool :=
  exact_countb (GenerateStats.total_commits stats)
  && forallb exact_countb (Dict.values (GenerateStats.authors stats))
  && forallb exact_countb (Dict.values (GenerateStats.commits_by_day stats))
  && forallb exact_countb (Dict.values (GenerateStats.commits_by_hour stats))
  && forallb exact_countb (Dict.values (GenerateStats.commit_types stats))
  && forallb exact_countb (Dict.values (GenerateStats.file_changes stats))
  && forallb exact_countb (Dict.values (GenerateStats.languages stats)).

(** What a path gives to [languages]: what follows its last ['.'], or
    nothing for a path without ['.']. *)
Definition extension_is (path : string) (e : option string) : Prop :=
  match e with
  | Some ext => Spec.suffix_after_last_dot path ext
  | None => Spec.free_of "." path
  end.

(** The values that are there. *)
Definition somes {A} (l : list (option A)) : list A :=
  flat_map (fun o => match o with Some x => [x] | None => [] end) l.

Section MoreVocabulary.
Context {RT : Runtime}.
Import GenerateStats.

(** The entry of [release_history] that a release gives, lines 79-82. *)
Definition release_of (commit : Commit) : Release :=
  {| release_date := day commit; release_message := message commit |}.

Definition is_release (commit : Commit) : bool :=
  String.eqb (commit_type_of commit) "release".

(** All the notes of a score, movement after movement. *)
Definition all_notes (score : MusicalData) : list Note :=
  flat_map notes (movements score).

(** The distinct week labels of a list of commits. *)
Definition weeks_of (commits : list Commit) : list string :=
  Spec.first_seen [] (map week_of commits).

(** How many commits the weeks of a list hold. *)
Fixpoint commits_in_weeks (ws : list string) (commits : list Commit) : nat :=
  match ws with
  | [] => 0%nat
  | w :: ws' =>
      (length (commits_of_week w commits) + commits_in_weeks ws' commits)%nat
  end.

(** The weeks that get a movement, lines 151-152. *)
Definition retained_weeks (commits : list Commit) : list string :=
  map fst
    (PyList.lastn 10
       (PyList.sorted week_before (Dict.items (group_by_week commits)))).

(** The commits that get a note: those of the kept weeks, week after week,
    in stream order within a week. *)
Definition retained_commits (commits : list Commit) : list Commit :=
  flat_map (fun w => commits_of_week w commits) (retained_weeks commits).

(** The paths that [git diff-tree] names for a commit, lines 95-97: the
    lines of its output that are not empty. *)
Definition changed_paths (commit_hash : string) : list string :=
  filter (fun file => negb (String.eqb file ""))
    (PyStr.split newline
       (run_git_command
          ("git diff-tree --no-commit-id --name-only -r " ++ commit_hash))).

(** The changed paths of all the records, in the order of the loop. *)
Definition processed_paths (commits : list Commit) : list string :=
  flat_map (fun c => changed_paths (hash c)) commits.

End MoreVocabulary.

(* ================================================================== *)
(** * Properties *)

Import GenerateStats.

(** ** Strings *)

Section StringFacts.
Import PyStr.


Lemma append_nil_r (a : string) : (a ++ "" = a)%string.
Proof. induction a; simpl; congruence. Qed.

Lemma prefix_iff (p s : string) :
  prefix p s = true <-> exists t, s = (p ++ t)%string.
Proof.
  revert s; induction p as [|a p IH]; intros s; simpl.
  - destruct s; simpl; split; eauto.
  - destruct s as [|b s]; simpl.
    + split; [discriminate | intros [t Ht]; discriminate].
    + destruct (ascii_dec a b) as [->|Hab].
      * rewrite IH. split; intros [t Ht]; exists t; congruence.
      * split; [discriminate | intros [t Ht]; congruence].
Qed.

Lemma contains_iff (needle hay : string) :
  contains needle hay = true <->
  exists a b, hay = (a ++ needle ++ b)%string.
Proof.
  induction hay as [|c hay IH].
  - cbn [contains]. rewrite prefix_iff. split.
    + intros [t Ht]. exists "", t. exact Ht.
    + intros [a [b Hab]]. destruct a; [|discriminate].
      exists b. exact Hab.
  - cbn [contains]. rewrite orb_true_iff, prefix_iff, IH. split.
    + intros [[t Ht] | [a [b Hab]]].
      * exists "", t. exact Ht.
      * exists (String c a), b. simpl. now rewrite Hab.
    + intros [a [b Hab]]. destruct a as [|c' a].
      * left. exists b. exact Hab.
      * right. exists a, b. simpl in Hab. congruence.
Qed.

Lemma lower_app (a b : string) :
  lower (a ++ b) = (lower a ++ lower b)%string.
Proof. induction a; simpl; congruence. Qed.

Lemma lower_cut (s x y : string) :
  lower s = (x ++ y)%string ->
  exists s1 s2, s = (s1 ++ s2)%string /\ lower s1 = x /\ lower s2 = y.
Proof.
  revert s; induction x as [|c x IH]; intros s Hs.
  - exists "", s. auto.
  - destruct s as [|d s]; [discriminate|].
    simpl in Hs. injection Hs as Hc Hrest.
    destruct (IH _ Hrest) as (s1 & s2 & -> & H1 & H2).
    exists (String d s1), s2. simpl. repeat split; congruence.
Qed.

(** The keyword test of the script is the case-insensitive occurrence. *)
Lemma mentions_iff (keyword message : string) :
  Spec.mentions keyword message <->
  contains (lower keyword) (lower message) = true.
Proof.
  rewrite contains_iff. split.
  - intros (pre & w & post & -> & Hw).
    exists (lower pre), (lower post).
    now rewrite !lower_app, Hw.
  - intros (a & b & Hab).
    destruct (lower_cut _ _ _ Hab) as (pre & rest & -> & <- & Hrest).
    destruct (lower_cut _ _ _ Hrest) as (w & post & -> & Hw & <-).
    exists pre, w, post. auto.
Qed.

End StringFacts.

(** ** Dictionaries *)

Section DictFacts.
Context {K : Type} `{Key K}.
Import Dict.

Lemma keqb_refl (k : K) : keqb k k = true.
Proof. destruct (keqb_spec k k); congruence. Qed.

Lemma keqb_neq (k k' : K) : k <> k' -> keqb k k' = false.
Proof. destruct (keqb_spec k k'); congruence. Qed.

Lemma get_set_same {V} (k : K) (v : V) (d : list (K * V)) :
  get k (set k v d) = Some v.
Proof.
  induction d as [|[k' v'] d IH]; simpl.
  - now rewrite keqb_refl.
  - destruct (keqb k k') eqn:E; simpl; rewrite E; auto.
Qed.

Lemma get_set_other {V} (k k0 : K) (v : V) (d : list (K * V)) :
  k0 <> k -> get k0 (set k v d) = get k0 d.
Proof.
  intros Hne. induction d as [|[k' v'] d IH]; simpl.
  - now rewrite keqb_neq.
  - destruct (keqb_spec k k') as [->|Hk]; simpl.
    + now rewrite keqb_neq.
    + now rewrite IH.
Qed.

Lemma get_In_keys {V} (k : K) (d : list (K * V)) :
  In k (keys d) <-> exists v, get k d = Some v.
Proof.
  induction d as [|[k' v'] d IH]; simpl.
  - split; [tauto | intros [v Hv]; discriminate].
  - destruct (keqb_spec k k') as [->|Hk].
    + split; eauto.
    + rewrite <- IH. split; [intros [?|?]; congruence || assumption | auto].
Qed.

Lemma keys_set {V} (k : K) (v : V) (d : list (K * V)) :
  keys (set k v d) = if mem k d then keys d else keys d ++ [k].
Proof.
  unfold mem. induction d as [|[k' v'] d IH]; simpl; auto.
  destruct (keqb_spec k k') as [->|Hk]; simpl; auto.
  rewrite IH. now destruct (get k d).
Qed.

Lemma mem_In_keys {V} (k : K) (d : list (K * V)) :
  mem k d = true <-> In k (keys d).
Proof.
  unfold mem. rewrite get_In_keys.
  destruct (get k d); split; eauto; try discriminate.
  intros [v Hv]; discriminate.
Qed.

Lemma NoDup_keys_set {V} (k : K) (v : V) (d : list (K * V)) :
  NoDup (keys d) -> NoDup (keys (set k v d)).
Proof.
  intros Hd. rewrite keys_set. destruct (mem k d) eqn:E; auto.
  apply NoDup_app; auto.
  - constructor; [simpl; tauto | constructor].
  - intros x Hx [<-|[]]. apply mem_In_keys in Hx. congruence.
Qed.

Lemma get_default_incr_same (k : K) (d : list (K * Z)) :
  get_default k 0 (incr k d) = get_default k 0 d + 1.
Proof. unfold incr, get_default at 1. now rewrite get_set_same. Qed.

Lemma get_default_incr_other (k k0 : K) (d : list (K * Z)) :
  k0 <> k -> get_default k0 0 (incr k d) = get_default k0 0 d.
Proof. intros Hne. unfold incr, get_default. now rewrite get_set_other. Qed.

Lemma sum_values_set (k : K) (v : Z) (d : list (K * Z)) :
  sum_values (set k v d) = sum_values d - get_default k 0 d + v.
Proof.
  unfold sum_values, get_default.
  induction d as [|[k' v'] d IH]; simpl; [lia|].
  destruct (keqb k k'); simpl; lia.
Qed.

Lemma sum_values_incr (k : K) (d : list (K * Z)) :
  sum_values (incr k d) = sum_values d + 1.
Proof. unfold incr. rewrite sum_values_set. lia. Qed.

Lemma keys_incr (k : K) (d : list (K * Z)) :
  keys (incr k d) = if mem k d then keys d else keys d ++ [k].
Proof. apply keys_set. Qed.

End DictFacts.

(** ** Counters built by [d[k] += 1] *)

Section Tally.
Context {K : Type} `{Key K}.
Import Dict PyList.

Lemma tally_snoc (ks : list K) (k : K) : tally (ks ++ [k]) = incr k (tally ks).
Proof. unfold tally. now rewrite fold_left_app. Qed.

Lemma count_of_snoc (k k' : K) (ks : list K) :
  count_of k (ks ++ [k']) = count_of k ks + (if keqb k k' then 1 else 0).
Proof.
  unfold count_of. rewrite filter_app, length_app. cbn [filter].
  destruct (keqb k k'); simpl; lia.
Qed.

Lemma tally_get (ks : list K) (k : K) :
  get_default k 0 (tally ks) = count_of k ks.
Proof.
  induction ks as [|k' ks IH] using rev_ind; [reflexivity|].
  rewrite tally_snoc, count_of_snoc.
  destruct (keqb_spec k k') as [->|Hne].
  - rewrite get_default_incr_same. lia.
  - rewrite get_default_incr_other by assumption. lia.
Qed.

Lemma tally_sum (ks : list K) : sum_values (tally ks) = len ks.
Proof.
  unfold len. induction ks as [|k' ks IH] using rev_ind; [reflexivity|].
  rewrite tally_snoc, sum_values_incr, IH, length_app. simpl. lia.
Qed.

Lemma get_default_nonneg (k : K) (d : list (K * Z)) :
  Forall (fun kv => 1 <= snd kv) d -> 0 <= get_default k 0 d.
Proof.
  unfold get_default. induction 1 as [|[k' v] d Hv Hd IH]; simpl; [lia|].
  destruct (keqb k k'); [simpl in Hv; lia | exact IH].
Qed.

Lemma Forall_set (P : K * Z -> Prop) (k : K) (v : Z) (d : list (K * Z)) :
  (forall k', P (k', v)) -> Forall P d -> Forall P (set k v d).
Proof.
  intros Hv. induction 1 as [|[k' v'] d Hkv Hd IH]; simpl.
  - constructor; [apply Hv | constructor].
  - destruct (keqb k k'); constructor; auto.
Qed.

Lemma well_counted_incr (k : K) (d : list (K * Z)) :
  well_counted d -> well_counted (incr k d).
Proof.
  intros (Hnd & Hpos). split.
  - now apply NoDup_keys_set.
  - apply Forall_set; [|exact Hpos].
    intros k'. simpl. pose proof (get_default_nonneg k Hpos). lia.
Qed.

Lemma well_counted_tally (ks : list K) : well_counted (tally ks).
Proof.
  induction ks as [|k' ks IH] using rev_ind.
  - split; constructor.
  - rewrite tally_snoc. now apply well_counted_incr.
Qed.

Lemma tally_keys_In (ks : list K) (k : K) :
  In k (keys (tally ks)) <-> In k ks.
Proof.
  revert k. induction ks as [|k' ks IH] using rev_ind; intros k;
    [simpl; tauto|].
  rewrite tally_snoc, keys_incr, in_app_iff. simpl.
  destruct (mem k' (tally ks)) eqn:Em.
  - apply mem_In_keys in Em. apply IH in Em. rewrite IH. split; [tauto|].
    intros [Hk|[<-|[]]]; assumption.
  - rewrite in_app_iff, IH. simpl. tauto.
Qed.

End Tally.

(** ** The classifier *)

Section Classifier.
Context {RT : Runtime}.
Import PyStr Dict.

Lemma first_match_functional (message : string) rules t1 t2 :
  Spec.first_match message rules t1 ->
  Spec.first_match message rules t2 -> t1 = t2.
Proof.
  induction 1 as [| kws tag rules Hex | kws tag rules tag' Hno _ IH];
    inversion 1; subst; auto.
  - destruct Hex as (k & Hk & Hm). exfalso. eapply H4; eauto.
  - match goal with Hex : exists _, _ |- _ =>
      destruct Hex as (k & Hk & Hm) end.
    exfalso. eapply Hno; eauto.
Qed.

(** The tag of a message, by the tests of the script on lowercase
    keywords. *)
Lemma keyword_test (keyword message : string) :
  lower keyword = keyword ->
  contains keyword (lower message) = true <-> Spec.mentions keyword message.
Proof. intros Hk. now rewrite mentions_iff, Hk. Qed.

Lemma keyword_test_false (keyword message : string) :
  lower keyword = keyword ->
  contains keyword (lower message) = false -> ~ Spec.mentions keyword message.
Proof.
  intros Hk Hc Hm. apply keyword_test in Hm; auto. congruence.
Qed.

Ltac keyword_facts :=
  repeat match goal with
    | H : contains ?k (lower ?m) = true |- _ =>
        apply (@keyword_test k m eq_refl) in H
    | H : contains ?k (lower ?m) = false |- _ =>
        apply (@keyword_test_false k m eq_refl) in H
    end.

Ltac no_keyword :=
  let k := fresh "k" in
  intros k [<-|H]; [assumption|];
  repeat (destruct H as [<-|H]; [assumption|]); destruct H.

Ltac some_keyword k := exists k; split; [simpl; tauto | assumption].

(** Both classification blocks are the same chain of tests; whatever the
    branches hold, the chain selects the branch of the first matching rule. *)
Lemma keyword_chain {A : Type} (message : string) (r f a m t o : A) :
  exists tag,
    Spec.classified message tag /\
    (if contains "release" (lower message) || contains "version" (lower message)
     then r
     else if contains "fix" (lower message) then f
     else if contains "add" (lower message)
             || contains "implement" (lower message) then a
     else if contains "merge" (lower message) then m
     else if contains "test" (lower message) then t
     else o) =
    match tag with
    | Spec.Release => r
    | Spec.Fix => f
    | Spec.Feature => a
    | Spec.Merge => m
    | Spec.Test => t
    | Spec.Other => o
    end.
Proof.
  unfold Spec.classified, Spec.priority_rules.
  destruct (contains "release" (lower message)) eqn:Erel;
    [exists Spec.Release; keyword_facts; split; [|reflexivity];
     apply Spec.fm_here; some_keyword "release"|].
  destruct (contains "version" (lower message)) eqn:Ever;
    [exists Spec.Release; keyword_facts; split; [|reflexivity];
     apply Spec.fm_here; some_keyword "version"|].
  destruct (contains "fix" (lower message)) eqn:Efix;
    [exists Spec.Fix; keyword_facts; split; [|reflexivity];
     apply Spec.fm_later; [no_keyword|]; apply Spec.fm_here;
     some_keyword "fix"|].
  destruct (contains "add" (lower message)) eqn:Eadd;
    [exists Spec.Feature; keyword_facts; split; [|reflexivity];
     do 2 (apply Spec.fm_later; [no_keyword|]); apply Spec.fm_here;
     some_keyword "add"|].
  destruct (contains "implement" (lower message)) eqn:Eimp;
    [exists Spec.Feature; keyword_facts; split; [|reflexivity];
     do 2 (apply Spec.fm_later; [no_keyword|]); apply Spec.fm_here;
     some_keyword "implement"|].
  destruct (contains "merge" (lower message)) eqn:Emer;
    [exists Spec.Merge; keyword_facts; split; [|reflexivity];
     do 3 (apply Spec.fm_later; [no_keyword|]); apply Spec.fm_here;
     some_keyword "merge"|].
  destruct (contains "test" (lower message)) eqn:Etest;
    [exists Spec.Test; keyword_facts; split; [|reflexivity];
     do 4 (apply Spec.fm_later; [no_keyword|]); apply Spec.fm_here;
     some_keyword "test"|].
  exists Spec.Other; keyword_facts; split; [|reflexivity].
  do 5 (apply Spec.fm_later; [no_keyword|]). apply Spec.fm_none.
Qed.

(** The encoder's block computes the tag of the priority rules. *)
Lemma commit_type_of_classified (commit : Commit) :
  exists tag, Spec.classified (message commit) tag /\
              commit_type_of commit = Spec.tag_name tag.
Proof.
  destruct (keyword_chain (message commit)
              "release" "fix" "feature" "merge" "test" "other")
    as (tag & Htag & Hchain).
  exists tag. split; [exact Htag|].
  unfold commit_type_of. rewrite Hchain. now destruct tag.
Qed.

(** The aggregator's block counts the tag of the priority rules. *)
Lemma classify_commit_classified (stats : Stats) (commit : Commit)
  (message : string) :
  exists tag,
    Spec.classified message tag /\
    commit_types (classify_commit stats commit message) =
      incr (Spec.tag_name tag) (commit_types stats).
Proof.
  unfold classify_commit.
  match goal with
  | |- context [if _ then ?r else if _ then ?f else if _ then ?a
                else if _ then ?m else if _ then ?t else ?o] =>
      destruct (keyword_chain message r f a m t o) as (tag & Htag & Hchain)
  end.
  exists tag. split; [exact Htag|].
  cbv zeta. rewrite Hchain. now destruct tag.
Qed.

(** Two rules of the order, read off the first match. *)
Lemma classified_release (message : string) (tag : Spec.Tag) :
  Spec.classified message tag ->
  Spec.mentions "release" message \/ Spec.mentions "version" message ->
  tag = Spec.Release.
Proof.
  intros Htag Hm.
  apply (first_match_functional Htag).
  apply Spec.fm_here. destruct Hm as [Hm|Hm].
  - some_keyword "release".
  - some_keyword "version".
Qed.

Lemma classified_fix (message : string) (tag : Spec.Tag) :
  Spec.classified message tag ->
  ~ Spec.mentions "release" message -> ~ Spec.mentions "version" message ->
  Spec.mentions "fix" message ->
  tag = Spec.Fix.
Proof.
  intros Htag Hrel Hver Hfix.
  apply (first_match_functional Htag).
  apply Spec.fm_later; [no_keyword|]. apply Spec.fm_here. some_keyword "fix".
Qed.

(** What the aggregator's block does to the accumulator, in terms of the
    encoder's block. *)
Lemma classify_commit_as_encoder (stats : Stats) (commit : Commit) :
  let stats' := classify_commit stats commit (message commit) in
  commit_types stats' = incr (commit_type_of commit) (commit_types stats) /\
  release_history stats' =
    (if String.eqb (commit_type_of commit) "release"
     then release_history stats ++
            [{| release_date := day commit;
                release_message := message commit |}]
     else release_history stats) /\
  total_commits stats' = total_commits stats /\
  authors stats' = authors stats /\
  commits_by_day stats' = commits_by_day stats /\
  commits_by_hour stats' = commits_by_hour stats /\
  file_changes stats' = file_changes stats /\
  languages stats' = languages stats /\
  productivity_score stats' = productivity_score stats.
Proof.
  unfold classify_commit, commit_type_of.
  destruct (contains "release" (lower (message commit)));
    [cbn; repeat split|].
  destruct (contains "version" (lower (message commit)));
    [cbn; repeat split|].
  destruct (contains "fix" (lower (message commit)));
    [cbn; repeat split|].
  destruct (contains "add" (lower (message commit)));
    [cbn; repeat split|].
  destruct (contains "implement" (lower (message commit)));
    [cbn; repeat split|].
  destruct (contains "merge" (lower (message commit)));
    [cbn; repeat split|].
  destruct (contains "test" (lower (message commit))); cbn; repeat split.
Qed.

(** The note of a commit, which the encoder always finds. *)
Lemma make_note_ok (author_instruments : list (string * string))
  (commit : Commit) :
  exists tag,
    Spec.classified (message commit) tag /\
    commit_type_of commit = Spec.tag_name tag /\
    getitem (commit_type_of commit) note_map = Ok (Spec.pitch_table tag) /\
    make_note author_instruments commit =
      Ok {| pitch := Spec.pitch_table tag;
            duration := Spec.note_duration tag;
            instrument :=
              get_default (author commit) "piano" author_instruments;
            velocity := Spec.note_velocity tag;
            time := (inject_Z (hour commit) / 24)%Q |}.
Proof.
  destruct (commit_type_of_classified commit) as (tag & Htag & Hname).
  exists tag. split; [exact Htag|]. split; [exact Hname|].
  unfold make_note. rewrite Hname. destruct tag; split; reflexivity.
Qed.

End Classifier.

(** ** The loop over the log *)

Section Aggregator.
Context {RT : Runtime}.
Import PyStr Dict PyList.

Lemma same_commit_counts_refl (s : Stats) : same_commit_counts s s.
Proof. repeat split. Qed.

Lemma same_commit_counts_trans (s1 s2 s3 : Stats) :
  same_commit_counts s1 s2 -> same_commit_counts s2 s3 ->
  same_commit_counts s1 s3.
Proof.
  unfold same_commit_counts. intros H12 H23.
  decompose [and] H12. decompose [and] H23. repeat split; congruence.
Qed.

Lemma count_file_frame (stats : Stats) (file : string) :
  same_commit_counts stats (count_file stats file).
Proof.
  unfold count_file.
  destruct (String.eqb file ""); [apply same_commit_counts_refl|].
  destruct (contains "." file); repeat split.
Qed.

Lemma fold_count_file_frame (files : list string) (stats : Stats) :
  same_commit_counts stats (fold_left count_file files stats).
Proof.
  revert stats; induction files as [|f files IH]; intros stats; simpl.
  - apply same_commit_counts_refl.
  - eapply same_commit_counts_trans; [apply count_file_frame | apply IH].
Qed.

Lemma count_files_frame (stats : Stats) (commit_hash : string) :
  same_commit_counts stats (count_files stats commit_hash).
Proof. apply fold_count_file_frame. Qed.

(** A line of the log either changes nothing or adds the one record
    [commit_of parts date]. *)
Lemma process_line_cases (commits : list Commit) (stats : Stats)
  (line : string) :
  (accepts line = false /\
   process_line (commits, stats) line = (commits, stats)) \/
  (accepts line = true /\
   exists date,
     parse_date (nth 3 (split "|" line) "") = Some date /\
     let commit := commit_of (split "|" line) date in
     process_line (commits, stats) line =
       (commits ++ [commit],
        count_files
          (classify_commit (count_commit stats commit) commit (message commit))
          (hash commit))).
Proof.
  unfold process_line, accepts, len.
  destruct (String.eqb line ""); [left; split; reflexivity|].
  assert (Hlen : (5 <=? Z.of_nat (length (split "|" line))) =
                 (5 <=? length (split "|" line))%nat).
  { destruct (Nat.leb_spec 5 (length (split "|" line)));
      [apply Z.leb_le | apply Z.leb_gt]; lia. }
  rewrite Hlen.
  destruct (5 <=? length (split "|" line))%nat; [|left; split; reflexivity].
  destruct (parse_date (nth 3 (split "|" line) "")) as [date|];
    [|left; split; reflexivity].
  right. split; [reflexivity|]. exists date. split; reflexivity.
Qed.

(** Induction over the lines of the log. *)
Lemma aggregate_ind (P : list Commit * Stats -> Prop) :
  P ([], empty_stats) ->
  (forall acc line, P acc -> P (process_line acc line)) ->
  forall commits_raw, P (aggregate commits_raw).
Proof.
  intros Hinit Hstep commits_raw. unfold aggregate.
  generalize (split newline commits_raw) as lines.
  generalize ([] : list Commit, empty_stats) Hinit.
  intros acc Hacc lines. revert acc Hacc.
  induction lines as [|line lines IH]; intros acc Hacc; simpl; auto.
Qed.

(** The effect of one record on the counters of the commit types. *)
Lemma process_line_accepted_counts (commits : list Commit) (stats : Stats)
  (line : string) (date : datetime) :
  let commit := commit_of (split "|" line) date in
  let stats' :=
    count_files
      (classify_commit (count_commit stats commit) commit (message commit))
      (hash commit) in
  total_commits stats' = total_commits stats + 1 /\
  commit_types stats' = incr (commit_type_of commit) (commit_types stats) /\
  authors stats' = incr (author commit) (authors stats) /\
  commits_by_day stats' = incr (day commit) (commits_by_day stats) /\
  commits_by_hour stats' = incr (hour commit) (commits_by_hour stats).
Proof.
  intros commit stats'.
  destruct (count_files_frame
              (classify_commit (count_commit stats commit) commit
                 (message commit)) (hash commit))
    as (Ht & Ha & Hd & Hh & Hc & _).
  destruct (classify_commit_as_encoder (count_commit stats commit) commit)
    as (Hc' & _ & Ht' & Ha' & Hd' & Hh' & _).
  subst stats'. rewrite Ht, Ha, Hd, Hh, Hc, Ht', Ha', Hd', Hh', Hc'.
  repeat split.
Qed.

End Aggregator.

(** ** The productivity scores *)

Section Finalization.
Context {RT : Runtime}.
Import Dict.

(** What the loop over the days leaves alone. *)
Lemma score_days_frame (today : datetime) (days : list (string * Z))
  (stats stats' : Stats) :
  score_days today stats days = Ok stats' ->
  total_commits stats' = total_commits stats /\
  commit_types stats' = commit_types stats /\
  commits_by_day stats' = commits_by_day stats /\
  authors stats' = authors stats.
Proof.
  revert stats. induction days as [|[day count] days IH]; intros stats; simpl.
  - intros [= <-]. repeat split.
  - destruct (fromisoformat day) as [day_date|]; [|discriminate].
    destruct (decay_weight (sub_days today day_date)) as [weight|];
      [|discriminate].
    simpl. intros Hrest. apply IH in Hrest. exact Hrest.
Qed.

Lemma decay_weight_ok (age_days : Z) :
  age_days <> -30 ->
  decay_weight age_days = Ok (1 / (1 + inject_Z age_days / 30))%Q.
Proof.
  intros Hage. unfold decay_weight.
  destruct (Qeq_bool (1 + inject_Z age_days / 30) 0) eqn:E; [|reflexivity].
  apply Qeq_bool_iff in E. exfalso. apply Hage.
  apply inject_Z_injective.
  assert (Hx : (inject_Z age_days
                 == (1 + inject_Z age_days / 30) * 30 - 30)%Q) by field.
  rewrite E in Hx. rewrite Hx. reflexivity.
Qed.

Lemma decay_weight_pole : decay_weight (-30) = Raise ZeroDivisionError.
Proof. reflexivity. Qed.


Lemma NoDup_keys_get {V} (k : string) (v : V) (d : list (string * V)) :
  NoDup (keys d) -> In (k, v) d -> get k d = Some v.
Proof.
  induction d as [|[k' v'] d IH]; simpl; [tauto|].
  intros Hnd [[= -> ->]|Hin].
  - now rewrite String.eqb_refl.
  - inversion Hnd as [|? ? Hnotin Hnd']; subst.
    destruct (String.eqb_spec k k') as [->|Hk]; [|auto].
    exfalso. apply Hnotin. change (In (fst (k', v)) (map fst d)).
    now apply in_map.
Qed.

(** The loop over the days, for days that parse and are not thirty days
    ahead of [today]. *)
Lemma score_days_spec (today : datetime) (days : list (string * Z)) :
  forall stats,
    NoDup (keys days) ->
    (forall day, In day (keys days) ->
       exists day_date,
         fromisoformat day = Some day_date /\ sub_days today day_date <> -30) ->
    exists stats',
      score_days today stats days = Ok stats' /\
      (forall day count,
          In (day, count) days ->
          exists day_date,
            fromisoformat day = Some day_date /\
            get day (productivity_score stats') =
              Some (inject_Z count *
                    (1 / (1 + inject_Z (sub_days today day_date) / 30)))%Q) /\
      (forall day, ~ In day (keys days) ->
          get day (productivity_score stats') =
          get day (productivity_score stats)).
Proof.
  induction days as [|[day0 count0] days IH]; intros stats Hnd Hok.
  - exists stats. simpl. repeat split; tauto.
  - inversion Hnd as [|? ? Hnotin Hnd']; subst.
    destruct (Hok day0 (or_introl eq_refl)) as (date0 & Hparse & Hage).
    cbn [score_days score_day]. rewrite Hparse, (decay_weight_ok Hage).
    cbn [bind].
    match goal with
    | |- context [score_days today ?s days] =>
        destruct (IH s Hnd') as (stats' & Hrun & Hin & Hout)
    end.
    { intros day Hday. apply Hok. now right. }
    exists stats'. split; [exact Hrun|]. split.
    + intros day count [[= <- <-]|Hrest].
      * exists date0. split; [exact Hparse|].
        rewrite (Hout day0 Hnotin). cbn [productivity_score
          with_productivity_score]. apply get_set_same.
      * now apply Hin.
    + intros day Hday. rewrite Hout.
      * cbn [productivity_score with_productivity_score].
        apply get_set_other. intros ->. apply Hday. now left.
      * intros Hin'. apply Hday. now right.
Qed.






End Finalization.


(** ** The claims on the parser, the classifier and the counters *)

Section AggregatorClaims.
Context {RT : Runtime}.
Import PyStr Dict PyList.

Lemma sum_fold_right (l : list Z) : sum l = fold_right Z.add 0 l.
Proof.
  unfold sum. rewrite <- fold_left_rev_right.
  assert (H : forall l0 a, fold_right (fun y x => x + y) a l0
                         = a + fold_right Z.add 0 l0).
  { induction l0 as [|x l0 IH]; intros a; simpl; [lia|]. rewrite IH. lia. }
  rewrite H. simpl.
  assert (Hrev : forall l0, fold_right Z.add 0 (rev l0) = fold_right Z.add 0 l0).
  { induction l0 as [|x l0 IH]; simpl; auto.
    rewrite fold_right_app. simpl.
    assert (Hacc : forall l1 a, fold_right Z.add a l1
                              = a + fold_right Z.add 0 l1).
    { induction l1 as [|y l1 IH1]; intros a; simpl; [lia|].
      rewrite IH1. lia. }
    rewrite Hacc, IH. lia. }
  apply Hrev.
Qed.

Lemma sum_values_incr_py {K} `{Key K} (k : K) (d : list (K * Z)) :
  sum (values (incr k d)) = sum (values d) + 1.
Proof. rewrite !sum_fold_right. apply sum_values_incr. Qed.

Lemma sum_over_tags_incr (tag : Spec.Tag) (d : list (string * Z)) :
  sum_over_tags (incr (Spec.tag_name tag) d) = sum_over_tags d + 1.
Proof.
  unfold sum_over_tags, sum, Spec.all_tags.
  destruct tag; cbn [map fold_left Spec.tag_name];
    repeat first [ rewrite get_default_incr_same
                 | rewrite get_default_incr_other by discriminate ];
    lia.
Qed.

(** The records are those of the accepted lines, in the order of the log. *)
Lemma fold_process_line_records (lines : list string)
  (commits : list Commit) (stats : Stats) :
  exists new_commits,
    fst (fold_left process_line lines (commits, stats)) =
      commits ++ new_commits /\
    Forall2 record_of (filter accepts lines) new_commits.
Proof.
  revert commits stats. induction lines as [|line lines IH];
    intros commits stats; cbn [fold_left filter].
  - exists []. split; [cbn [fst]; now rewrite app_nil_r | constructor].
  - destruct (process_line_cases commits stats line)
      as [[Hrej Hsame] | [Hacc (date & Hdate & Hstep)]].
    + rewrite Hsame, Hrej. apply IH.
    + cbv zeta in Hstep. rewrite Hstep, Hacc.
      match goal with
      | |- context [fold_left process_line lines (?c, ?s)] =>
          destruct (IH c s) as (more & Hfst & Hrec)
      end.
      exists (commit_of (split "|" line) date :: more). split.
      * rewrite Hfst, <- app_assoc. reflexivity.
      * constructor; [|exact Hrec]. exists date. split; [exact Hdate|].
        reflexivity.
Qed.




(** The counters of the commit types after the loop. *)
Lemma aggregate_counts (commits_raw : string) :
  let commits := fst (aggregate commits_raw) in
  let stats := snd (aggregate commits_raw) in
  sum (values (commit_types stats)) = total_commits stats /\
  sum_over_tags (commit_types stats) = total_commits stats /\
  total_commits stats = len commits /\
  commit_types stats =
    fold_left (fun d c => incr (commit_type_of c) d) commits [].
Proof.
  cbv zeta. apply aggregate_ind with
    (P := fun acc =>
            sum (values (commit_types (snd acc))) = total_commits (snd acc) /\
            sum_over_tags (commit_types (snd acc)) = total_commits (snd acc) /\
            total_commits (snd acc) = len (fst acc) /\
            commit_types (snd acc) =
              fold_left (fun d c => incr (commit_type_of c) d) (fst acc) []).
  - repeat split.
  - intros [commits stats] line (Hsum & Htags & Hlen & Hfold).
    destruct (process_line_cases commits stats line)
      as [[_ Hsame] | [_ (date & _ & Hstep)]].
    + rewrite Hsame. repeat split; assumption.
    + cbv zeta in Hstep. rewrite Hstep. cbn [fst snd] in *.
      destruct (process_line_accepted_counts commits stats line date)
        as (Htot & Htypes & _).
      cbv zeta in Htot, Htypes. rewrite Htot, Htypes.
      destruct (commit_type_of_classified (commit_of (split "|" line) date))
        as (tag & _ & Hname).
      repeat split.
      * rewrite sum_values_incr_py. lia.
      * rewrite Hname, sum_over_tags_incr. lia.
      * unfold len in *. rewrite length_app. simpl. lia.
      * rewrite fold_left_app. simpl. now rewrite <- Hfold.
Qed.

(** C3. After the loop over any log, the counters of [commit_types] add up
    to [total_commits], as a sum of all values and as a sum over the six
    tags, and to the number of records; a line that gives a record adds one
    to [total_commits] and one to the counter of exactly one tag; the
    productivity scores change neither. *)
Theorem commit_types_sum_to_total (commits_raw : string) :
  let commits := fst (aggregate commits_raw) in
  let stats := snd (aggregate commits_raw) in
  sum (values (commit_types stats)) = total_commits stats /\
  sum_over_tags (commit_types stats) = total_commits stats /\
  total_commits stats = len commits /\
  (forall acc line,
      accepts line = true ->
      total_commits (snd (process_line acc line)) =
        total_commits (snd acc) + 1 /\
      exists tag,
        commit_types (snd (process_line acc line)) =
          incr (Spec.tag_name tag) (commit_types (snd acc)) /\
        forall tag',
          get_default (Spec.tag_name tag') 0
            (commit_types (snd (process_line acc line))) =
          get_default (Spec.tag_name tag') 0 (commit_types (snd acc))
          + (if String.eqb (Spec.tag_name tag') (Spec.tag_name tag)
             then 1 else 0)) /\
  (forall stats',
      finalize stats = Ok stats' ->
      sum (values (commit_types stats')) = total_commits stats').
Proof.
  intros commits stats.
  destruct (aggregate_counts commits_raw) as (Hsum & Htags & Hlen & _).
  repeat split; try assumption.
  - destruct acc as [commits0 stats0].
    destruct (process_line_cases commits0 stats0 line)
      as [[Hrej _] | [_ (date & _ & Hstep)]]; [congruence|].
    cbv zeta in Hstep. rewrite Hstep. cbn [snd].
    now destruct (process_line_accepted_counts commits0 stats0 line date)
      as (Htot & _).
  - destruct acc as [commits0 stats0].
    destruct (process_line_cases commits0 stats0 line)
      as [[Hrej _] | [_ (date & _ & Hstep)]]; [congruence|].
    cbv zeta in Hstep. rewrite Hstep. cbn [snd].
    destruct (process_line_accepted_counts commits0 stats0 line date)
      as (_ & Htypes & _).
    cbv zeta in Htypes.
    destruct (commit_type_of_classified (commit_of (split "|" line) date))
      as (tag & _ & Hname).
    exists tag. rewrite Htypes, Hname. split; [reflexivity|].
    intros tag'.
    destruct (String.eqb_spec (Spec.tag_name tag') (Spec.tag_name tag))
      as [->|Hne].
    + apply get_default_incr_same.
    + rewrite get_default_incr_other by assumption. lia.
  - intros stats' Hfin.
    destruct (score_days_frame _ _ _ Hfin) as (Htot & Htypes & _).
    now rewrite Htot, Htypes.
Qed.

End AggregatorClaims.

(** ** The claims on the classifier *)

Section ClassifierClaims.
Context {RT : Runtime}.
Import PyStr Dict PyList.

(** C1 (amended). The classification block of the aggregator counts, for
    every message, exactly one of the six tags: the tag of the first rule, in
    the order release/version, fix, add/implement, merge, test, whose keyword
    occurs in the message in any mix of upper and lower case, and [other]
    when no rule matches; that tag is unique.  A message with both "release"
    and "fix" counts as release; a message with both "fix" and "add" and
    with neither "release" nor "version" counts as fix. *)
Theorem classifier_priority_order (stats : Stats) (commit : Commit)
  (message : string) :
  exists tag,
    Spec.classified message tag /\
    (forall tag', Spec.classified message tag' -> tag' = tag) /\
    In tag Spec.all_tags /\
    commit_types (classify_commit stats commit message) =
      incr (Spec.tag_name tag) (commit_types stats) /\
    (Spec.mentions "release" message -> Spec.mentions "fix" message ->
     tag = Spec.Release) /\
    (Spec.mentions "fix" message -> Spec.mentions "add" message ->
     ~ Spec.mentions "release" message -> ~ Spec.mentions "version" message ->
     tag = Spec.Fix).
Proof.
  destruct (classify_commit_classified stats commit message)
    as (tag & Htag & Hcount).
  exists tag. split; [exact Htag|]. split; [|split; [|split; [|split]]].
  - intros tag' Htag'. exact (first_match_functional Htag' Htag).
  - destruct tag; simpl; tauto.
  - exact Hcount.
  - intros Hrel _. apply (classified_release Htag). now left.
  - intros Hfix _ Hrel Hver. now apply (classified_fix Htag).
Qed.

(** C10. The classification block of the encoder names the very tag that
    the block of the aggregator counts: for one record, for the whole log,
    and in the pitch, duration and velocity of the note. *)
Theorem encoder_classification_agrees :
  (forall stats commit,
      commit_types (classify_commit stats commit (message commit)) =
        incr (commit_type_of commit) (commit_types stats)) /\
  (forall commits_raw,
      commit_types (snd (aggregate commits_raw)) =
        fold_left (fun d c => incr (commit_type_of c) d)
          (fst (aggregate commits_raw)) []) /\
  (forall author_instruments commit,
      exists pitch,
        getitem (commit_type_of commit) note_map = Ok pitch /\
        make_note author_instruments commit =
          Ok {| pitch := pitch;
                duration :=
                  if String.eqb (commit_type_of commit) "release"
                  then 1 else (1 # 2);
                instrument :=
                  get_default (author commit) "piano" author_instruments;
                velocity :=
                  if String.eqb (commit_type_of commit) "release"
                  then 100 else 80;
                time := (inject_Z (hour commit) / 24)%Q |}).
Proof.
  split; [|split].
  - intros stats commit.
    now destruct (classify_commit_as_encoder stats commit) as (Htypes & _).
  - intros commits_raw.
    now destruct (aggregate_counts commits_raw) as (_ & _ & _ & Hfold).
  - intros author_instruments commit.
    destruct (make_note_ok author_instruments commit)
      as (tag & _ & Hname & Hpitch & Hnote).
    exists (Spec.pitch_table tag). split; [exact Hpitch|].
    rewrite Hnote, Hname. now destruct tag.
Qed.

End ClassifierClaims.

(** C1, a message for which the claim as first worded fails: it has both
    "fix" and "add", and the aggregator counts it as release, not as fix. *)
Lemma fix_and_add_counted_as_release :
  Spec.mentions "fix" "fix: add release notes" /\
  Spec.mentions "add" "fix: add release notes" /\
  commit_types
    (@classify_commit scenario_runtime empty_stats
       (scenario_commit "fix: add release notes") "fix: add release notes")
  = [("release", 1)] /\
  Dict.get "fix"
    (commit_types
       (@classify_commit scenario_runtime empty_stats
          (scenario_commit "fix: add release notes")
          "fix: add release notes"))
  = None /\
  Spec.classified "fix: add release notes" Spec.Release /\
  ~ Spec.classified "fix: add release notes" Spec.Fix.
Proof.
  assert (Hrel : Spec.classified "fix: add release notes" Spec.Release).
  { apply Spec.fm_here. exists "release". split; [simpl; tauto|].
    apply mentions_iff. reflexivity. }
  repeat split; try (apply mentions_iff; reflexivity); try exact Hrel.
  intros Hfix. pose proof (first_match_functional Hfix Hrel). discriminate.
Qed.

(** C1 at the message of the specification's example. *)
Lemma classifier_priority_order_witness :
  exists tag,
    Spec.classified "fix: add logging" tag /\ tag = Spec.Fix /\
    commit_types
      (@classify_commit scenario_runtime empty_stats
         (scenario_commit "fix: add logging") "fix: add logging")
    = [("fix", 1)].
Proof.
  destruct (@classifier_priority_order scenario_runtime empty_stats
              (scenario_commit "fix: add logging") "fix: add logging")
    as (tag & Htag & _ & _ & Hcount & _ & Hfix).
  exists tag. split; [exact Htag|].
  assert (Etag : tag = Spec.Fix).
  { apply Hfix; try (apply mentions_iff; reflexivity);
      intros Hm; apply mentions_iff in Hm; discriminate. }
  split; [exact Etag|]. rewrite Hcount, Etag. reflexivity.
Defined.

(** ** The changed files *)

Section ChangedFiles.
Context {RT : Runtime}.
Import PyStr Dict PyList.

Lemma split_nonempty (sep : ascii) (s : string) : split sep s <> [].
Proof.
  destruct s as [|c s]; simpl; [discriminate|].
  destruct (Ascii.eqb c sep); [discriminate|].
  destruct (split sep s); discriminate.
Qed.

Lemma split_free (sep : ascii) (s : string) :
  Spec.free_of sep s -> split sep s = [s].
Proof.
  induction s as [|c s IH]; simpl; auto.
  intros [Hc Hs]. destruct (Ascii.eqb_spec c sep); [contradiction|].
  now rewrite IH.
Qed.

Lemma last_cons_nonempty {A} (x d : A) (l : list A) :
  l <> [] -> last (x :: l) d = last l d.
Proof. destruct l; [congruence | reflexivity]. Qed.

(** The last field of a split is the last field of what follows any
    separator. *)
Lemma last_split_app (sep : ascii) (stem ext d : string) :
  last (split sep (stem ++ String sep ext)) d = last (split sep ext) d.
Proof.
  induction stem as [|c stem IH]; simpl.
  - rewrite Ascii.eqb_refl. apply last_cons_nonempty, split_nonempty.
  - destruct (Ascii.eqb c sep).
    + rewrite last_cons_nonempty by apply split_nonempty. exact IH.
    + destruct (split sep (stem ++ String sep ext)) as [|w ws] eqn:E.
      * exfalso. exact (split_nonempty _ _ E).
      * destruct ws as [|w' ws].
        -- exfalso. clear IH. revert w E.
           induction stem as [|c' stem IHs]; simpl; intros w E.
           ++ rewrite Ascii.eqb_refl in E.
              destruct (split sep ext) eqn:E'; [|discriminate].
              exact (split_nonempty _ _ E').
           ++ destruct (Ascii.eqb c' sep).
              ** destruct (split sep (stem ++ String sep ext)) eqn:E';
                   [|discriminate].
                 exact (split_nonempty _ _ E').
              ** destruct (split sep (stem ++ String sep ext))
                   as [|w1 [|w2 ws2]] eqn:E'; try discriminate.
                 --- exact (split_nonempty _ _ E').
                 --- eapply IHs. reflexivity.
        -- rewrite <- IH. reflexivity.
Qed.

Lemma contains_char_free (c : ascii) (s : string) :
  contains (String c "") s = false <-> Spec.free_of c s.
Proof.
  induction s as [|c' s IH]; simpl.
  - split; auto.
  - destruct (ascii_dec c c') as [->|Hne]; simpl.
    + split; [destruct s; discriminate | intros [Hc _]; congruence].
    + rewrite IH. split; [intros Hs; split; congruence | tauto].
Qed.

(** A path with a dot ends in a dot-free suffix after its last dot. *)
Lemma last_dot (c : ascii) (s : string) :
  contains (String c "") s = true ->
  exists stem ext, s = (stem ++ String c ext)%string /\ Spec.free_of c ext.
Proof.
  induction s as [|c' s IH]; [discriminate|].
  intros Hs.
  destruct (contains (String c "") s) eqn:E.
  - destruct (IH eq_refl) as (stem & ext & -> & Hfree).
    exists (String c' stem), ext. split; [reflexivity | exact Hfree].
  - apply contains_char_free in E.
    cbn [contains] in Hs. apply orb_true_iff in Hs.
    destruct Hs as [Hp|Hc].
    + apply prefix_iff in Hp. destruct Hp as [t Ht].
      simpl in Ht. injection Ht as -> ->.
      exists "", t. split; [reflexivity | exact E].
    + apply contains_char_free in E. congruence.
Qed.

Lemma count_file_empty (stats : Stats) : count_file stats "" = stats.
Proof. reflexivity. Qed.

Lemma count_file_changes (stats : Stats) (file : string) :
  file <> "" ->
  file_changes (count_file stats file) = incr file (file_changes stats).
Proof.
  intros Hfile. unfold count_file.
  destruct (String.eqb_spec file ""); [contradiction|].
  destruct (contains "." file); reflexivity.
Qed.

Lemma fold_count_file_changes (files : list string) (stats : Stats)
  (path : string) :
  path <> "" ->
  get_default path 0 (file_changes (fold_left count_file files stats)) =
  get_default path 0 (file_changes stats) + Spec.occurrences path files.
Proof.
  intros Hpath. unfold Spec.occurrences.
  revert stats. induction files as [|f files IH]; intros stats.
  - simpl. lia.
  - cbn [fold_left count_occ]. rewrite IH.
    destruct (string_dec f path) as [->|Hne].
    + rewrite count_file_changes, get_default_incr_same by assumption. lia.
    + destruct (String.eqb_spec f "") as [->|Hf].
      * rewrite count_file_empty. lia.
      * rewrite count_file_changes, get_default_incr_other by congruence.
        lia.
Qed.

Lemma count_of_occurrences (k : string) (ks : list string) :
  count_of k ks = Spec.occurrences k ks.
Proof.
  unfold count_of, Spec.occurrences. f_equal.
  cbn [keqb Key_string].
  induction ks as [|k' ks IH]; [reflexivity|].
  cbn [filter count_occ].
  destruct (string_dec k' k) as [->|Hne].
  - rewrite String.eqb_refl. cbn [length]. now rewrite IH.
  - destruct (String.eqb_spec k k') as [->|_]; [congruence | exact IH].
Qed.

Lemma tally_app {K} `{Key K} (a b : list K) :
  tally (a ++ b) = fold_left (fun d k => incr k d) b (tally a).
Proof. unfold tally. apply fold_left_app. Qed.

Lemma somes_app {A} (a b : list (option A)) :
  somes (a ++ b) = somes a ++ somes b.
Proof. apply flat_map_app. Qed.

(** Lines 97-102 for a path that is not empty. *)
Lemma count_file_step (stats : Stats) (file : string) :
  file <> "" ->
  exists e,
    extension_is file e /\
    file_changes (count_file stats file) = incr file (file_changes stats) /\
    languages (count_file stats file) =
      fold_left (fun d k => incr k d) (somes [e]) (languages stats).
Proof.
  intros Hfile. unfold count_file.
  destruct (String.eqb_spec file ""); [contradiction|].
  destruct (contains "." file) eqn:Hc.
  - destruct (last_dot _ _ Hc) as (stem & ext & Hsplit & Hfree).
    exists (Some ext). split; [exists stem; split; assumption|].
    split; [reflexivity|].
    assert (Hext : last (split "." file) "" = ext).
    { rewrite Hsplit, last_split_app, split_free by assumption.
      reflexivity. }
    rewrite Hext. reflexivity.
  - exists None. split; [now apply contains_char_free|].
    split; reflexivity.
Qed.

(** Lines 96-102 over the lines of one output of [git diff-tree]. *)
Lemma fold_count_file_paths (files : list string) :
  forall stats,
    let paths := filter (fun file => negb (String.eqb file "")) files in
    exists exts,
      Forall2 extension_is paths exts /\
      file_changes (fold_left count_file files stats) =
        fold_left (fun d k => incr k d) paths (file_changes stats) /\
      languages (fold_left count_file files stats) =
        fold_left (fun d k => incr k d) (somes exts) (languages stats).
Proof.
  induction files as [|f files IH]; intros stats; cbn [fold_left filter].
  - exists []. split; [constructor|]. split; reflexivity.
  - destruct (String.eqb_spec f "") as [->|Hf]; cbn [negb].
    + rewrite count_file_empty. apply IH.
    + destruct (count_file_step stats Hf) as (e & He & Hfc & Hl).
      destruct (IH (count_file stats f)) as (exts & Hexts & Hfc' & Hl').
      exists (e :: exts). split; [now constructor|].
      cbn [fold_left]. rewrite Hfc', Hfc. split; [reflexivity|].
      change (e :: exts) with ([e] ++ exts).
      rewrite somes_app, fold_left_app, Hl', Hl. reflexivity.
Qed.

(** The two dictionaries of the changed files after the loop over a log. *)
Lemma aggregate_paths (commits_raw : string) :
  let commits := fst (aggregate commits_raw) in
  let stats := snd (aggregate commits_raw) in
  file_changes stats = tally (processed_paths commits) /\
  exists exts,
    Forall2 extension_is (processed_paths commits) exts /\
    languages stats = tally (somes exts).
Proof.
  cbv zeta. apply aggregate_ind with
    (P := fun acc =>
            file_changes (snd acc) = tally (processed_paths (fst acc)) /\
            exists exts,
              Forall2 extension_is (processed_paths (fst acc)) exts /\
              languages (snd acc) = tally (somes exts)).
  - split; [reflexivity|]. exists []. split; [constructor | reflexivity].
  - intros [commits stats] line (Hf & exts & Hexts & Hl).
    destruct (process_line_cases commits stats line)
      as [[_ Hsame] | [_ (date & _ & Hstep)]].
    + rewrite Hsame. split; [exact Hf|]. now exists exts.
    + cbv zeta in Hstep. rewrite Hstep. cbn [fst snd] in *.
      set (commit := commit_of (split "|" line) date) in *.
      destruct (classify_commit_as_encoder (count_commit stats commit) commit)
        as (_ & _ & _ & _ & _ & _ & Hf' & Hl' & _).
      cbv zeta in Hf', Hl'. cbn [count_commit file_changes languages
        with_commits_by_hour with_commits_by_day with_authors
        with_total_commits] in Hf', Hl'.
      unfold count_files.
      destruct (fold_count_file_paths
                  (split newline
                     (run_git_command
                        ("git diff-tree --no-commit-id --name-only -r "
                           ++ hash commit)))
                  (classify_commit (count_commit stats commit) commit
                     (message commit)))
        as (exts' & Hexts' & Hfc & Hlang).
      fold (changed_paths (hash commit)) in Hexts', Hfc.
      unfold processed_paths. rewrite flat_map_app. cbn [flat_map].
      rewrite app_nil_r. fold (processed_paths commits).
      split.
      * rewrite Hfc, Hf', Hf, tally_app. reflexivity.
      * exists (exts ++ exts'). split; [now apply Forall2_app|].
        rewrite Hlang, Hl', Hl, somes_app, tally_app. reflexivity.
Qed.

(** C9. After the loop over any log, the counter of a path in
    [file_changes] is the number of times [git diff-tree] names it for the
    records of the log, and its keys are the paths so named; the counters of
    [languages] are those of what follows the last ['.'] of each of these
    paths that has a ['.'], a path without one giving nothing; no path that
    [git diff-tree] names for a record is left out, unless it is empty.  In
    the loop body, a path adds one to its own counter in [file_changes] and
    to no other; a path with a ['.'] adds one to the counter in [languages]
    of what follows its last ['.'], and to no other; a path without a ['.']
    leaves [languages] as it was; and no other field changes. *)
Theorem changed_file_counters (commits_raw : string) :
  let commits := fst (aggregate commits_raw) in
  let stats := snd (aggregate commits_raw) in
  let paths := processed_paths commits in
  (forall path,
      get_default path 0 (file_changes stats) = Spec.occurrences path paths) /\
  (forall path, In path (keys (file_changes stats)) <-> In path paths) /\
  (exists exts,
      Forall2 extension_is paths exts /\
      languages stats = tally (somes exts) /\
      (forall ext,
          get_default ext 0 (languages stats) =
          Spec.occurrences ext (somes exts)) /\
      (forall ext, In ext (keys (languages stats)) <-> In (Some ext) exts)) /\
  (forall c path,
      In c commits ->
      In path
        (split newline
           (run_git_command
              ("git diff-tree --no-commit-id --name-only -r " ++ hash c))) ->
      path <> "" -> In path paths) /\
  forall (stats0 : Stats) (file : string),
    file <> "" ->
    let stats' := count_file stats0 file in
    (forall path,
        get_default path 0 (file_changes stats') =
        get_default path 0 (file_changes stats0)
        + (if String.eqb path file then 1 else 0)) /\
    (Spec.free_of "." file -> languages stats' = languages stats0) /\
    ((exists stem rest, file = (stem ++ "." ++ rest)%string) ->
     exists ext,
       Spec.suffix_after_last_dot file ext /\
       languages stats' = incr ext (languages stats0) /\
       forall e,
         get_default e 0 (languages stats') =
         get_default e 0 (languages stats0)
         + (if String.eqb e ext then 1 else 0)) /\
    same_commit_counts stats0 stats'.
Proof.
  intros commits stats paths.
  destruct (aggregate_paths commits_raw) as (Hf & exts & Hexts & Hl).
  fold commits in Hf, Hexts. fold stats in Hf, Hl. fold paths in Hf, Hexts.
  split; [|split; [|split; [|split]]].
  - intros path. rewrite Hf, tally_get. apply count_of_occurrences.
  - intros path. rewrite Hf. apply tally_keys_In.
  - exists exts. split; [exact Hexts|]. split; [exact Hl|]. split.
    + intros ext. rewrite Hl, tally_get. apply count_of_occurrences.
    + intros ext. rewrite Hl, tally_keys_In. unfold somes.
      rewrite in_flat_map. split.
      * intros ([x|] & Hx & Hin); [|destruct Hin].
        destruct Hin as [->|[]]. exact Hx.
      * intros Hin. exists (Some ext). split; [exact Hin | now left].
  - intros c path Hc Hpath Hne. unfold paths, processed_paths.
    apply in_flat_map. exists c. split; [exact Hc|].
    unfold changed_paths. apply filter_In. split; [exact Hpath|].
    now destruct (String.eqb_spec path "").
  - intros stats0 file Hfile stats'. split; [|split; [|split]].
    + intros path. subst stats'. rewrite count_file_changes by assumption.
      destruct (String.eqb_spec path file) as [->|Hne].
      * apply get_default_incr_same.
      * rewrite get_default_incr_other by assumption. lia.
    + intros Hfree. subst stats'. unfold count_file.
      destruct (String.eqb file ""); [reflexivity|].
      apply contains_char_free in Hfree. now rewrite Hfree.
    + intros Hdot.
      assert (Hc : contains "." file = true)
        by (apply contains_iff; exact Hdot).
      destruct (last_dot _ _ Hc) as (stem & ext & Hsplit & Hfree).
      exists ext. split; [exists stem; split; assumption|].
      assert (Hext : last (split "." file) "" = ext).
      { rewrite Hsplit, last_split_app, split_free by assumption.
        reflexivity. }
      assert (Hlang : languages stats' = incr ext (languages stats0)).
      { subst stats'. unfold count_file.
        destruct (String.eqb_spec file ""); [contradiction|].
        rewrite Hc, Hext. reflexivity. }
      split; [exact Hlang|].
      intros e. rewrite Hlang.
      destruct (String.eqb_spec e ext) as [->|Hne].
      * apply get_default_incr_same.
      * rewrite get_default_incr_other by assumption. lia.
    + apply count_file_frame.
Qed.

End ChangedFiles.

(** C9 at a log of two commits. *)
Lemma changed_file_counters_witness :
  file_changes (snd (@aggregate files_runtime files_log)) =
    [("src/main.rs", 1); ("README", 1); ("pkg/data.tar.gz", 1);
     ("src/lib.rs", 1)] /\
  languages (snd (@aggregate files_runtime files_log)) =
    [("rs", 2); ("gz", 1)] /\
  Dict.get_default "README" 0
    (file_changes (snd (@aggregate files_runtime files_log))) = 1 /\
  Dict.get_default "rs" 0
    (languages (snd (@aggregate files_runtime files_log))) = 2 /\
  Dict.get_default "tar" 0
    (languages (snd (@aggregate files_runtime files_log))) = 0 /\
  languages (count_file empty_stats "pkg/data.tar.gz") = [("gz", 1)].
Proof.
  destruct (@changed_file_counters files_runtime files_log)
    as (Hfiles & _ & (exts & Hexts & Hlang & Hcount & _) & _ & Hstep).
  assert (Hpaths : @processed_paths files_runtime
                     (fst (@aggregate files_runtime files_log))
                   = ["src/main.rs"; "README"; "pkg/data.tar.gz";
                      "src/lib.rs"]) by (vm_compute; reflexivity).
  split; [vm_compute; reflexivity|].
  split; [vm_compute; reflexivity|].
  split; [rewrite Hfiles, Hpaths; reflexivity|].
  split; [vm_compute; reflexivity|].
  split; [vm_compute; reflexivity|].
  destruct (Hstep empty_stats "pkg/data.tar.gz") as (_ & _ & Hdots & _);
    [discriminate|].
  destruct Hdots as (ext & _ & Hincr & _).
  { exists "pkg/data", "tar.gz". reflexivity. }
  reflexivity.
Defined.

(** ** The report on an empty accumulator *)

(** C2 (amended). On an accumulator whose mappings are all empty the
    renderer raises nothing; its output has neither the brightest-day line
    nor the hottest-file line; it does have the recent-activity line, once,
    with the average 0.0. *)
Theorem empty_report_facts (n : Z) (scores : list (string * Q)) :
  exists lines,
    report_lines (blank_stats n scores) = Ok lines /\
    generate_summary_report (blank_stats n scores) =
      Ok (String.concat (String newline "") lines) /\
    existsb is_brightest_day_line lines = false /\
    existsb is_hottest_file_line lines = false /\
    filter is_recent_activity_line lines =
      [("  " ++ recent_glyph
          ++ " Recent Activity: 0.0 commits/day (last 30 days)")%string] /\
    cosmic_facts (blank_stats n scores) = Ok [recent_activity_line 0].
Proof.
  eexists. split; [reflexivity|].
  split; [reflexivity|].
  repeat split.
Qed.

(** C2, the claim as first worded fails on the empty accumulator: the
    recent-activity line is in the output. *)
Lemma empty_report_keeps_recent_activity :
  exists lines,
    report_lines empty_stats = Ok lines /\
    existsb is_recent_activity_line lines = true /\
    In ("  " ++ recent_glyph
          ++ " Recent Activity: 0.0 commits/day (last 30 days)")%string
      lines /\
    ~ (existsb is_brightest_day_line lines = false /\
       existsb is_recent_activity_line lines = false /\
       existsb is_hottest_file_line lines = false).
Proof.
  eexists. split; [reflexivity|].
  split; [reflexivity|]. split.
  - cbv. tauto.
  - intros (_ & Hrecent & _). discriminate Hrecent.
Qed.

(** ** The musical encoder *)

Section Instruments.
Import Dict PyList.

(** The cyclic choice of line 132 never leaves the list. *)
Lemma index_instruments (i : Z) :
  exists ins, index instruments (i mod len instruments) = Ok ins.
Proof.
  change (len instruments) with 5.
  assert (Hj : i mod 5 = 0 \/ i mod 5 = 1 \/ i mod 5 = 2 \/ i mod 5 = 3
               \/ i mod 5 = 4)
    by (pose proof (Z.mod_pos_bound i 5); lia).
  destruct Hj as [E|[E|[E|[E|E]]]]; rewrite E; eexists; reflexivity.
Qed.

(** The comprehension of lines 131-134 over distinct authors: each author
    gets the instrument of its own position, the others keep what they
    had. *)
Lemma assign_instruments_spec (authors : list string) :
  forall (start : Z) (d : list (string * string)),
    NoDup authors ->
    exists author_instruments,
      assign_instruments (enumerate_from start authors) d
        = Ok author_instruments /\
      (forall i a,
          nth_error authors i = Some a ->
          exists ins,
            index instruments ((start + Z.of_nat i) mod len instruments)
              = Ok ins /\
            get a author_instruments = Some ins) /\
      (forall a, ~ In a authors -> get a author_instruments = get a d).
Proof.
  induction authors as [|a0 authors IH]; intros start d Hnd.
  - exists d. split; [reflexivity|]. split; [|reflexivity].
    intros [|i] a; discriminate.
  - inversion Hnd as [|? ? Hnotin Hnd']; subst.
    cbn [enumerate_from assign_instruments].
    destruct (index_instruments start) as (ins0 & Hins0).
    rewrite Hins0. cbn [bind].
    destruct (IH (start + 1) (set a0 ins0 d) Hnd')
      as (ai & Hrun & Hin & Hout).
    exists ai. split; [exact Hrun|]. split.
    + intros [|i] a Hnth.
      * injection Hnth as <-. exists ins0.
        rewrite Z.add_0_r. split; [exact Hins0|].
        rewrite (Hout a0 Hnotin). apply get_set_same.
      * destruct (Hin i a Hnth) as (ins & Hins & Hget).
        exists ins. split; [|exact Hget].
        replace (start + Z.of_nat (S i)) with (start + 1 + Z.of_nat i) by lia.
        exact Hins.
    + intros a Ha. rewrite Hout by (intros Hin'; apply Ha; now right).
      apply get_set_other. intros ->. apply Ha. now left.
Qed.

Lemma assign_instruments_ok (pairs : list (Z * string)) :
  forall d, exists author_instruments,
    assign_instruments pairs d = Ok author_instruments.
Proof.
  induction pairs as [|[i a] pairs IH]; intros d; simpl.
  - now exists d.
  - destruct (index_instruments i) as (ins & Hins). rewrite Hins. simpl.
    apply IH.
Qed.

End Instruments.

Section StringOrder.
Import PyStr.

Lemma leb_total (a b : string) : leb a b = true \/ leb b a = true.
Proof.
  unfold leb.
  destruct (String_as_OT.compare_spec a b) as [E|Hlt|Hgt]; auto.
  right. destruct (String_as_OT.compare_spec b a) as [E'|Hlt'|Hgt']; auto.
  exfalso. exact (StrictOrder_Irreflexive _
                    (StrictOrder_Transitive _ _ _ Hgt Hgt')).
Qed.

Lemma leb_cases (a b : string) :
  leb a b = true <-> a = b \/ String_as_OT.lt a b.
Proof.
  unfold leb.
  destruct (String_as_OT.compare_spec a b) as [E|Hlt|Hgt]; split; auto.
  - discriminate.
  - intros [->|Hlt].
    + exfalso. exact (StrictOrder_Irreflexive _ Hgt).
    + exfalso. exact (StrictOrder_Irreflexive _
                        (StrictOrder_Transitive _ _ _ Hlt Hgt)).
Qed.

Lemma leb_trans (a b c : string) :
  leb a b = true -> leb b c = true -> leb a c = true.
Proof.
  rewrite !leb_cases. intros [->|Hab] [->|Hbc]; auto.
  right. exact (StrictOrder_Transitive _ _ _ Hab Hbc).
Qed.

Lemma ltb_cases (a b : string) :
  ltb a b = true <-> leb a b = true /\ a <> b.
Proof.
  unfold ltb, leb.
  destruct (String_as_OT.compare_spec a b) as [E|Hlt|Hgt]; split;
    try discriminate; try (intros [H1 H2]; congruence).
  intros _. split; [reflexivity|]. intros ->.
  exact (StrictOrder_Irreflexive _ Hlt).
Qed.

End StringOrder.

Section Sorting.
Import PyList.
Context {A : Type} (before : A -> A -> bool).
Hypothesis before_total : forall x y, before x y = true \/ before y x = true.
Hypothesis before_trans :
  forall x y z, before x y = true -> before y z = true -> before x z = true.

Lemma insert_perm (x : A) (l : list A) : Permutation (insert before x l) (x :: l).
Proof.
  induction l as [|y l IH]; simpl; [reflexivity|].
  destruct (before x y); [reflexivity|].
  rewrite IH. apply perm_swap.
Qed.

Lemma sorted_perm (l : list A) : Permutation (sorted before l) l.
Proof.
  induction l as [|x l IH]; simpl; [reflexivity|].
  unfold sorted in IH. rewrite insert_perm. now constructor.
Qed.

Lemma insert_sorted (x : A) (l : list A) :
  StronglySorted (fun a b => before a b = true) l ->
  StronglySorted (fun a b => before a b = true) (insert before x l).
Proof.
  induction 1 as [|y l Hl IH Hy]; simpl.
  - repeat constructor.
  - destruct (before x y) eqn:E.
    + constructor; [now constructor|].
      constructor; [exact E|].
      eapply Forall_impl; [|exact Hy]. intros z Hz. eauto.
    + constructor; [exact IH|].
      apply (Permutation_Forall (Permutation_sym (insert_perm x l))).
      constructor; [|exact Hy].
      destruct (before_total x y); congruence.
Qed.

Lemma sorted_sorted (l : list A) :
  StronglySorted (fun a b => before a b = true) (sorted before l).
Proof.
  induction l as [|x l IH]; simpl; [constructor|].
  now apply insert_sorted.
Qed.

End Sorting.

Section Slices.
Import PyList.

Lemma lastn_suffix {A} (n : nat) (l : list A) :
  exists front,
    l = front ++ lastn n l /\ length (lastn n l) = Nat.min n (length l).
Proof.
  exists (firstn (length l - n) l). unfold lastn. split.
  - now rewrite firstn_skipn.
  - rewrite length_skipn. lia.
Qed.

Lemma StronglySorted_app {A} (R : A -> A -> Prop) (l1 l2 : list A) :
  StronglySorted R (l1 ++ l2) ->
  StronglySorted R l2 /\
  forall x y, In x l1 -> In y l2 -> R x y.
Proof.
  induction l1 as [|a l1 IH]; simpl; intros Hs.
  - split; [exact Hs | tauto].
  - inversion Hs as [|? ? Hrest Hall]; subst.
    destruct (IH Hrest) as (H2 & Hcross). split; [exact H2|].
    intros x y [<-|Hx] Hy; [|auto].
    rewrite Forall_forall in Hall. apply Hall, in_or_app. now right.
Qed.

End Slices.

Section Encoder.
Context {RT : Runtime}.
Import PyStr Dict PyList.

Lemma map_result_Forall2 {A B} (f : A -> Result B) (l : list A) :
  (forall x, In x l -> exists y, f x = Ok y) ->
  exists ys, map_result f l = Ok ys /\ Forall2 (fun x y => f x = Ok y) l ys.
Proof.
  induction l as [|x l IH]; intros Hf; simpl.
  - exists []. split; [reflexivity | constructor].
  - destruct (Hf x (or_introl eq_refl)) as (y & Hy).
    destruct IH as (ys & Hys & Hall); [intros z Hz; apply Hf; now right|].
    exists (y :: ys). rewrite Hy, Hys. split; [reflexivity|].
    now constructor.
Qed.

(** The grouping of lines 145-148, started from any dictionary. *)
Lemma group_fold (commits : list Commit) :
  forall d0 : list (string * list Commit),
    NoDup (keys d0) ->
    NoDup (keys (fold_left add_to_week commits d0)) /\
    (forall w,
        get_default w [] (fold_left add_to_week commits d0) =
        get_default w [] d0 ++ commits_of_week w commits) /\
    (forall w,
        In w (keys (fold_left add_to_week commits d0)) <->
        In w (keys d0) \/ exists c, In c commits /\ week_of c = w).
Proof.
  induction commits as [|c commits IH]; intros d0 Hnd.
  - simpl. split; [exact Hnd|]. split.
    + intros w. now rewrite app_nil_r.
    + intros w. split; [tauto|]. intros [Hw|(c & [] & _)]. exact Hw.
  - cbn [fold_left].
    assert (Hd1 : add_to_week d0 c =
                  set (week_of c) (get_default (week_of c) [] d0 ++ [c]) d0)
      by reflexivity.
    destruct (IH (add_to_week d0 c)) as (Hnd' & Hget & Hkeys).
    { rewrite Hd1. now apply NoDup_keys_set. }
    split; [exact Hnd'|]. split.
    + intros w. rewrite Hget, Hd1. unfold commits_of_week. cbn [filter].
      unfold get_default at 1.
      destruct (String.eqb_spec (week_of c) w) as [<-|Hne].
      * rewrite get_set_same, <- app_assoc. reflexivity.
      * rewrite get_set_other by congruence. reflexivity.
    + intros w. rewrite Hkeys, Hd1, keys_set.
      destruct (mem (week_of c) d0) eqn:Em.
      * apply mem_In_keys in Em. split.
        -- intros [Hw|(c' & Hc' & Hw)]; [now left|].
           right. exists c'. split; [now right | exact Hw].
        -- intros [Hw|(c' & [<-|Hc'] & Hw)]; [now left | |].
           ++ left. now rewrite <- Hw.
           ++ right. now exists c'.
      * rewrite in_app_iff. simpl. split.
        -- intros [[Hw|[<-|[]]]|(c' & Hc' & Hw)].
           ++ now left.
           ++ right. exists c. split; [now left | reflexivity].
           ++ right. exists c'. split; [now right | exact Hw].
        -- intros [Hw|(c' & [<-|Hc'] & Hw)].
           ++ now left; left.
           ++ left. right. now left.
           ++ right. now exists c'.
Qed.

(** The weeks of [commits_by_week] and their commits. *)
Lemma group_by_week_spec (commits : list Commit) :
  NoDup (keys (group_by_week commits)) /\
  (forall w cs,
      In (w, cs) (group_by_week commits) ->
      cs = commits_of_week w commits /\
      exists c, In c commits /\ week_of c = w) /\
  (forall c, In c commits -> In (week_of c) (keys (group_by_week commits))).
Proof.
  destruct (group_fold commits [] (NoDup_nil _)) as (Hnd & Hget & Hkeys).
  fold (group_by_week commits) in Hnd, Hget, Hkeys.
  split; [exact Hnd|]. split.
  - intros w cs Hin. split.
    + pose proof (Hget w) as Hw. unfold get_default in Hw.
      rewrite (NoDup_keys_get _ _ _ Hnd Hin) in Hw. exact Hw.
    + assert (Hk : In w (keys (group_by_week commits))).
      { change w with (fst (w, cs)). now apply in_map. }
      apply Hkeys in Hk. destruct Hk as [[]|Hc]. exact Hc.
  - intros c Hc. apply Hkeys. right. now exists c.
Qed.

Lemma week_before_total (x y : string * list Commit) :
  week_before x y = true \/ week_before y x = true.
Proof. apply leb_total. Qed.

Lemma week_before_trans (x y z : string * list Commit) :
  week_before x y = true -> week_before y z = true -> week_before x z = true.
Proof. apply leb_trans. Qed.

(** A list that is sorted by its keys and has distinct keys is strictly
    sorted. *)
Lemma sorted_distinct_strict (l : list (string * list Commit)) :
  StronglySorted (fun x y => week_before x y = true) l ->
  NoDup (map fst l) ->
  StronglySorted (fun x y => ltb (fst x) (fst y) = true) l.
Proof.
  induction 1 as [|x l Hl IH Hx]; intros Hnd; [constructor|].
  inversion Hnd as [|? ? Hnotin Hnd']; subst.
  constructor; [auto|].
  rewrite Forall_forall in *. intros y Hy.
  apply ltb_cases. split; [exact (Hx y Hy)|].
  intros E. apply Hnotin. rewrite E. now apply in_map.
Qed.

(** The weeks that the encoder keeps. *)
Lemma retained_weeks_spec (commits : list Commit) :
  let kept := lastn 10 (sorted week_before (items (group_by_week commits))) in
  StronglySorted (fun x y => ltb (fst x) (fst y) = true) kept /\
  (length kept <= 10)%nat /\
  (forall w cs,
      In (w, cs) kept ->
      cs = commits_of_week w commits /\
      exists c, In c commits /\ week_of c = w) /\
  (forall c,
      In c commits ->
      In (week_of c) (map fst kept) \/
      (length kept = 10%nat /\
       forall item, In item kept -> ltb (week_of c) (fst item) = true)).
Proof.
  intros kept.
  destruct (group_by_week_spec commits) as (Hnd & Hitems & Hall).
  set (s := sorted week_before (items (group_by_week commits))) in *.
  assert (Hperm : Permutation s (group_by_week commits))
    by apply sorted_perm.
  assert (Hstrict : StronglySorted (fun x y => ltb (fst x) (fst y) = true) s).
  { apply sorted_distinct_strict.
    - apply sorted_sorted; [apply week_before_total | apply week_before_trans].
    - apply (Permutation_NoDup (l := keys (group_by_week commits)));
        [|exact Hnd].
      apply Permutation_map, Permutation_sym, Hperm. }
  destruct (lastn_suffix 10 s) as (front & Hs & Hlen).
  fold kept in Hs, Hlen.
  rewrite Hs in Hstrict. apply StronglySorted_app in Hstrict.
  destruct Hstrict as (Hkept & Hcross).
  split; [exact Hkept|]. split; [lia|]. split.
  - intros w cs Hin. apply Hitems.
    apply (Permutation_in _ Hperm). rewrite Hs. apply in_or_app. now right.
  - intros c Hc. specialize (Hall c Hc). unfold keys in Hall.
    apply in_map_iff in Hall. destruct Hall as (item & Hfst & Hitem).
    apply (Permutation_in _ (Permutation_sym Hperm)) in Hitem.
    rewrite Hs in Hitem. apply in_app_or in Hitem.
    destruct Hitem as [Hfront|Hkeptin].
    + right. split.
      * assert (Hlong : (length s = length front + length kept)%nat)
          by (rewrite Hs at 1; apply length_app).
        destruct front; [destruct Hfront|]. simpl in Hlong. lia.
      * intros item' Hitem'. rewrite <- Hfst. now apply Hcross.
    + left. rewrite <- Hfst. now apply in_map.
Qed.

(** The score: one movement for every kept week, one note for every
    commit of the week. *)
Lemma encoder_shape (commits : list Commit) (stats : Stats) :
  exists author_instruments score,
    assign_instruments (enumerate (keys (authors stats))) []
      = Ok author_instruments /\
    create_musical_representation commits stats = Ok score /\
    Forall2
      (fun item mv =>
         name mv = ("Week of " ++ fst item)%string /\
         Forall2 (fun c n => make_note author_instruments c = Ok n)
           (snd item) (notes mv))
      (lastn 10 (sorted week_before (items (group_by_week commits))))
      (movements score).
Proof.
  destruct (assign_instruments_ok (enumerate (keys (authors stats))) [])
    as (ai & Hai).
  exists ai.
  destruct (map_result_Forall2 (make_movement ai)
              (lastn 10 (sorted week_before (items (group_by_week commits)))))
    as (mvs & Hmvs & Hall).
  { intros [w cs] _. unfold make_movement.
    destruct (map_result_Forall2 (make_note ai) cs) as (ns & Hns & _).
    - intros c _. destruct (make_note_ok ai c) as (tag & _ & _ & _ & Hn).
      eexists. exact Hn.
    - rewrite Hns. eexists. reflexivity. }
  eexists. split; [exact Hai|]. split.
  - unfold create_musical_representation. rewrite Hai. cbn [bind].
    rewrite Hmvs. reflexivity.
  - cbn [movements]. eapply Forall2_impl; [|exact Hall].
    intros [w cs] mv Hmv. unfold make_movement in Hmv.
    destruct (map_result_Forall2 (make_note ai) cs) as (ns & Hns & Hnotes).
    + intros c _. destruct (make_note_ok ai c) as (tag & _ & _ & _ & Hn).
      eexists. exact Hn.
    + rewrite Hns in Hmv. cbn [bind] in Hmv. injection Hmv as <-.
      split; [reflexivity | exact Hnotes].
Qed.

End Encoder.

(** ** The claims on the encoder *)

Section EncoderClaims.
Context {RT : Runtime}.
Import PyStr Dict PyList.

Lemma Forall2_impl_in {A B} (R R' : A -> B -> Prop) (l : list A)
  (l' : list B) :
  (forall x y, In x l -> R x y -> R' x y) ->
  Forall2 R l l' -> Forall2 R' l l'.
Proof.
  intros Himp Hall. induction Hall as [|x y l l' Hxy Hall IH];
    constructor.
  - apply Himp; [now left | exact Hxy].
  - apply IH. intros x' y' Hx'. apply Himp. now right.
Qed.

Lemma Forall2_map_fst {A B C} (R : A -> C -> Prop) (l : list (A * B))
  (l' : list C) :
  Forall2 (fun item y => R (fst item) y) l l' -> Forall2 R (map fst l) l'.
Proof. induction 1; simpl; constructor; auto. Qed.

Lemma StronglySorted_map_fst {A B} (R : A -> A -> Prop) (l : list (A * B)) :
  StronglySorted (fun x y => R (fst x) (fst y)) l ->
  StronglySorted R (map fst l).
Proof.
  induction 1 as [|x l Hl IH Hx]; simpl; constructor; auto.
  rewrite Forall_forall in *. intros y Hy.
  apply in_map_iff in Hy. destruct Hy as (item & <- & Hitem). auto.
Qed.

(** The kept weeks, the movements and the notes of the score. *)
Lemma encoder_notes (commits : list Commit) (stats : Stats) :
  exists author_instruments score weeks,
    assign_instruments (enumerate (keys (authors stats))) []
      = Ok author_instruments /\
    create_musical_representation commits stats = Ok score /\
    weeks =
      map fst (lastn 10 (sorted week_before (items (group_by_week commits)))) /\
    Forall2
      (fun w mv =>
         name mv = ("Week of " ++ w)%string /\
         Forall2 (fun c n => make_note author_instruments c = Ok n)
           (commits_of_week w commits) (notes mv))
      weeks (movements score).
Proof.
  destruct (encoder_shape commits stats) as (ai & score & Hai & Hrun & Hall).
  exists ai, score. eexists. split; [exact Hai|]. split; [exact Hrun|].
  split; [reflexivity|].
  apply Forall2_map_fst.
  eapply Forall2_impl_in; [|exact Hall].
  intros [w cs] mv Hin (Hname & Hnotes).
  destruct (retained_weeks_spec commits) as (_ & _ & Hitems & _).
  destruct (Hitems w cs Hin) as (Hcs & _).
  cbn [fst snd] in *. rewrite <- Hcs. split; assumption.
Qed.

(** C6. The encoder returns a score whose movements are the weeks with
    commits in strictly ascending order of their labels, at most ten of them
    and then the ten greatest; the movement of a week is named after it and
    has one note for every commit of the week, in stream order; without
    commits there is no movement. *)
Theorem encoder_keeps_last_ten_weeks (commits : list Commit) (stats : Stats) :
  exists score weeks author_instruments,
    create_musical_representation commits stats = Ok score /\
    StronglySorted (fun w1 w2 => ltb w1 w2 = true) weeks /\
    (length weeks <= 10)%nat /\
    (forall w, In w weeks -> exists c, In c commits /\ week_of c = w) /\
    (forall c,
        In c commits ->
        In (week_of c) weeks \/
        (length weeks = 10%nat /\
         forall w, In w weeks -> ltb (week_of c) w = true)) /\
    Forall2
      (fun w mv =>
         name mv = ("Week of " ++ w)%string /\
         length (notes mv) = length (commits_of_week w commits) /\
         Forall2 (fun c n => make_note author_instruments c = Ok n)
           (commits_of_week w commits) (notes mv))
      weeks (movements score) /\
    exists score0,
      create_musical_representation [] stats = Ok score0 /\
      movements score0 = [].
Proof.
  destruct (encoder_notes commits stats)
    as (ai & score & weeks & _ & Hrun & Hweeks & Hall).
  destruct (retained_weeks_spec commits) as (Hsorted & Hlen & Hitems & Hmax).
  cbv zeta in Hsorted, Hlen, Hitems, Hmax.
  exists score, weeks, ai. split; [exact Hrun|].
  split; [|split; [|split; [|split; [|split]]]].
  - rewrite Hweeks. now apply StronglySorted_map_fst.
  - rewrite Hweeks, length_map. exact Hlen.
  - intros w Hw. rewrite Hweeks in Hw. apply in_map_iff in Hw.
    destruct Hw as ([w' cs] & <- & Hin). now destruct (Hitems w' cs Hin).
  - intros c Hc. rewrite Hweeks, length_map.
    destruct (Hmax c Hc) as [Hin|(Hten & Hlt)]; [now left|].
    right. split; [exact Hten|].
    intros w Hw. apply in_map_iff in Hw.
    destruct Hw as (item & <- & Hitem). now apply Hlt.
  - eapply Forall2_impl; [|exact Hall].
    intros w mv (Hname & Hnotes). split; [exact Hname|].
    split; [|exact Hnotes]. symmetry. exact (Forall2_length Hnotes).
  - destruct (encoder_notes [] stats)
      as (ai0 & score0 & weeks0 & _ & Hrun0 & Hweeks0 & Hall0).
    exists score0. split; [exact Hrun0|].
    cbn in Hweeks0. subst weeks0. now inversion Hall0.
Qed.

Lemma hour_fraction_bounds (h : Z) :
  0 <= h <= 23 ->
  (0 <= inject_Z h / 24 /\ inject_Z h / 24 <= 23 # 24)%Q.
Proof.
  intros Hh. unfold Qle, Qdiv, Qmult, Qinv, inject_Z. cbn. lia.
Qed.

(** C7. Every note of the score comes from a commit of its week; its pitch
    is the table's pitch of the commit's tag, its duration is 1 for release
    and 1/2 otherwise, its velocity is 100 for release and 80 otherwise, and
    its time is the commit's hour over 24, which lies between 0 and 23/24
    for an hour from 0 to 23. *)
Theorem note_fields_follow_classification (commits : list Commit)
  (stats : Stats) :
  exists score weeks,
    create_musical_representation commits stats = Ok score /\
    Forall2
      (fun w mv =>
         Forall2
           (fun c n =>
              exists tag,
                Spec.classified (message c) tag /\
                pitch n = Spec.pitch_table tag /\
                duration n = Spec.note_duration tag /\
                velocity n = Spec.note_velocity tag /\
                time n = (inject_Z (hour c) / 24)%Q /\
                (0 <= hour c <= 23 ->
                 (0 <= time n /\ time n <= 23 # 24)%Q))
           (commits_of_week w commits) (notes mv))
      weeks (movements score).
Proof.
  destruct (encoder_notes commits stats)
    as (ai & score & weeks & _ & Hrun & _ & Hall).
  exists score, weeks. split; [exact Hrun|].
  eapply Forall2_impl; [|exact Hall].
  intros w mv (_ & Hnotes).
  eapply Forall2_impl; [|exact Hnotes].
  intros c n Hn.
  destruct (make_note_ok ai c) as (tag & Htag & _ & _ & Hnote).
  cbv beta in Hn. rewrite Hnote in Hn. injection Hn as <-.
  exists tag. cbn [pitch duration velocity time].
  repeat split; try assumption; now apply hour_fraction_bounds.
Qed.

Lemma first_seen_In (l seen : list string) (a : string) :
  In a (Spec.first_seen seen l) <-> In a l /\ ~ In a seen.
Proof.
  revert seen. induction l as [|x l IH]; intros seen; simpl; [tauto|].
  destruct (existsb (String.eqb x) seen) eqn:E.
  - rewrite IH. apply existsb_exists in E. destruct E as (y & Hy & Exy).
    apply String.eqb_eq in Exy. subst y. split; [tauto|].
    intros [[<-|Ha] Hns]; [contradiction | tauto].
  - simpl. rewrite IH. simpl.
    assert (Hx : ~ In x seen).
    { intros Hx. assert (existsb (String.eqb x) seen = true); [|congruence].
      apply existsb_exists. exists x. split; [exact Hx|].
      apply String.eqb_refl. }
    split.
    + intros [<-|(Ha & Hns)]; [tauto|]. split; [tauto|]. tauto.
    + intros ([<-|Ha] & Hns); [tauto|].
      destruct (string_dec x a) as [->|Hne]; [tauto|]. right. tauto.
Qed.

Lemma first_seen_snoc (l seen : list string) (a : string) :
  Spec.first_seen seen (l ++ [a]) =
  Spec.first_seen seen l ++
    (if existsb (String.eqb a) seen || existsb (String.eqb a) l
     then [] else [a]).
Proof.
  revert seen. induction l as [|x l IH]; intros seen; simpl.
  - rewrite orb_false_r. now destruct (existsb (String.eqb a) seen).
  - destruct (existsb (String.eqb x) seen) eqn:E.
    + rewrite IH. f_equal.
      destruct (String.eqb_spec a x) as [->|Hne]; simpl; [|reflexivity].
      now rewrite E.
    + simpl. rewrite IH. simpl. f_equal. f_equal.
      now rewrite orb_assoc, (orb_comm (existsb _ seen)), <- orb_assoc.
Qed.

(** The authors of the accumulator, in the order of their first record. *)
Lemma aggregate_authors (commits_raw : string) :
  keys (authors (snd (aggregate commits_raw))) =
    Spec.first_seen [] (map author (fst (aggregate commits_raw))) /\
  NoDup (keys (authors (snd (aggregate commits_raw)))).
Proof.
  apply aggregate_ind with
    (P := fun acc =>
            keys (authors (snd acc)) =
              Spec.first_seen [] (map author (fst acc)) /\
            NoDup (keys (authors (snd acc)))).
  - split; [reflexivity | constructor].
  - intros [commits stats] line (Hkeys & Hnd).
    destruct (process_line_cases commits stats line)
      as [[_ Hsame] | [_ (date & _ & Hstep)]].
    + rewrite Hsame. now split.
    + cbv zeta in Hstep. rewrite Hstep. cbn [fst snd] in *.
      destruct (process_line_accepted_counts commits stats line date)
        as (_ & _ & Hauthors & _).
      cbv zeta in Hauthors. rewrite Hauthors. split.
      * rewrite map_app. cbn [map]. rewrite first_seen_snoc, keys_incr.
        cbn [existsb orb].
        destruct (mem (author (commit_of (split "|" line) date))
                    (authors stats)) eqn:Em.
        -- apply mem_In_keys in Em. rewrite Hkeys in Em.
           apply first_seen_In in Em. destruct Em as (Hin & _).
           assert (Hex : existsb
                           (String.eqb
                              (author (commit_of (split "|" line) date)))
                           (map author commits) = true).
           { apply existsb_exists. eexists. split; [exact Hin|].
             apply String.eqb_refl. }
           rewrite Hex, app_nil_r. exact Hkeys.
        -- destruct (existsb
                       (String.eqb (author (commit_of (split "|" line) date)))
                       (map author commits)) eqn:Hex.
           ++ exfalso. apply existsb_exists in Hex.
              destruct Hex as (a & Ha & Ea). apply String.eqb_eq in Ea.
              subst a.
              assert (Hk : In (author (commit_of (split "|" line) date))
                             (keys (authors stats))).
              { rewrite Hkeys. apply first_seen_In. split; [exact Ha|].
                simpl. tauto. }
              apply mem_In_keys in Hk. congruence.
           ++ now rewrite Hkeys.
      * now apply NoDup_keys_set.
Qed.

Lemma Forall2_flatten {A B N} (R : B -> N -> Prop) (f : A -> list B)
  (mvs : list Movement) (l : list A) (h : Movement -> list N) :
  Forall2 (fun x mv => Forall2 R (f x) (h mv)) l mvs ->
  Forall2 R (flat_map f l) (flat_map h mvs).
Proof.
  induction 1 as [|x mv l mvs Hx _ IH]; simpl; [constructor|].
  now apply Forall2_app.
Qed.

(** The notes of the score, one for every commit of a kept week. *)
Lemma encoder_all_notes (commits : list Commit) (stats : Stats) :
  exists author_instruments score,
    assign_instruments (enumerate (keys (authors stats))) []
      = Ok author_instruments /\
    create_musical_representation commits stats = Ok score /\
    Forall2 (fun c n => make_note author_instruments c = Ok n)
      (retained_commits commits) (all_notes score).
Proof.
  destruct (encoder_notes commits stats)
    as (ai & score & weeks & Hai & Hrun & Hweeks & Hall).
  exists ai, score. split; [exact Hai|]. split; [exact Hrun|].
  unfold retained_commits, retained_weeks, all_notes. rewrite <- Hweeks.
  apply Forall2_flatten. eapply Forall2_impl; [|exact Hall].
  intros w mv (_ & Hnotes). exact Hnotes.
Qed.

(** The weeks of [commits_by_week], in the order of their first commit. *)
Lemma group_by_week_keys (commits : list Commit) :
  keys (group_by_week commits) = weeks_of commits.
Proof.
  unfold weeks_of, group_by_week.
  induction commits as [|c commits IH] using rev_ind; [reflexivity|].
  rewrite fold_left_app, map_app. cbn [fold_left map].
  rewrite first_seen_snoc. cbn [existsb orb].
  unfold add_to_week at 1. fold (week_of c). rewrite keys_set.
  destruct (mem (week_of c) (fold_left add_to_week commits [])) eqn:Em.
  - apply mem_In_keys in Em. rewrite IH in Em. apply first_seen_In in Em.
    destruct Em as (Hin & _).
    assert (Hex : existsb (String.eqb (week_of c)) (map week_of commits) = true).
    { apply existsb_exists. eexists. split; [exact Hin|].
      apply String.eqb_refl. }
    now rewrite Hex, app_nil_r.
  - destruct (existsb (String.eqb (week_of c)) (map week_of commits)) eqn:Hex.
    + exfalso. apply existsb_exists in Hex. destruct Hex as (w & Hw & Ew).
      apply String.eqb_eq in Ew. subst w.
      assert (Hk : In (week_of c) (keys (fold_left add_to_week commits []))).
      { rewrite IH. apply first_seen_In. split; [exact Hw | simpl; tauto]. }
      apply mem_In_keys in Hk. congruence.
    + now rewrite IH.
Qed.

(** The commits of the kept weeks; all the commits, when they fall into at
    most ten weeks. *)
Lemma retained_commits_spec (commits : list Commit) :
  (forall c,
      In c (retained_commits commits) <->
      In c commits /\ In (week_of c) (retained_weeks commits)) /\
  ((length (weeks_of commits) <= 10)%nat ->
   forall c, In c commits -> In c (retained_commits commits)).
Proof.
  assert (Hiff : forall c,
             In c (retained_commits commits) <->
             In c commits /\ In (week_of c) (retained_weeks commits)).
  { intros c. unfold retained_commits. rewrite in_flat_map. split.
    - intros (w & Hw & Hc). unfold commits_of_week in Hc.
      apply filter_In in Hc. destruct Hc as (Hc & E).
      apply String.eqb_eq in E. subst w. now split.
    - intros (Hc & Hw). exists (week_of c). split; [exact Hw|].
      unfold commits_of_week. apply filter_In. split; [exact Hc|].
      apply String.eqb_refl. }
  split; [exact Hiff|].
  intros Hfew c Hc. apply Hiff. split; [exact Hc|].
  unfold retained_weeks.
  pose proof (@sorted_perm _ week_before (items (group_by_week commits)))
    as Hperm.
  destruct (lastn_suffix 10
              (sorted week_before (items (group_by_week commits))))
    as (front & Hs & Hl).
  assert (Hg : length (group_by_week commits) = length (weeks_of commits)).
  { rewrite <- group_by_week_keys. unfold keys. now rewrite length_map. }
  assert (Hlong : (length (sorted week_before (items (group_by_week commits)))
                   = length front
                     + length (lastn 10
                                 (sorted week_before
                                    (items (group_by_week commits)))))%nat)
    by (rewrite Hs at 1; apply length_app).
  pose proof (Permutation_length Hperm) as Hplen. unfold items in *.
  assert (Hfront : front = []).
  { destruct front; [reflexivity|]. simpl in Hlong. lia. }
  rewrite Hfront in Hs. cbn [app] in Hs. rewrite <- Hs.
  destruct (group_by_week_spec commits) as (_ & _ & Hkeys).
  specialize (Hkeys c Hc).
  apply (Permutation_in _ (Permutation_map fst (Permutation_sym Hperm))).
  exact Hkeys.
Qed.

(** C8. For an accumulator with distinct author keys the encoder returns
    a score whose notes, one for every commit of a kept week, have the
    instrument that the commit's author is assigned; the assignment is a
    function of the author alone, for the author at position [i] of the
    author keys it is the instrument at [i mod 5] of the fixed list, and for
    an author who is no key it is the piano.  The commits of the kept weeks
    are all the commits when these fall into at most ten weeks.  After the
    aggregation of a log the author keys are distinct and are the authors of
    the records in the order of their first appearance. *)
Theorem instrument_by_first_appearance (commits : list Commit)
  (stats : Stats) :
  NoDup (keys (authors stats)) ->
  exists score (assignment : string -> string),
    create_musical_representation commits stats = Ok score /\
    (forall i a,
        nth_error (keys (authors stats)) i = Some a ->
        index instruments (Z.of_nat i mod 5) = Ok (assignment a)) /\
    (forall a, ~ In a (keys (authors stats)) -> assignment a = "piano") /\
    Forall2 (fun c n => instrument n = assignment (author c))
      (retained_commits commits) (all_notes score) /\
    (forall c,
        In c (retained_commits commits) <->
        In c commits /\ In (week_of c) (retained_weeks commits)) /\
    ((length (weeks_of commits) <= 10)%nat ->
     forall c, In c commits -> In c (retained_commits commits)) /\
    forall commits_raw,
      keys (authors (snd (aggregate commits_raw))) =
        Spec.first_seen [] (map author (fst (aggregate commits_raw))) /\
      NoDup (keys (authors (snd (aggregate commits_raw)))).
Proof.
  intros Hnd.
  destruct (encoder_all_notes commits stats)
    as (ai & score & Hai & Hrun & Hall).
  destruct (assign_instruments_spec 0 [] Hnd) as (ai' & Hai' & Hin & Hout).
  unfold enumerate in Hai. rewrite Hai' in Hai. injection Hai as ->.
  destruct (retained_commits_spec commits) as (Hkept & Hfew).
  exists score, (fun a => get_default a "piano" ai).
  split; [exact Hrun|]. split; [|split; [|split; [|split; [|split]]]].
  - intros i a Hnth. destruct (Hin i a Hnth) as (ins & Hins & Hget).
    unfold get_default. rewrite Hget. exact Hins.
  - intros a Ha. unfold get_default. now rewrite (Hout a Ha).
  - eapply Forall2_impl; [|exact Hall].
    intros c n Hn.
    destruct (make_note_ok ai c) as (tag & _ & _ & _ & Hnote).
    cbv beta in Hn. rewrite Hnote in Hn. injection Hn as <-. reflexivity.
  - exact Hkept.
  - exact Hfew.
  - apply aggregate_authors.
Qed.

End EncoderClaims.

(** ** The claims at the scenario of the specification *)

(** The end-to-end scenario: three records, one fix, one feature and one
    release, two commits of Alice and one of Bob, one release in the
    history. *)
Example scenario_aggregation :
  total_commits scenario_stats = 3 /\
  commit_types scenario_stats = [("fix", 1); ("feature", 1); ("release", 1)] /\
  authors scenario_stats = [("Alice", 2); ("Bob", 1)] /\
  release_history scenario_stats =
    [{| release_date := "2024-01-02"; release_message := "release: v1.0" |}].
Proof. repeat split. Qed.

(** C3 at the scenario. *)
Lemma commit_types_sum_to_total_witness :
  PyList.sum (Dict.values (commit_types scenario_stats)) = 3 /\
  sum_over_tags (commit_types scenario_stats) = 3 /\
  PyList.len scenario_commits = 3.
Proof.
  destruct (@commit_types_sum_to_total scenario_runtime scenario_log)
    as (Hsum & Htags & Hlen & _).
  fold scenario_stats in Hsum, Htags, Hlen. fold scenario_commits in Hlen.
  rewrite Hsum, Htags, <- Hlen. repeat split.
Defined.



(** C7 at a release committed at noon. *)
Lemma note_fields_follow_classification_witness :
  exists score n,
    @create_musical_representation scenario_runtime
      [scenario_commit "release: v1.0"] empty_stats = Ok score /\
    movements score = [{| name := "Week of 2024-W04"; notes := [n] |}] /\
    pitch n = "C5" /\ duration n = 1%Q /\ velocity n = 100 /\
    (0 <= time n /\ time n <= 23 # 24)%Q.
Proof.
  destruct (@note_fields_follow_classification scenario_runtime
              [scenario_commit "release: v1.0"] empty_stats)
    as (score & weeks & Hrun & Hall).
  cbv in Hrun. injection Hrun as <-. cbn [movements] in Hall.
  inversion Hall as [|w mv ws mvs Hnotes Hrest]; subst.
  cbn [notes] in Hnotes. unfold commits_of_week in Hnotes.
  cbn [filter] in Hnotes.
  destruct (String.eqb (week_of (scenario_commit "release: v1.0")) w);
    inversion Hnotes as [|c n cs ns Hnote Hmore]; subst.
  destruct Hnote as (tag & _ & _ & _ & _ & _ & Hbounds).
  eexists. eexists. split; [reflexivity|]. split; [reflexivity|].
  split; [reflexivity|]. split; [reflexivity|]. split; [reflexivity|].
  apply Hbounds. cbn. lia.
Defined.

(** C8 at two commits of the scenario's day: Bob, the second author of
    the accumulator, plays the violin, and Alice, the first, the piano. *)
Lemma instrument_by_first_appearance_witness :
  exists score,
    @create_musical_representation scenario_runtime
      [bob_commit; scenario_commit "fix: null pointer"] scenario_stats
      = Ok score /\
    map instrument (all_notes score) = ["violin"; "piano"].
Proof.
  assert (Hnd : NoDup (Dict.keys (authors scenario_stats))).
  { cbv. repeat constructor; simpl; intuition discriminate. }
  destruct (@instrument_by_first_appearance scenario_runtime
              [bob_commit; scenario_commit "fix: null pointer"]
              scenario_stats Hnd)
    as (score & assignment & Hrun & Hpos & _ & Hnotes & _).
  exists score. split; [exact Hrun|].
  pose proof (Hpos 0%nat "Alice" eq_refl) as Halice.
  pose proof (Hpos 1%nat "Bob" eq_refl) as Hbob.
  cbv in Halice, Hbob.
  assert (Hkept : @retained_commits scenario_runtime
                    [bob_commit; scenario_commit "fix: null pointer"]
                  = [bob_commit; scenario_commit "fix: null pointer"])
    by reflexivity.
  rewrite Hkept in Hnotes.
  inversion Hnotes as [|c1 n1 cs1 ns1 H1 Hrest1 E1 E1']; subst.
  inversion Hrest1 as [|c2 n2 cs2 ns2 H2 Hrest2 E2 E2']; subst.
  inversion Hrest2; subst.
  cbn [map]. cbn [author bob_commit scenario_commit] in H1, H2.
  rewrite H1, H2. congruence.
Defined.

(* ================================================================== *)
(** * Further properties of the script *)

(** ** What the loop over the log leaves in the accumulator *)

Section AggregatorExtras.
Context {RT : Runtime}.
Import PyStr Dict PyList.

Lemma process_line_accepted_release (stats : Stats) (line : string)
  (date : datetime) :
  let commit := commit_of (split "|" line) date in
  let stats' :=
    count_files
      (classify_commit (count_commit stats commit) commit (message commit))
      (hash commit) in
  release_history stats' =
    release_history stats ++
      (if is_release commit then [release_of commit] else []).
Proof.
  intros commit stats'.
  destruct (count_files_frame
              (classify_commit (count_commit stats commit) commit
                 (message commit)) (hash commit))
    as (_ & _ & _ & _ & _ & Hr & _).
  destruct (classify_commit_as_encoder (count_commit stats commit) commit)
    as (_ & Hr' & _).
  subst stats'. rewrite Hr, Hr'. unfold is_release.
  destruct (String.eqb (commit_type_of commit) "release"); cbn.
  - reflexivity.
  - now rewrite app_nil_r.
Qed.

(** The counters and the release history in terms of the records. *)
Lemma aggregate_tallies (commits_raw : string) :
  let commits := fst (aggregate commits_raw) in
  let stats := snd (aggregate commits_raw) in
  authors stats = tally (map author commits) /\
  commits_by_day stats = tally (map day commits) /\
  commits_by_hour stats = tally (map hour commits) /\
  commit_types stats = tally (map commit_type_of commits) /\
  release_history stats = map release_of (filter is_release commits) /\
  total_commits stats = len commits.
Proof.
  cbv zeta. apply aggregate_ind with
    (P := fun acc =>
            authors (snd acc) = tally (map author (fst acc)) /\
            commits_by_day (snd acc) = tally (map day (fst acc)) /\
            commits_by_hour (snd acc) = tally (map hour (fst acc)) /\
            commit_types (snd acc) = tally (map commit_type_of (fst acc)) /\
            release_history (snd acc) =
              map release_of (filter is_release (fst acc)) /\
            total_commits (snd acc) = len (fst acc)).
  - repeat split.
  - intros [commits stats] line (Ha & Hd & Hh & Ht & Hr & Hn).
    destruct (process_line_cases commits stats line)
      as [[_ Hsame] | [_ (date & _ & Hstep)]].
    + rewrite Hsame. repeat split; assumption.
    + cbv zeta in Hstep. rewrite Hstep. cbn [fst snd] in *.
      destruct (process_line_accepted_counts commits stats line date)
        as (Hn' & Ht' & Ha' & Hd' & Hh').
      pose proof (process_line_accepted_release stats line date) as Hr'.
      cbv zeta in Hn', Ht', Ha', Hd', Hh', Hr'.
      rewrite Hn', Ht', Ha', Hd', Hh', Hr'.
      rewrite !map_app, filter_app, map_app. cbn [map filter].
      rewrite !tally_snoc, Ha, Hd, Hh, Ht, Hr, Hn.
      repeat split.
      * destruct (is_release (commit_of (split "|" line) date));
          reflexivity.
      * unfold len. rewrite length_app. simpl. lia.
Qed.

(** X1. After the loop over any log, [release_history] holds exactly the
    day and the message of the records that the classifier counts as
    release, in the order of the log, and as many entries as the release
    counter says. *)
Theorem release_history_lists_releases (commits_raw : string) :
  let commits := fst (aggregate commits_raw) in
  let stats := snd (aggregate commits_raw) in
  release_history stats = map release_of (filter is_release commits) /\
  len (release_history stats) = get_default "release" 0 (commit_types stats).
Proof.
  intros commits stats.
  destruct (aggregate_tallies commits_raw) as (_ & _ & _ & Ht & Hr & _).
  fold commits in Ht, Hr. fold stats in Ht, Hr.
  split; [exact Hr|].
  rewrite Hr, Ht, tally_get. unfold len, count_of, is_release.
  rewrite length_map. f_equal.
  clear. induction commits as [|c commits IH]; [reflexivity|].
  cbn [map filter keqb Key_string].
  rewrite (String.eqb_sym "release").
  destruct (String.eqb (commit_type_of c) "release"); simpl; now rewrite IH.
Qed.

(** X2. After the loop over any log, the counter of an author, of a day
    and of an hour is the number of records with that author, day and hour;
    a key is present exactly when some record has it; and the counters of
    each of the three dictionaries add up to [total_commits]. *)
Theorem counters_count_records (commits_raw : string) :
  let commits := fst (aggregate commits_raw) in
  let stats := snd (aggregate commits_raw) in
  (forall a,
      get_default a 0 (authors stats) = count_of a (map author commits) /\
      (In a (keys (authors stats)) <-> exists c, In c commits /\ author c = a)) /\
  (forall d,
      get_default d 0 (commits_by_day stats) = count_of d (map day commits) /\
      (In d (keys (commits_by_day stats)) <->
       exists c, In c commits /\ day c = d)) /\
  (forall h,
      get_default h 0 (commits_by_hour stats) = count_of h (map hour commits) /\
      (In h (keys (commits_by_hour stats)) <->
       exists c, In c commits /\ hour c = h)) /\
  sum (values (authors stats)) = total_commits stats /\
  sum (values (commits_by_day stats)) = total_commits stats /\
  sum (values (commits_by_hour stats)) = total_commits stats.
Proof.
  intros commits stats.
  destruct (aggregate_tallies commits_raw) as (Ha & Hd & Hh & _ & _ & Hn).
  fold commits in Ha, Hd, Hh, Hn. fold stats in Ha, Hd, Hh, Hn.
  rewrite Ha, Hd, Hh, Hn.
  repeat split;
    try (apply tally_get);
    try (rewrite sum_fold_right;
         change (fold_right Z.add 0 (values ?d)) with (sum_values d);
         rewrite tally_sum; unfold len; now rewrite length_map);
    rewrite tally_keys_In, in_map_iff;
    intros (c & H1 & H2); exists c; tauto.
Qed.

Lemma count_file_well_counted (stats : Stats) (file : string) :
  well_counted (file_changes stats) ->
  well_counted (languages stats) ->
  sum_values (languages stats) <= sum_values (file_changes stats) ->
  well_counted (file_changes (count_file stats file)) /\
  well_counted (languages (count_file stats file)) /\
  sum_values (languages (count_file stats file))
    <= sum_values (file_changes (count_file stats file)).
Proof.
  intros Hf Hl Hle. unfold count_file.
  destruct (String.eqb file ""); [auto|].
  destruct (contains "." file); cbn [file_changes languages with_file_changes
    with_languages]; rewrite ?sum_values_incr.
  - split; [now apply well_counted_incr|].
    split; [now apply well_counted_incr | lia].
  - split; [now apply well_counted_incr|]. split; [assumption | lia].
Qed.

Lemma fold_count_file_well_counted (files : list string) (stats : Stats) :
  well_counted (file_changes stats) ->
  well_counted (languages stats) ->
  sum_values (languages stats) <= sum_values (file_changes stats) ->
  well_counted (file_changes (fold_left count_file files stats)) /\
  well_counted (languages (fold_left count_file files stats)) /\
  sum_values (languages (fold_left count_file files stats))
    <= sum_values (file_changes (fold_left count_file files stats)).
Proof.
  revert stats. induction files as [|f files IH]; intros stats Hf Hl Hle;
    cbn [fold_left]; [auto|].
  destruct (count_file_well_counted stats f Hf Hl Hle) as (Hf' & Hl' & Hle').
  now apply IH.
Qed.

Lemma aggregate_files (commits_raw : string) :
  let stats := snd (aggregate commits_raw) in
  well_counted (file_changes stats) /\
  well_counted (languages stats) /\
  sum_values (languages stats) <= sum_values (file_changes stats).
Proof.
  cbv zeta.
  apply aggregate_ind with
    (P := fun acc =>
            well_counted (file_changes (snd acc)) /\
            well_counted (languages (snd acc)) /\
            sum_values (languages (snd acc))
              <= sum_values (file_changes (snd acc))).
  - split; [split; constructor|]. split; [split; constructor|].
    reflexivity.
  - intros [commits stats] line (Hf & Hl & Hle).
    destruct (process_line_cases commits stats line)
      as [[_ Hsame] | [_ (date & _ & Hstep)]]; [rewrite Hsame; auto|].
    cbv zeta in Hstep. rewrite Hstep. cbn [snd] in *.
    destruct (classify_commit_as_encoder
                (count_commit stats (commit_of (split "|" line) date))
                (commit_of (split "|" line) date))
      as (_ & _ & _ & _ & _ & _ & Hf' & Hl' & _).
    apply fold_count_file_well_counted; rewrite ?Hf', ?Hl'; assumption.
Qed.

Lemma counters_are_positive_days (commits_raw : string) :
  well_counted (commits_by_day (snd (aggregate commits_raw))).
Proof.
  destruct (aggregate_tallies commits_raw) as (_ & Hd & _).
  cbv zeta in Hd. rewrite Hd. apply well_counted_tally.
Qed.

Lemma counters_are_positive_types_hours (commits_raw : string) :
  well_counted (commit_types (snd (aggregate commits_raw))) /\
  well_counted (commits_by_hour (snd (aggregate commits_raw))).
Proof.
  destruct (aggregate_tallies commits_raw) as (_ & _ & Hh & Ht & _).
  cbv zeta in Hh, Ht. rewrite Hh, Ht. split; apply well_counted_tally.
Qed.

(** X3. After the loop over any log, each of the six dictionaries of
    counters has distinct keys and no counter below one. *)
Theorem counters_are_positive (commits_raw : string) :
  let stats := snd (aggregate commits_raw) in
  well_counted (authors stats) /\
  well_counted (commits_by_day stats) /\
  well_counted (commits_by_hour stats) /\
  well_counted (commit_types stats) /\
  well_counted (file_changes stats) /\
  well_counted (languages stats).
Proof.
  intros stats.
  destruct (aggregate_tallies commits_raw) as (Ha & Hd & Hh & Ht & _).
  fold stats in Ha, Hd, Hh, Ht. rewrite Ha, Hd, Hh, Ht.
  split; [apply well_counted_tally|]. split; [apply well_counted_tally|].
  split; [apply well_counted_tally|]. split; [apply well_counted_tally|].
  destruct (aggregate_files commits_raw) as (Hf & Hl & _). now split.
Qed.

(** X4. After the loop over any log, the counters of [languages] add up
    to no more than the counters of [file_changes]: every count of an
    extension comes with the count of a file. *)
Theorem languages_within_file_changes (commits_raw : string) :
  let stats := snd (aggregate commits_raw) in
  0 <= sum (values (languages stats)) /\
  sum (values (languages stats)) <= sum (values (file_changes stats)).
Proof.
  intros stats. destruct (aggregate_files commits_raw) as (_ & (_ & Hl) & Hle).
  fold stats in Hl, Hle. rewrite !sum_fold_right. split; [|exact Hle].
  change (0 <= sum_values (languages stats)). clear Hle.
  unfold sum_values, values.
  induction Hl as [|[k v] d Hv Hd IH]; simpl in *; lia.
Qed.

(** ** The fields of a line *)

Lemma split_app_free (sep : ascii) (a b : string) :
  Spec.free_of sep a -> split sep (a ++ String sep b) = a :: split sep b.
Proof.
  induction a as [|c a IH]; simpl.
  - intros _. now rewrite Ascii.eqb_refl.
  - intros [Hc Ha]. destruct (Ascii.eqb_spec c sep); [contradiction|].
    now rewrite IH.
Qed.

Lemma split_app_sep (sep : ascii) (a b : string) :
  split sep (a ++ String sep b) = split sep a ++ split sep b.
Proof.
  induction a as [|c a IH]; simpl.
  - now rewrite Ascii.eqb_refl.
  - destruct (Ascii.eqb c sep); [now rewrite IH|].
    rewrite IH. destruct (split sep a) as [|w ws] eqn:E;
      [exfalso; exact (split_nonempty _ _ E)|].
    reflexivity.
Qed.

(** X5. A line made of a hash, an author, an email, a timestamp and a
    subject without ['|'], each followed by ['|'], and of any body, gives the
    record with exactly these fields when the timestamp parses; a ['|'] in
    the body does no harm. *)
Theorem line_fields_round_trip (commits : list Commit) (stats : Stats)
  (h a e d m body : string) (parsed : datetime) :
  Spec.free_of "|" h -> Spec.free_of "|" a -> Spec.free_of "|" e ->
  Spec.free_of "|" d -> Spec.free_of "|" m ->
  parse_date d = Some parsed ->
  let line :=
    (h ++ "|" ++ a ++ "|" ++ e ++ "|" ++ d ++ "|" ++ m ++ "|" ++ body)%string in
  accepts line = true /\
  fst (process_line (commits, stats) line) =
    commits ++
      [{| hash := h; author := a; email := e; date := parsed; message := m;
          day := strftime parsed "%Y-%m-%d"; hour := hour_of parsed;
          weekday := strftime parsed "%A" |}].
Proof.
  intros Hh Ha He Hd Hm Hparse line.
  assert (Hsplit : split "|" line = h :: a :: e :: d :: m :: split "|" body).
  { subst line. cbn [append].
    now rewrite !split_app_free by assumption. }
  assert (Hacc : accepts line = true).
  { unfold accepts. rewrite Hsplit. cbn [nth length]. rewrite Hparse.
    destruct (String.eqb_spec line "") as [E|_]; [|reflexivity].
    rewrite E in Hsplit. discriminate. }
  split; [exact Hacc|].
  destruct (process_line_cases commits stats line)
    as [[Hrej _] | [_ (date & Hdate & Hstep)]]; [congruence|].
  cbv zeta in Hstep. rewrite Hstep. cbn [fst].
  rewrite Hsplit in Hdate. cbn [nth] in Hdate.
  assert (date = parsed) by congruence. subst date.
  unfold commit_of. rewrite Hsplit. reflexivity.
Qed.

Lemma record_of_functional (line : string) (c1 c2 : Commit) :
  record_of line c1 -> record_of line c2 -> c1 = c2.
Proof.
  intros (d1 & H1 & ->) (d2 & H2 & ->).
  assert (d1 = d2) by congruence. now subst.
Qed.

Lemma records_functional (lines : list string) (cs1 cs2 : list Commit) :
  Forall2 record_of lines cs1 -> Forall2 record_of lines cs2 -> cs1 = cs2.
Proof.
  intros H1. revert cs2. induction H1 as [|l c ls cs Hc Hcs IH];
    intros cs2 H2; inversion H2; subst; [reflexivity|].
  f_equal; [eapply record_of_functional; eassumption | now apply IH].
Qed.

(** X6. The records of two logs joined by a newline are the records of
    the first followed by the records of the second, and [total_commits] is
    the sum of the two. *)
Theorem aggregate_of_joined_logs (log1 log2 : string) :
  let joined := (log1 ++ String newline log2)%string in
  fst (aggregate joined) = fst (aggregate log1) ++ fst (aggregate log2) /\
  total_commits (snd (aggregate joined)) =
    total_commits (snd (aggregate log1)) + total_commits (snd (aggregate log2)).
Proof.
  intros joined.
  assert (Hfst : fst (aggregate joined)
                 = fst (aggregate log1) ++ fst (aggregate log2)).
  { unfold aggregate, joined. rewrite split_app_sep, fold_left_app.
    destruct (fold_left process_line (split newline log1) ([], empty_stats))
      as [cs1 st1] eqn:E1.
    destruct (fold_process_line_records (split newline log2) cs1 st1)
      as (new & Hnew & Hrec).
    destruct (fold_process_line_records (split newline log2) [] empty_stats)
      as (new' & Hnew' & Hrec').
    rewrite Hnew, Hnew'. cbn [fst app]. f_equal.
    eapply records_functional; eassumption. }
  split; [exact Hfst|].
  destruct (aggregate_counts joined) as (_ & _ & Hn & _).
  destruct (aggregate_counts log1) as (_ & _ & Hn1 & _).
  destruct (aggregate_counts log2) as (_ & _ & Hn2 & _).
  cbv zeta in Hn, Hn1, Hn2. rewrite Hn, Hn1, Hn2, Hfst.
  unfold len. rewrite length_app. lia.
Qed.


(** X7. After the loop over any log, the keys of [commit_types] are among
    the six tag names, and the counter of a tag is the number of records to
    which the classification block of the encoder gives that tag. *)
Theorem commit_types_count_records (commits_raw : string) :
  let commits := fst (aggregate commits_raw) in
  let stats := snd (aggregate commits_raw) in
  (forall k, In k (keys (commit_types stats)) ->
             In k (map Spec.tag_name Spec.all_tags)) /\
  (forall tag,
      get_default (Spec.tag_name tag) 0 (commit_types stats) =
      count_of (Spec.tag_name tag) (map commit_type_of commits)).
Proof.
  intros commits stats.
  destruct (aggregate_tallies commits_raw) as (_ & _ & _ & Ht & _).
  fold commits in Ht. fold stats in Ht. rewrite Ht. split.
  - intros k Hk. apply (proj1 (tally_keys_In _ _)) in Hk.
    apply (proj1 (in_map_iff _ _ _)) in Hk. destruct Hk as (c & <- & _).
    destruct (commit_type_of_classified c) as (tag & _ & ->).
    apply in_map. destruct tag; simpl; tauto.
  - intros tag. apply tally_get.
Qed.

End AggregatorExtras.

(** ** The finalization *)

Section FinalizationExtras.
Context {RT : Runtime}.
Import PyStr Dict PyList.

Lemma decay_weight_raise (age_days : Z) (e : PyError) :
  decay_weight age_days = Raise e -> e = ZeroDivisionError /\ age_days = -30.
Proof.
  destruct (Z.eq_dec age_days (-30)) as [->|Hne].
  - rewrite decay_weight_pole. intros [= <-]. now split.
  - rewrite (decay_weight_ok Hne). discriminate.
Qed.

(** A day on which the loop of lines 106-111 raises. *)
Lemma score_days_raise (today : datetime) (days : list (string * Z)) :
  forall stats e,
    score_days today stats days = Raise e ->
    (e = ValueError /\
     exists day, In day (keys days) /\ fromisoformat day = None) \/
    (e = ZeroDivisionError /\
     exists day day_date,
       In day (keys days) /\ fromisoformat day = Some day_date /\
       sub_days today day_date = -30).
Proof.
  induction days as [|[day count] days IH]; intros stats e; [discriminate|].
  cbn [score_days score_day].
  destruct (fromisoformat day) as [day_date|] eqn:Eparse.
  - destruct (decay_weight (sub_days today day_date)) as [weight|e'] eqn:Ew;
      cbn [bind].
    + intros Hrest. destruct (IH _ _ Hrest)
        as [(-> & d & Hd & Hnone) | (-> & d & dd & Hd & Hsome & Hage)].
      * left. split; [reflexivity|]. exists d. split; [now right | exact Hnone].
      * right. split; [reflexivity|]. exists d, dd. split; [now right | auto].
    + intros [= <-]. apply decay_weight_raise in Ew. destruct Ew as (-> & Hage).
      right. split; [reflexivity|]. exists day, day_date.
      split; [now left | auto].
  - cbn [bind]. intros [= <-]. left. split; [reflexivity|].
    exists day. split; [now left | exact Eparse].
Qed.

Lemma score_days_ok_days (today : datetime) (days : list (string * Z)) :
  forall stats stats',
    score_days today stats days = Ok stats' ->
    forall day, In day (keys days) ->
      exists day_date,
        fromisoformat day = Some day_date /\ sub_days today day_date <> -30.
Proof.
  induction days as [|[day0 count0] days IH]; intros stats stats' Hrun day;
    [intros []|].
  cbn [score_days score_day] in Hrun.
  destruct (fromisoformat day0) as [date0|] eqn:Eparse; [|discriminate].
  destruct (decay_weight (sub_days today date0)) as [weight|e] eqn:Ew;
    [|discriminate].
  cbn [bind] in Hrun. intros [<-|Hin].
  - exists date0. split; [exact Eparse|]. intros Hage.
    rewrite Hage, decay_weight_pole in Ew. discriminate.
  - eapply IH; eassumption.
Qed.

(** X8. The finalization raises only [ValueError], for a day of
    [commits_by_day] that does not parse as a date, or [ZeroDivisionError],
    for a day exactly thirty days ahead of the clock; it returns exactly
    when there is no such day. *)
Theorem finalize_raises_on_bad_days (stats : Stats) :
  (forall e,
      finalize stats = Raise e ->
      (e = ValueError /\
       exists day,
         In day (keys (commits_by_day stats)) /\ fromisoformat day = None) \/
      (e = ZeroDivisionError /\
       exists day day_date,
         In day (keys (commits_by_day stats)) /\
         fromisoformat day = Some day_date /\
         sub_days datetime_now day_date = -30)) /\
  ((exists stats', finalize stats = Ok stats') <->
   forall day, In day (keys (commits_by_day stats)) ->
     exists day_date,
       fromisoformat day = Some day_date /\
       sub_days datetime_now day_date <> -30).
Proof.
  split; [intros e; apply score_days_raise|]. split.
  - intros (stats' & Hrun). eapply score_days_ok_days. exact Hrun.
  - intros Hgood. unfold finalize.
    destruct (score_days datetime_now stats (items (commits_by_day stats)))
      as [stats'|e] eqn:Erun; [now exists stats'|].
    exfalso. destruct (score_days_raise _ _ _ Erun)
      as [(_ & d & Hd & Hnone) | (_ & d & dd & Hd & Hsome & Hage)];
      destruct (Hgood d Hd) as (dd' & Hsome' & Hage'); congruence.
Qed.

Lemma keys_set_fresh {V} (k : string) (v : V) (d : list (string * V)) :
  ~ In k (keys d) -> keys (set k v d) = keys d ++ [k].
Proof.
  intros Hk. rewrite keys_set.
  destruct (mem k d) eqn:Em; [apply mem_In_keys in Em; contradiction|].
  reflexivity.
Qed.

(** The loop of lines 106-111 changes the scores alone, and adds the days
    it goes through to their keys. *)
Lemma score_days_result (today : datetime) (days : list (string * Z)) :
  forall stats stats',
    score_days today stats days = Ok stats' ->
    NoDup (keys (productivity_score stats) ++ keys days) ->
    keys (productivity_score stats') =
      keys (productivity_score stats) ++ keys days /\
    total_commits stats' = total_commits stats /\
    authors stats' = authors stats /\
    commits_by_day stats' = commits_by_day stats /\
    commits_by_hour stats' = commits_by_hour stats /\
    commit_types stats' = commit_types stats /\
    file_changes stats' = file_changes stats /\
    languages stats' = languages stats /\
    release_history stats' = release_history stats.
Proof.
  induction days as [|[day count] days IH]; intros stats stats' Hrun Hnd.
  - injection Hrun as <-. simpl. rewrite app_nil_r. repeat split.
  - cbn [score_days score_day] in Hrun.
    destruct (fromisoformat day) as [day_date|]; [|discriminate].
    destruct (decay_weight (sub_days today day_date)) as [weight|];
      [|discriminate].
    cbn [bind] in Hrun. apply IH in Hrun.
    + cbn [productivity_score with_productivity_score total_commits authors
        commits_by_day commits_by_hour commit_types file_changes languages
        release_history] in Hrun.
      destruct Hrun as (Hkeys & Hrest). split; [|exact Hrest].
      rewrite Hkeys, keys_set_fresh.
      * cbn [keys map fst]. now rewrite <- app_assoc.
      * intros Hin. apply NoDup_remove_2 in Hnd. apply Hnd.
        apply in_or_app. now left.
    + cbn [productivity_score with_productivity_score].
      rewrite keys_set_fresh.
      * cbn [keys map fst] in Hnd. now rewrite <- app_assoc.
      * intros Hin. apply NoDup_remove_2 in Hnd. apply Hnd.
        apply in_or_app. now left.
Qed.

Lemma aggregate_no_scores (commits_raw : string) :
  productivity_score (snd (aggregate commits_raw)) = [].
Proof.
  apply aggregate_ind with (P := fun acc => productivity_score (snd acc) = []);
    [reflexivity|].
  intros [cs st] line Hst.
  destruct (process_line_cases cs st line)
    as [[_ Hsame] | [_ (date & _ & Hstep)]]; [now rewrite Hsame|].
  cbv zeta in Hstep. rewrite Hstep. cbn [snd] in *.
  destruct (count_files_frame
              (classify_commit (count_commit st (commit_of (split "|" line) date))
                 (commit_of (split "|" line) date)
                 (message (commit_of (split "|" line) date)))
              (hash (commit_of (split "|" line) date)))
    as (_ & _ & _ & _ & _ & _ & Hp).
  destruct (classify_commit_as_encoder
              (count_commit st (commit_of (split "|" line) date))
              (commit_of (split "|" line) date))
    as (_ & _ & _ & _ & _ & _ & _ & _ & Hp').
  rewrite Hp, Hp'. exact Hst.
Qed.

(** X9. When [analyze_git_history] returns, its records are those of the
    loop over the output of [git log]; the scores have exactly the days of
    [commits_by_day] as keys, in the same order; and everything else in the
    accumulator is as the loop left it. *)
Theorem analyze_git_history_result (commits : list Commit) (stats : Stats) :
  analyze_git_history = Ok (commits, stats) ->
  let commits_raw :=
    run_git_command
      ("git log --pretty=format:'" ++ log_format ++ "' --date=iso-strict --all") in
  let counted := snd (aggregate commits_raw) in
  commits = fst (aggregate commits_raw) /\
  keys (productivity_score stats) = keys (commits_by_day stats) /\
  total_commits stats = total_commits counted /\
  authors stats = authors counted /\
  commits_by_day stats = commits_by_day counted /\
  commits_by_hour stats = commits_by_hour counted /\
  commit_types stats = commit_types counted /\
  file_changes stats = file_changes counted /\
  languages stats = languages counted /\
  release_history stats = release_history counted.
Proof.
  intros Hrun commits_raw counted.
  unfold analyze_git_history in Hrun. cbv zeta in Hrun.
  fold commits_raw in Hrun.
  pose proof (aggregate_no_scores commits_raw) as Hps.
  destruct (@counters_are_positive_days RT commits_raw) as (Hnd & _).
  fold counted in Hps, Hnd. subst counted.
  destruct (aggregate commits_raw) as [commits0 stats0]. cbn [fst snd] in *.
  destruct (finalize stats0) as [stats1|e] eqn:Efin; [|discriminate].
  cbn [bind] in Hrun. injection Hrun as <- <-.
  unfold finalize in Efin. apply score_days_result in Efin.
  - rewrite Hps in Efin. cbn [keys map app] in Efin.
    destruct Efin as (Hkeys & Ht & Ha & Hd & Hh & Hc & Hf & Hl & Hr).
    split; [reflexivity|].
    split; [now rewrite Hkeys, Hd|]. repeat split; assumption.
  - rewrite Hps. exact Hnd.
Qed.

(** The assembly of lines 18-113: the command, the loop, the finalization. *)
Lemma analyze_git_history_returns (raw : string) (commits : list Commit)
  (stats stats' : Stats) :
  run_git_command
    ("git log --pretty=format:'" ++ log_format ++ "' --date=iso-strict --all")
    = raw ->
  aggregate raw = (commits, stats) ->
  finalize stats = Ok stats' ->
  analyze_git_history = Ok (commits, stats').
Proof.
  intros Hraw Hagg Hfin. unfold analyze_git_history. cbv zeta.
  rewrite Hraw, Hagg, Hfin. reflexivity.
Qed.

End FinalizationExtras.

(** ** More on the encoder *)

Section EncoderExtras.
Context {RT : Runtime}.
Import PyStr Dict PyList.

Lemma index_In {A} (l : list A) (i : Z) (x : A) : index l i = Ok x -> In x l.
Proof.
  unfold index. destruct (_ <? 0); [discriminate|].
  destruct (nth_error l _) eqn:E; [|discriminate].
  intros [= <-]. eapply nth_error_In. exact E.
Qed.

Lemma Forall_dict_set {V} (P : string * V -> Prop) (k : string) (v : V)
  (d : list (string * V)) :
  (forall k', P (k', v)) -> Forall P d -> Forall P (set k v d).
Proof.
  intros Hv. induction 1 as [|[k' v'] d Hkv Hd IH]; cbn [set].
  - constructor; [apply Hv | constructor].
  - destruct (keqb k k'); constructor; auto.
Qed.

Lemma assign_instruments_values (pairs : list (Z * string)) :
  forall d author_instruments,
    Forall (fun kv => In (snd kv) instruments) d ->
    assign_instruments pairs d = Ok author_instruments ->
    Forall (fun kv => In (snd kv) instruments) author_instruments.
Proof.
  induction pairs as [|[i a] pairs IH]; intros d ai Hd Hrun; simpl in Hrun.
  - now injection Hrun as <-.
  - destruct (index instruments (i mod len instruments)) as [ins|] eqn:E;
      [|discriminate].
    cbn [bind] in Hrun. eapply IH; [|exact Hrun].
    apply Forall_dict_set; [|exact Hd].
    intros k'. cbn [snd]. eapply index_In. exact E.
Qed.

Lemma get_default_Forall {V} (P : V -> Prop) (k : string) (default : V)
  (d : list (string * V)) :
  P default -> Forall (fun kv => P (snd kv)) d -> P (get_default k default d).
Proof.
  intros Hdef. unfold get_default.
  induction 1 as [|[k' v] d Hv Hd IH]; simpl; [exact Hdef|].
  destruct (String.eqb k k'); [exact Hv | exact IH].
Qed.

Lemma Forall2_right {A B} (R : A -> B -> Prop) (P : B -> Prop)
  (l : list A) (l' : list B) :
  (forall x y, R x y -> P y) -> Forall2 R l l' -> Forall P l'.
Proof. intros HP. induction 1; constructor; eauto. Qed.

Lemma Forall_flat_map {A B} (P : B -> Prop) (f : A -> list B) (l : list A) :
  Forall (fun x => Forall P (f x)) l -> Forall P (flat_map f l).
Proof.
  induction 1 as [|x l Hx Hl IH]; simpl; [constructor|].
  apply Forall_app. now split.
Qed.

(** X10. For any commits and any accumulator the encoder returns a score
    with its fixed title, tempo and time signature, and every note of it has
    one of the six pitches, one of the five instruments (the piano for an
    author the accumulator does not know), the duration 1 or 1/2 and the
    velocity 100 or 80, the longer and louder values going together. *)
Theorem notes_use_fixed_symbols (commits : list Commit) (stats : Stats) :
  exists score,
    create_musical_representation commits stats = Ok score /\
    title score = "The Para Symphony - A Git History in Music" /\
    tempo score = 120 /\ time_signature score = "4/4" /\
    Forall
      (fun n =>
         In (pitch n) ["C5"; "A4"; "F4"; "D4"; "G4"; "C4"] /\
         In (instrument n) instruments /\
         ((duration n = 1%Q /\ velocity n = 100 /\ pitch n = "C5") \/
          (duration n = (1 # 2)%Q /\ velocity n = 80 /\ pitch n <> "C5")))
      (all_notes score).
Proof.
  destruct (encoder_notes commits stats)
    as (ai & score & weeks & Hai & Hrun & _ & Hall).
  exists score. split; [exact Hrun|].
  assert (Hshape : title score = "The Para Symphony - A Git History in Music"
                   /\ tempo score = 120 /\ time_signature score = "4/4").
  { unfold create_musical_representation in Hrun. rewrite Hai in Hrun.
    cbn [bind] in Hrun.
    destruct (map_result (make_movement ai) _); [|discriminate].
    cbn [bind] in Hrun. injection Hrun as <-. repeat split. }
  destruct Hshape as (Ht & Hb & Hs).
  split; [exact Ht|]. split; [exact Hb|]. split; [exact Hs|].
  assert (Hvalues : Forall (fun kv => In (snd kv) instruments) ai).
  { eapply assign_instruments_values; [|exact Hai]. constructor. }
  apply Forall_flat_map.
  eapply Forall2_right; [|exact Hall].
  intros w mv (_ & Hnotes). eapply Forall2_right; [|exact Hnotes].
  intros c n Hn. cbv beta in Hn.
  destruct (make_note_ok ai c) as (tag & _ & _ & _ & Hnote).
  rewrite Hnote in Hn. injection Hn as <-.
  cbn [pitch instrument duration velocity]. split; [|split].
  - destruct tag; simpl; tauto.
  - apply (get_default_Forall (fun v => In v instruments));
      [simpl; tauto | exact Hvalues].
  - destruct tag; simpl; [left|right..]; repeat split; discriminate.
Qed.

Lemma commits_in_weeks_cons_out (ws : list string) (c : Commit)
  (commits : list Commit) :
  ~ In (week_of c) ws ->
  commits_in_weeks ws (c :: commits) = commits_in_weeks ws commits.
Proof.
  induction ws as [|w ws IH]; intros Hout; simpl; [reflexivity|].
  destruct (String.eqb_spec (week_of c) w) as [E|_].
  - exfalso. apply Hout. now left.
  - rewrite IH; [reflexivity|]. intros Hin. apply Hout. now right.
Qed.

Lemma commits_in_weeks_cons_in (ws : list string) (c : Commit)
  (commits : list Commit) :
  NoDup ws -> In (week_of c) ws ->
  commits_in_weeks ws (c :: commits) = S (commits_in_weeks ws commits).
Proof.
  induction ws as [|w ws IH]; intros Hnd Hin; [destruct Hin|].
  inversion Hnd as [|? ? Hnotin Hnd']; subst. simpl.
  destruct (String.eqb_spec (week_of c) w) as [E|Hne].
  - rewrite commits_in_weeks_cons_out by (rewrite E; exact Hnotin).
    simpl. reflexivity.
  - destruct Hin as [E|Hin]; [congruence|].
    rewrite IH by assumption. lia.
Qed.

Lemma commits_in_weeks_le (ws : list string) (commits : list Commit) :
  NoDup ws -> (commits_in_weeks ws commits <= length commits)%nat.
Proof.
  intros Hnd. induction commits as [|c commits IH].
  - induction ws; simpl; auto. inversion Hnd; subst. auto.
  - destruct (in_dec string_dec (week_of c) ws) as [Hin|Hout].
    + rewrite commits_in_weeks_cons_in by assumption. simpl. lia.
    + rewrite commits_in_weeks_cons_out by assumption. simpl. lia.
Qed.

Lemma commits_in_weeks_all (ws : list string) (commits : list Commit) :
  NoDup ws -> (forall c, In c commits -> In (week_of c) ws) ->
  commits_in_weeks ws commits = length commits.
Proof.
  intros Hnd. induction commits as [|c commits IH]; intros Hall.
  - clear. induction ws; simpl; auto.
  - rewrite commits_in_weeks_cons_in; [|exact Hnd | apply Hall; now left].
    rewrite IH; [reflexivity|]. intros c' Hc'. apply Hall. now right.
Qed.

Lemma all_notes_length (weeks : list string) (mvs : list Movement)
  (commits : list Commit) (R : Commit -> Note -> Prop) :
  Forall2
    (fun w mv =>
       name mv = ("Week of " ++ w)%string /\
       Forall2 R (commits_of_week w commits) (notes mv))
    weeks mvs ->
  length (flat_map notes mvs) = commits_in_weeks weeks commits.
Proof.
  induction 1 as [|w mv ws mvs (_ & Hnotes) _ IH]; simpl; [reflexivity|].
  rewrite length_app, IH, (Forall2_length Hnotes). reflexivity.
Qed.

Lemma StronglySorted_ltb_NoDup (ws : list string) :
  StronglySorted (fun w1 w2 => ltb w1 w2 = true) ws -> NoDup ws.
Proof.
  induction 1 as [|w ws Hs IH Hw]; constructor; [|exact IH].
  intros Hin. rewrite Forall_forall in Hw. specialize (Hw w Hin).
  apply ltb_cases in Hw. now destruct Hw.
Qed.

(** X11. The score never has more notes than there are commits, and when
    the commits fall into at most ten distinct weeks it has exactly one note
    for every commit. *)
Theorem score_note_count (commits : list Commit) (stats : Stats) :
  exists score,
    create_musical_representation commits stats = Ok score /\
    (length (all_notes score) <= length commits)%nat /\
    ((length (weeks_of commits) <= 10)%nat ->
     length (all_notes score) = length commits /\
     length (movements score) = length (weeks_of commits)).
Proof.
  destruct (encoder_notes commits stats)
    as (ai & score & weeks & _ & Hrun & Hweeks & Hall).
  destruct (retained_weeks_spec commits) as (Hsorted & _ & _ & _).
  cbv zeta in Hsorted.
  assert (Hnd : NoDup weeks).
  { rewrite Hweeks. apply StronglySorted_ltb_NoDup.
    now apply StronglySorted_map_fst. }
  exists score. split; [exact Hrun|].
  unfold all_notes. rewrite (@all_notes_length _ _ commits _ Hall). split.
  - now apply commits_in_weeks_le.
  - intros Hfew.
    pose proof (@sorted_perm _ week_before (items (group_by_week commits)))
      as Hperm.
    destruct (lastn_suffix 10
                (sorted week_before (items (group_by_week commits))))
      as (front & Hs & Hl).
    assert (Hg : length (group_by_week commits) = length (weeks_of commits)).
    { rewrite <- group_by_week_keys. unfold keys. now rewrite length_map. }
    assert (Hlong : (length (sorted week_before (items (group_by_week commits)))
                     = length front
                       + length (lastn 10
                                   (sorted week_before
                                      (items (group_by_week commits)))))%nat)
      by (rewrite Hs at 1; apply length_app).
    pose proof (Permutation_length Hperm) as Hplen. unfold items in *.
    assert (Hfront : front = []).
    { destruct front; [reflexivity|]. simpl in Hlong. lia. }
    rewrite Hfront in Hs. cbn [app] in Hs. rewrite <- Hs in Hweeks.
    split.
    + apply commits_in_weeks_all; [exact Hnd|].
      intros c Hc.
      destruct (group_by_week_spec commits) as (_ & _ & Hkeys).
      specialize (Hkeys c Hc). rewrite Hweeks.
      apply (Permutation_in _
               (Permutation_map fst (Permutation_sym Hperm))).
      exact Hkeys.
    + rewrite <- (Forall2_length Hall), Hweeks, length_map. lia.
Qed.

(** X12. For the records and the accumulator of any log the encoder
    returns a score whose notes, one for every commit of a kept week, never
    take the fallback to the piano: every commit's author is known to the
    accumulator, and the instrument of its note is the one at position
    [i mod 5] of the fixed list, [i] being the rank of the author among the
    authors in the order of their first record. *)
Theorem pipeline_instruments (commits_raw : string) :
  let commits := fst (aggregate commits_raw) in
  let stats := snd (aggregate commits_raw) in
  exists score,
    create_musical_representation commits stats = Ok score /\
    Forall2
      (fun c n =>
         exists i,
           nth_error (Spec.first_seen [] (map author commits)) i
             = Some (author c) /\
           index instruments (Z.of_nat i mod 5) = Ok (instrument n))
      (retained_commits commits) (all_notes score) /\
    (forall c,
        In c (retained_commits commits) <->
        In c commits /\ In (week_of c) (retained_weeks commits)) /\
    ((length (weeks_of commits) <= 10)%nat ->
     forall c, In c commits -> In c (retained_commits commits)).
Proof.
  intros commits stats.
  destruct (aggregate_authors commits_raw) as (Hkeys & Hnd).
  fold commits in Hkeys. fold stats in Hkeys, Hnd.
  destruct (encoder_all_notes commits stats)
    as (ai & score & Hai & Hrun & Hall).
  destruct (assign_instruments_spec 0 [] Hnd) as (ai' & Hai' & Hin & _).
  unfold enumerate in Hai. rewrite Hai' in Hai. injection Hai as ->.
  destruct (retained_commits_spec commits) as (Hkept & Hfew).
  exists score. split; [exact Hrun|]. split; [|split; assumption].
  eapply Forall2_impl_in; [|exact Hall].
  intros c n Hc Hn. cbv beta in Hn.
  destruct (make_note_ok ai c) as (tag & _ & _ & _ & Hnote).
  rewrite Hnote in Hn. injection Hn as <-. cbn [instrument].
  assert (Hauthor : In (author c) (Spec.first_seen [] (map author commits))).
  { apply first_seen_In. split; [|simpl; tauto].
    apply in_map. apply Hkept in Hc. tauto. }
  apply In_nth_error in Hauthor. destruct Hauthor as (i & Hi).
  exists i. split; [exact Hi|].
  rewrite <- Hkeys in Hi. destruct (Hin i _ Hi) as (ins & Hins & Hget).
  unfold get_default. rewrite Hget. exact Hins.
Qed.

End EncoderExtras.

(** ** More on the report *)

Section ReportExtras.
Import PyStr Dict PyList.

Lemma map_result_length {A B} (f : A -> Result B) (l : list A) (ys : list B) :
  map_result f l = Ok ys -> length ys = length l.
Proof.
  revert ys. induction l as [|x l IH]; intros ys; simpl.
  - now intros [= <-].
  - destruct (f x); [|discriminate]. simpl.
    destruct (map_result f l); [|discriminate]. simpl.
    intros [= <-]. simpl. now rewrite (IH _ eq_refl).
Qed.

Lemma map_result_all_ok {A B} (f : A -> Result B) (l : list A) :
  (forall x, exists y, f x = Ok y) -> exists ys, map_result f l = Ok ys.
Proof.
  intros Hf. induction l as [|x l (ys & Hys)]; simpl; [now eexists|].
  destruct (Hf x) as (y & ->). rewrite Hys. simpl. now eexists.
Qed.

Lemma map_result_all_raise {A B} (f : A -> Result B) (l : list A) (e : PyError) :
  (forall x, f x = Raise e) -> l <> [] -> map_result f l = Raise e.
Proof.
  intros Hf Hl. destruct l as [|x l]; [congruence|]. simpl. now rewrite Hf.
Qed.

Lemma sorted_length {A} (before : A -> A -> bool) (l : list A) :
  length (sorted before l) = length l.
Proof. apply Permutation_length, sorted_perm. Qed.

Lemma sorted_nil_iff {A} (before : A -> A -> bool) (l : list A) :
  sorted before l = [] <-> l = [].
Proof.
  pose proof (sorted_length before l) as Hlen.
  split; intros E; [rewrite E in Hlen | rewrite E; reflexivity].
  destruct l; [reflexivity | discriminate].
Qed.

Lemma last_two {A} (l : list A) (a b d : A) : last (l ++ [a; b]) d = b.
Proof.
  induction l as [|x l IH]; [reflexivity|].
  cbn [app]. rewrite last_cons_nonempty; [exact IH|].
  destruct l; discriminate.
Qed.

Lemma commit_type_line_cases (total_typed : Z) (item : string * Z) :
  (total_typed = 0 /\
   commit_type_line total_typed item = Raise ZeroDivisionError) \/
  (total_typed <> 0 /\ exists line, commit_type_line total_typed item = Ok line).
Proof.
  unfold commit_type_line, true_div. destruct item as [ctype count].
  destruct (Z.eqb_spec total_typed 0); [left | right]; split; auto.
  simpl. now eexists.
Qed.

Lemma hour_bar_cases (stats : Stats) (max_commits hour : Z) :
  (max_commits = 0 /\
   hour_bar stats max_commits hour = Raise ZeroDivisionError) \/
  (max_commits <> 0 /\ exists bar, hour_bar stats max_commits hour = Ok bar).
Proof.
  unfold hour_bar, true_div.
  destruct (Z.eqb_spec max_commits 0); [left | right]; split; auto.
  simpl. now eexists.
Qed.

(** [max] of a list: an element that no element exceeds, the first of
    its value. *)
Lemma max_by_spec {A} (key : A -> Z) (l : list A) :
  match max_by key l with
  | None => l = []
  | Some x =>
      exists front back,
        l = front ++ x :: back /\
        (forall y, In y front -> key y < key x) /\
        (forall y, In y back -> key y <= key x)
  end.
Proof.
  induction l as [|x l IH]; simpl; [reflexivity|].
  destruct (max_by key l) as [y|].
  - destruct IH as (front & back & -> & Hfront & Hback).
    destruct (Z.ltb_spec (key x) (key y)).
    + exists (x :: front), back. split; [reflexivity|]. split; [|exact Hback].
      intros z [<-|Hz]; auto.
    + exists [], (front ++ y :: back). split; [reflexivity|].
      split; [intros z []|].
      intros z Hz. apply in_app_or in Hz. destruct Hz as [Hz|[<-|Hz]].
      * specialize (Hfront z Hz). lia.
      * lia.
      * specialize (Hback z Hz). lia.
  - subst l. exists [], []. split; [reflexivity|]. split; intros z [].
Qed.

Lemma max_by_some {A} (key : A -> Z) (l : list A) :
  l <> [] -> exists x, max_by key l = Some x.
Proof.
  intros Hl. pose proof (max_by_spec key l) as Hspec.
  destruct (max_by key l); [now eexists | contradiction].
Qed.

Lemma cosmic_facts_ok (stats : Stats) :
  exists facts,
    cosmic_facts stats = Ok facts /\
    length facts =
      (one_if_nonempty (commits_by_day stats) + 1
       + one_if_nonempty (file_changes stats))%nat.
Proof.
  unfold cosmic_facts.
  destruct (commits_by_day stats) as [|d ds] eqn:Ed;
    destruct (file_changes stats) as [|f fs] eqn:Ef; cbn [bind].
  - eexists. split; reflexivity.
  - destruct (max_by_some snd (l := items (f :: fs))) as (x & ->);
      [discriminate|].
    eexists. split; reflexivity.
  - destruct (max_by_some snd (l := items (d :: ds))) as (x & ->);
      [discriminate|].
    cbn [bind]. eexists. split; reflexivity.
  - destruct (max_by_some snd (l := items (d :: ds))) as (x & ->);
      [discriminate|].
    destruct (max_by_some snd (l := items (f :: fs))) as (y & ->);
      [discriminate|].
    cbn [bind]. eexists. split; reflexivity.
Qed.

Lemma report_divides_by_zero_iff (stats : Stats) :
  report_divides_by_zero stats = true <->
  (commit_types stats <> [] /\ sum (values (commit_types stats)) = 0) \/
  (commits_by_hour stats <> [] /\
   max_by (fun x => x) (values (commits_by_hour stats)) = Some 0).
Proof.
  unfold report_divides_by_zero. rewrite orb_true_iff.
  destruct (commit_types stats) as [|t ts];
    destruct (commits_by_hour stats) as [|h hs].
  - split; [intros [|]; discriminate | intros [[H _]|[H _]]; congruence].
  - destruct (max_by (fun x => x) (values (h :: hs))) as [m|].
    + rewrite Z.eqb_eq. split.
      * intros [|E]; [discriminate|]. right. split; [discriminate|].
        now rewrite E.
      * intros [[H _]|[_ [= E]]]; [congruence | now right].
    + split; [intros [|]; discriminate|].
      intros [[H _]|[_ E]]; [congruence | discriminate].
  - rewrite Z.eqb_eq. split.
    + intros [E|]; [|discriminate]. left. split; [discriminate | exact E].
    + intros [[_ E]|[H _]]; [now left | congruence].
  - rewrite Z.eqb_eq.
    destruct (max_by (fun x => x) (values (h :: hs))) as [m|].
    + rewrite Z.eqb_eq. split.
      * intros [E|E]; [left | right]; (split; [discriminate|]); auto.
        now rewrite E.
      * intros [[_ E]|[_ [= E]]]; auto.
    + split.
      * intros [E|]; [|discriminate]. left. split; [discriminate | exact E].
      * intros [[_ E]|[_ E]]; [now left | discriminate].
Qed.

(** The three parts of the report that can raise, and the facts. *)
Lemma report_lines_cases (stats : Stats) :
  (report_divides_by_zero stats = true /\
   report_lines stats = Raise ZeroDivisionError) \/
  (report_divides_by_zero stats = false /\
   exists lines,
     report_lines stats = Ok lines /\
     length lines =
       (24 + Nat.min 5 (length (authors stats)) + length (commit_types stats)
        + Nat.min 10 (length (languages stats))
        + Nat.min 5 (length (release_history stats))
        + one_if_nonempty (commits_by_day stats)
        + one_if_nonempty (file_changes stats))%nat /\
     hd "" lines = banner /\ last lines "" = banner).
Proof.
  destruct (report_divides_by_zero stats) eqn:Ez.
  - left. split; [reflexivity|].
    apply report_divides_by_zero_iff in Ez. unfold report_lines.
    destruct (commit_type_line_cases (sum (values (commit_types stats)))
                ("", 0)) as [(Hzero & _)|(Hnz & _)].
    + destruct (commit_types stats) as [|t ts] eqn:Et.
      * destruct Ez as [[H _]|(Hh & Hmax)]; [congruence|].
        cbn [items sorted fold_right map_result bind].
        destruct (commits_by_hour stats) as [|h hs] eqn:Eh; [congruence|].
        unfold max_list. rewrite Hmax. cbn [bind].
        reflexivity.
      * rewrite (@map_result_all_raise _ _ _ _ ZeroDivisionError);
          [reflexivity | | ].
        -- intros item.
           destruct (commit_type_line_cases
                       (sum (values (t :: ts))) item)
             as [(_ & Hr)|(Hnz & _)]; [exact Hr | contradiction].
        -- intros E. apply sorted_nil_iff in E. discriminate.
    + destruct Ez as [(_ & Hsum)|(Hh & Hmax)]; [contradiction|].
      destruct (map_result_all_ok
                  (commit_type_line (sum (values (commit_types stats))))
                  (sorted by_count_desc (items (commit_types stats))))
        as (ls & ->).
      { intros item.
        destruct (commit_type_line_cases
                    (sum (values (commit_types stats))) item)
          as [(Hz & _)|(_ & Hok)]; [contradiction | exact Hok]. }
      cbn [bind].
      destruct (commits_by_hour stats) as [|h hs] eqn:Eh; [congruence|].
      unfold max_list. rewrite Hmax. cbn [bind]. reflexivity.
  - right. split; [reflexivity|].
    assert (Hgood : ~ ((commit_types stats <> [] /\
                        sum (values (commit_types stats)) = 0) \/
                       (commits_by_hour stats <> [] /\
                        max_by (fun x => x) (values (commits_by_hour stats))
                          = Some 0))).
    { intros Hbad. apply report_divides_by_zero_iff in Hbad. congruence. }
    unfold report_lines.
    assert (Htypes : exists ls,
               map_result
                 (commit_type_line (sum (values (commit_types stats))))
                 (sorted by_count_desc (items (commit_types stats))) = Ok ls).
    { destruct (commit_types stats) as [|t ts] eqn:Et; [now eexists|].
      apply map_result_all_ok. intros item.
      destruct (commit_type_line_cases (sum (values (t :: ts))) item)
        as [(Hz & _)|(_ & Hok)]; [|exact Hok].
      exfalso. apply Hgood. left. split; [discriminate | exact Hz]. }
    destruct Htypes as (ls & Hls). rewrite Hls. cbn [bind].
    assert (Hmax : exists m,
               match commits_by_hour stats with
               | [] => Ok 1
               | _ :: _ => max_list (values (commits_by_hour stats))
               end = Ok m /\ m <> 0).
    { destruct (commits_by_hour stats) as [|h hs] eqn:Eh;
        [exists 1; split; [reflexivity | discriminate]|].
      unfold max_list.
      destruct (max_by_some (fun x => x) (l := values (h :: hs)))
        as (m & Hm); [discriminate|].
      rewrite Hm. exists m. split; [reflexivity|].
      intros ->. apply Hgood. right. split; [discriminate | exact Hm]. }
    destruct Hmax as (m & Hm & Hm0). rewrite Hm. cbn [bind].
    destruct (map_result_all_ok (hour_bar stats m) (range_step 0 1 24))
      as (bars & Hbars).
    { intros hour. destruct (hour_bar_cases stats m hour)
        as [(Hz & _)|(_ & Hok)]; [contradiction | exact Hok]. }
    rewrite Hbars. cbn [bind].
    destruct (cosmic_facts_ok stats) as (facts & Hfacts & Hflen).
    rewrite Hfacts. cbn [bind].
    eexists. split; [reflexivity|]. split; [|split].
    + rewrite !length_app, !length_map, length_firstn, length_firstn.
      unfold lastn. rewrite length_skipn, !sorted_length.
      rewrite (map_result_length _ _ Hls), sorted_length, Hflen.
      unfold items. cbn [length]. lia.
    + reflexivity.
    + apply last_two.
Qed.

Lemma exact_countb_ok (n : Z) : exact_countb n = true <-> exact_count n.
Proof.
  unfold exact_countb, exact_count.
  rewrite andb_true_iff, Z.leb_le, Z.leb_le. reflexivity.
Qed.

Lemma exact_countsb_ok (stats : Stats) :
  exact_countsb stats = true -> exact_counts stats.
Proof.
  unfold exact_countsb, exact_counts. rewrite !andb_true_iff.
  rewrite !forallb_forall, !Forall_forall.
  intros ((((((Ht & Ha) & Hd) & Hh) & Hc) & Hf) & Hl).
  repeat match goal with |- _ /\ _ => split end;
    try (apply exact_countb_ok; assumption);
    intros v Hv; apply exact_countb_ok; auto.
Qed.

Lemma exact_sum_zero (l : list Z) :
  Forall exact_count l -> (sum l = 0 <-> Forall (fun v => v = 0) l).
Proof.
  intros Hl. rewrite sum_fold_right.
  assert (Hnn : 0 <= fold_right Z.add 0 l /\
                (fold_right Z.add 0 l = 0 <-> Forall (fun v => v = 0) l)).
  { induction Hl as [|v l (Hv & _) Hl (IHnn & IH)]; cbn [fold_right].
    - split; [lia|]. split; [constructor | reflexivity].
    - split; [lia|]. split.
      + intros Hs. constructor; [lia|]. apply IH. lia.
      + intros Hz. inversion Hz as [|? ? Hv0 Hl0]; subst.
        apply IH in Hl0. lia. }
  tauto.
Qed.

Lemma exact_max_zero (l : list Z) :
  Forall exact_count l ->
  (max_by (fun x => x) l = Some 0 <-> l <> [] /\ Forall (fun v => v = 0) l).
Proof.
  intros Hl. pose proof (max_by_spec (fun x => x) l) as Hspec. split.
  - intros Hmax. rewrite Hmax in Hspec.
    destruct Hspec as (front & back & Hs & Hfront & Hback).
    split; [rewrite Hs; destruct front; discriminate|].
    rewrite Forall_forall in *. intros v Hv.
    destruct (Hl v Hv) as (Hv0 & _).
    rewrite Hs in Hv. apply in_app_or in Hv.
    destruct Hv as [Hv|[<-|Hv]];
      [specialize (Hfront v Hv) | | specialize (Hback v Hv)]; lia.
  - intros (Hne & Hz).
    destruct (max_by (fun x => x) l) as [m|]; [|contradiction].
    destruct Hspec as (front & back & Hs & _).
    rewrite Forall_forall in Hz. f_equal. apply Hz.
    rewrite Hs. apply in_or_app. right. now left.
Qed.

(** X13. On an accumulator of counters within [exact_counts] the report
    raises exactly when there are commit types and all their counters are
    zero, or there are hours and all their counters are zero, and then it
    raises [ZeroDivisionError]; on every other such accumulator it
    returns. *)
Theorem report_raises_on_zero_totals (stats : Stats) :
  exact_counts stats ->
  (report_divides_by_zero stats = true ->
   generate_summary_report stats = Raise ZeroDivisionError) /\
  (report_divides_by_zero stats = false ->
   exists report, generate_summary_report stats = Ok report) /\
  (report_divides_by_zero stats = true <->
   (commit_types stats <> [] /\
    Forall (fun v => v = 0) (values (commit_types stats))) \/
   (commits_by_hour stats <> [] /\
    Forall (fun v => v = 0) (values (commits_by_hour stats)))).
Proof.
  intros (_ & _ & _ & Hh & Ht & _).
  assert (Hiff : report_divides_by_zero stats = true <->
                 (commit_types stats <> [] /\
                  Forall (fun v => v = 0) (values (commit_types stats))) \/
                 (commits_by_hour stats <> [] /\
                  Forall (fun v => v = 0) (values (commits_by_hour stats)))).
  { rewrite report_divides_by_zero_iff, (exact_sum_zero Ht),
      (exact_max_zero Hh).
    assert (Hne : values (commits_by_hour stats) <> [] <->
                  commits_by_hour stats <> [])
      by (destruct (commits_by_hour stats); cbn [values map]; split;
          intros H; first [congruence | discriminate]).
    tauto. }
  unfold generate_summary_report.
  destruct (report_lines_cases stats)
    as [(Hz & Hr)|(Hz & lines & Hr & _)]; rewrite Hr; cbn [bind].
  - split; [reflexivity|]. split; [congruence | exact Hiff].
  - split; [congruence|]. split; [intros _; now eexists | exact Hiff].
Qed.

(** X14. A report that is returned begins and ends with the banner of
    sixty ['='], and has 24 lines plus one for each of the five foremost
    authors, one for each commit type, one for each of the ten foremost
    extensions, one for each of the last five releases, one if there are
    days and one if there are changed files. *)
Theorem report_line_count (stats : Stats) (lines : list string) :
  report_lines stats = Ok lines ->
  length lines =
    (24 + Nat.min 5 (length (authors stats)) + length (commit_types stats)
     + Nat.min 10 (length (languages stats))
     + Nat.min 5 (length (release_history stats))
     + one_if_nonempty (commits_by_day stats)
     + one_if_nonempty (file_changes stats))%nat /\
  hd "" lines = banner /\ last lines "" = banner.
Proof.
  intros Hrun.
  destruct (report_lines_cases stats)
    as [(_ & Hr)|(_ & lines' & Hr & Hlen)]; [congruence|].
  assert (lines' = lines) by congruence. now subst.
Qed.

End ReportExtras.

(** ** The report after the aggregation *)

Section ReportAfterAggregation.
Context {RT : Runtime}.
Import PyStr Dict PyList.

Lemma well_counted_sum_positive {K} (d : list (K * Z)) :
  well_counted d -> d <> [] -> 0 < sum_values d.
Proof.
  intros (_ & Hpos) Hne. unfold sum_values, values.
  destruct Hpos as [|[k v] d Hv Hd]; [congruence|]. simpl in *.
  assert (0 <= fold_right Z.add 0 (map snd d)); [|lia].
  clear -Hd. induction Hd as [|[k' v'] d Hv' Hd IH]; simpl in *; lia.
Qed.

Lemma well_counted_max_positive {K} (d : list (K * Z)) (m : Z) :
  well_counted d -> max_by (fun x => x) (values d) = Some m ->
  1 <= m /\ exists k, In (k, m) d.
Proof.
  intros (_ & Hpos) Hmax.
  pose proof (max_by_spec (fun x => x) (values d)) as Hspec.
  rewrite Hmax in Hspec. destruct Hspec as (front & back & Hsplit & _).
  assert (Hin : In m (values d))
    by (rewrite Hsplit; apply in_or_app; right; now left).
  unfold values in Hin. apply in_map_iff in Hin.
  destruct Hin as ([k v] & Hv & Hkv). simpl in Hv. subst v.
  rewrite Forall_forall in Hpos. split; [exact (Hpos _ Hkv) | now exists k].
Qed.

Lemma well_counted_no_zero_division (stats : Stats) :
  well_counted (commit_types stats) ->
  well_counted (commits_by_hour stats) ->
  report_divides_by_zero stats = false.
Proof.
  intros Ht Hh. destruct (report_divides_by_zero stats) eqn:Ez; [|reflexivity].
  apply report_divides_by_zero_iff in Ez.
  destruct Ez as [(Hne & Hsum)|(Hne & Hmax)].
  - pose proof (well_counted_sum_positive Ht Hne) as Hpos.
    rewrite sum_fold_right in Hsum. unfold sum_values in Hpos. lia.
  - destruct (well_counted_max_positive Hh Hmax) as (Hm & _). lia.
Qed.

(** The finalization rewrites the scores alone. *)
Lemma finalize_keeps_the_rest (stats stats' : Stats) :
  finalize stats = Ok stats' ->
  stats' = with_productivity_score (productivity_score stats') stats.
Proof.
  unfold finalize. generalize (items (commits_by_day stats)) as days.
  intros days. revert stats.
  induction days as [|[day count] days IH]; intros stats Hrun.
  - injection Hrun as <-. now destruct stats.
  - cbn [score_days score_day] in Hrun.
    destruct (fromisoformat day) as [day_date|]; [|discriminate].
    destruct (decay_weight (sub_days datetime_now day_date)) as [weight|];
      [|discriminate].
    cbn [bind] in Hrun. apply IH in Hrun. rewrite Hrun. reflexivity.
Qed.

Lemma report_returns_after_aggregation_lemma (commits_raw : string) :
  exists report,
    generate_summary_report (snd (aggregate commits_raw)) = Ok report /\
    forall stats',
      finalize (snd (aggregate commits_raw)) = Ok stats' ->
      generate_summary_report stats' = Ok report.
Proof.
  destruct (@counters_are_positive_types_hours RT commits_raw) as (Ht & Hh).
  pose proof (well_counted_no_zero_division _ Ht Hh) as Hz.
  unfold generate_summary_report.
  destruct (report_lines_cases (snd (aggregate commits_raw)))
    as [(Hbad & _)|(_ & lines & Hr & _)]; [congruence|].
  rewrite Hr. cbn [bind]. eexists. split; [reflexivity|].
  intros stats' Hfin. rewrite (finalize_keeps_the_rest _ Hfin).
  change (report_lines
            (with_productivity_score (productivity_score stats')
               (snd (aggregate commits_raw))))
    with (report_lines (snd (aggregate commits_raw))).
  rewrite Hr. reflexivity.
Qed.

(** X15. The accumulator of any log never makes the report raise,
    whether before or after the finalization, and the finalization does not
    change the report: the scores are not shown. *)
Theorem report_returns_after_aggregation (commits_raw : string) :
  let stats := snd (aggregate commits_raw) in
  report_divides_by_zero stats = false /\
  exists report,
    generate_summary_report stats = Ok report /\
    forall stats',
      finalize stats = Ok stats' ->
      generate_summary_report stats' = Ok report.
Proof.
  intros stats. split.
  - destruct (@counters_are_positive_types_hours RT commits_raw) as (Ht & Hh).
    now apply well_counted_no_zero_division.
  - apply report_returns_after_aggregation_lemma.
Qed.

End ReportAfterAggregation.

Section ReportFacts.
Import PyStr Dict PyList.

(** X16. On an accumulator of counters within [exact_counts] the facts
    of the report do not raise.  With days, the first fact names a day of
    greatest count, the first such day of the dictionary; with changed files,
    the last fact names a file of greatest count, the first such file; the
    counts shown are counters of the accumulator; without days and files,
    only the recent-activity line is left. *)
Theorem cosmic_facts_name_the_maxima (stats : Stats) :
  exact_counts stats ->
  exists facts,
    cosmic_facts stats = Ok facts /\
    (commits_by_day stats <> [] ->
     exists best front back,
       commits_by_day stats = front ++ best :: back /\
       (forall item, In item front -> snd item < snd best) /\
       (forall item, In item back -> snd item <= snd best) /\
       exact_count (snd best) /\
       hd "" facts = brightest_day_line best) /\
    (file_changes stats <> [] ->
     exists most front back,
       file_changes stats = front ++ most :: back /\
       (forall item, In item front -> snd item < snd most) /\
       (forall item, In item back -> snd item <= snd most) /\
       exact_count (snd most) /\
       last facts "" = hottest_file_line most) /\
    (commits_by_day stats = [] -> file_changes stats = [] ->
     facts = [recent_activity_line 0]).
Proof.
  intros (_ & _ & Hdays & _ & _ & Hfiles & _).
  assert (Hin : forall (d : list (string * Z)) front x back,
             Forall exact_count (values d) -> d = front ++ x :: back ->
             exact_count (snd x)).
  { intros d front x back Hd ->. rewrite Forall_forall in Hd. apply Hd.
    unfold values. apply in_map, in_or_app. right. now left. }
  unfold cosmic_facts.
  pose proof (max_by_spec snd (items (commits_by_day stats))) as Hd.
  pose proof (max_by_spec snd (items (file_changes stats))) as Hf.
  unfold items in *.
  destruct (commits_by_day stats) as [|d ds] eqn:Ed;
    destruct (file_changes stats) as [|f fs] eqn:Ef; cbn [bind].
  - eexists. split; [reflexivity|].
    split; [congruence|]. split; [congruence|]. reflexivity.
  - destruct (max_by snd (f :: fs)) as [most|]; [|discriminate].
    destruct Hf as (front & back & Hsplit & Hfront & Hback).
    eexists. split; [reflexivity|].
    split; [congruence|]. split; [|discriminate].
    intros _. exists most, front, back.
    repeat split; try assumption; eapply (Hin _ _ _ _ Hfiles Hsplit).
  - destruct (max_by snd (d :: ds)) as [best|]; [|discriminate].
    destruct Hd as (front & back & Hsplit & Hfront & Hback).
    cbn [bind]. eexists. split; [reflexivity|].
    split; [|split; [congruence | discriminate]].
    intros _. exists best, front, back.
    repeat split; try assumption; eapply (Hin _ _ _ _ Hdays Hsplit).
  - destruct (max_by snd (d :: ds)) as [best|]; [|discriminate].
    destruct (max_by snd (f :: fs)) as [most|]; [|discriminate].
    destruct Hd as (front & back & Hsplit & Hfront & Hback).
    destruct Hf as (front' & back' & Hsplit' & Hfront' & Hback').
    cbn [bind]. eexists. split; [reflexivity|].
    split; [|split; [|discriminate]]; intros _.
    + exists best, front, back.
      repeat split; try assumption; eapply (Hin _ _ _ _ Hdays Hsplit).
    + exists most, front', back'.
      repeat split; try assumption; eapply (Hin _ _ _ _ Hfiles Hsplit').
Qed.

Lemma NoDup_keys_get_any {K V} `{Key K} (k : K) (v : V) (d : list (K * V)) :
  NoDup (keys d) -> In (k, v) d -> get k d = Some v.
Proof.
  induction d as [|[k' v'] d IH]; simpl; [tauto|].
  intros Hnd [[= -> ->]|Hin].
  - now rewrite keqb_refl.
  - inversion Hnd as [|? ? Hnotin Hnd']; subst.
    destruct (keqb_spec k k') as [->|Hk]; [|auto].
    exfalso. apply Hnotin. change (In (fst (k', v)) (map fst d)).
    now apply in_map.
Qed.

Lemma int_of_zero_ratio (m : Z) : int_of (inject_Z 0 / inject_Z m * 8) = 0.
Proof. reflexivity. Qed.

Lemma int_of_full_ratio (m : Z) :
  0 < m -> int_of (inject_Z m / inject_Z m * 8) = 8.
Proof.
  intros Hm. destruct m as [|p|p]; try lia.
  unfold int_of, Qdiv, Qmult, Qinv, inject_Z. cbn [Qnum Qden].
  rewrite Z.mul_1_r, Pos.mul_1_l, Pos.mul_1_r, Z.mul_comm.
  apply Z.quot_mul. discriminate.
Qed.

(** X17. In the chart of the hours of a well-counted accumulator the
    divisor is the greatest counter, which some hour has; that hour gets the
    full bar of eight blocks, and an hour without commits gets the dot. *)
Theorem hour_chart_extremes (stats : Stats) :
  well_counted (commits_by_hour stats) ->
  commits_by_hour stats <> [] ->
  exists max_commits busiest,
    max_list (values (commits_by_hour stats)) = Ok max_commits /\
    get busiest (commits_by_hour stats) = Some max_commits /\
    (forall hour count,
        get hour (commits_by_hour stats) = Some count -> count <= max_commits) /\
    hour_bar stats max_commits busiest = Ok (PyStr.repeat block_glyph 8) /\
    (forall hour,
        get hour (commits_by_hour stats) = None ->
        hour_bar stats max_commits hour = Ok dot_glyph).
Proof.
  intros Hwc Hne.
  destruct (max_by_some (fun x => x) (l := values (commits_by_hour stats)))
    as (m & Hmax).
  { destruct (commits_by_hour stats); [congruence | discriminate]. }
  destruct (well_counted_max_positive Hwc Hmax) as (Hm & busiest & Hin).
  destruct Hwc as (Hnd & _).
  pose proof (NoDup_keys_get_any _ _ _ Hnd Hin) as Hget.
  exists m, busiest. unfold max_list. rewrite Hmax.
  split; [reflexivity|]. split; [exact Hget|]. split; [|split].
  - intros hour count Hhour.
    pose proof (max_by_spec (fun x => x) (values (commits_by_hour stats)))
      as Hspec.
    rewrite Hmax in Hspec. destruct Hspec as (front & back & Hs & Hf & Hb).
    assert (Hc : In count (values (commits_by_hour stats))).
    { unfold values. apply in_map_iff. exists (hour, count).
      split; [reflexivity|].
      clear -Hhour. induction (commits_by_hour stats) as [|[k v] d IH];
        simpl in *; [discriminate|].
      destruct (Z.eqb_spec hour k) as [->|_].
      - injection Hhour as ->. now left.
      - right. auto. }
    rewrite Hs in Hc. apply in_app_or in Hc.
    destruct Hc as [Hc|[<-|Hc]];
      [specialize (Hf _ Hc) | | specialize (Hb _ Hc)]; lia.
  - unfold hour_bar, true_div, get_default. rewrite Hget.
    destruct (Z.eqb_spec m 0); [lia|]. cbn [bind].
    rewrite int_of_full_ratio by lia. reflexivity.
  - intros hour Hnone. unfold hour_bar, true_div, get_default.
    rewrite Hnone. destruct (Z.eqb_spec m 0); [lia|]. cbn [bind].
    rewrite int_of_zero_ratio. reflexivity.
Qed.

End ReportFacts.

(** ** The main program *)

Section MainExtras.
Context {RT : Runtime}.
Import PyStr Dict PyList MainProgram.

Lemma pair_before_iff (x y : string * Z) :
  pair_before x y = true <->
  String_as_OT.lt (fst x) (fst y) \/ (fst x = fst y /\ snd x <= snd y).
Proof.
  unfold pair_before, ltb. rewrite orb_true_iff, andb_true_iff.
  rewrite String.eqb_eq, Z.leb_le.
  destruct (String_as_OT.compare_spec (fst x) (fst y)) as [E|Hlt|Hgt].
  - split; [intros [|]; [discriminate | now right] | intros [Hlt|]; [|now right]].
    rewrite E in Hlt. exfalso. exact (StrictOrder_Irreflexive _ Hlt).
  - split; [now left | now left].
  - split; [intros [|[E _]]; [discriminate|] | intros [Hlt|[E _]]].
    + rewrite E in Hgt. exfalso. exact (StrictOrder_Irreflexive _ Hgt).
    + exfalso. exact (StrictOrder_Irreflexive _
                        (StrictOrder_Transitive _ _ _ Hlt Hgt)).
    + rewrite E in Hgt. exfalso. exact (StrictOrder_Irreflexive _ Hgt).
Qed.

Lemma pair_before_total (x y : string * Z) :
  pair_before x y = true \/ pair_before y x = true.
Proof.
  rewrite !pair_before_iff.
  destruct (String_as_OT.compare_spec (fst x) (fst y)) as [E|Hlt|Hgt]; auto.
  destruct (Z.le_gt_cases (snd x) (snd y)); [left | right]; right;
    split; auto; lia.
Qed.

Lemma pair_before_trans (x y z : string * Z) :
  pair_before x y = true -> pair_before y z = true -> pair_before x z = true.
Proof.
  rewrite !pair_before_iff.
  intros [Hxy|(Exy & Hxy)] [Hyz|(Eyz & Hyz)].
  - left. exact (StrictOrder_Transitive _ _ _ Hxy Hyz).
  - left. now rewrite <- Eyz.
  - left. now rewrite Exy.
  - right. split; [congruence | lia].
Qed.

Lemma pair_before_leb (x y : string * Z) :
  pair_before x y = true -> leb (fst x) (fst y) = true.
Proof.
  rewrite pair_before_iff, leb_cases. intros [Hlt|(E & _)]; auto.
Qed.

Lemma sorted_pairs_strict (l : list (string * Z)) :
  StronglySorted (fun x y => pair_before x y = true) l ->
  NoDup (map fst l) ->
  StronglySorted (fun x y => ltb (fst x) (fst y) = true) l.
Proof.
  induction 1 as [|x l Hl IH Hx]; intros Hnd; [constructor|].
  inversion Hnd as [|? ? Hnotin Hnd']; subst.
  constructor; [auto|].
  rewrite Forall_forall in *. intros y Hy.
  apply ltb_cases. split; [apply pair_before_leb; auto|].
  intros E. apply Hnotin. rewrite E. now apply in_map.
Qed.

Lemma set_fresh {V} (k : string) (v : V) (d : list (string * V)) :
  ~ In k (keys d) -> set k v d = d ++ [(k, v)].
Proof.
  induction d as [|[k' v'] d IH]; intros Hk; [reflexivity|].
  cbn [set]. destruct (keqb_spec k k') as [->|Hne].
  - exfalso. apply Hk. now left.
  - cbn [app]. rewrite IH; [reflexivity|]. intros Hin. apply Hk. now right.
Qed.

(** A dictionary made of items with distinct keys is these items. *)
Lemma dict_of_items_distinct (l : list (string * Z)) :
  NoDup (map fst l) -> dict_of_items l = l.
Proof.
  unfold dict_of_items.
  induction l as [|[k v] l IH] using rev_ind; intros Hnd; [reflexivity|].
  rewrite map_app in Hnd. rewrite fold_left_app. cbn [fold_left fst snd].
  rewrite IH by (eapply NoDup_app_remove_r; exact Hnd).
  apply set_fresh. intros Hin.
  apply NoDup_remove_2 with (l' := []) in Hnd. apply Hnd.
  rewrite app_nil_r. exact Hin.
Qed.

(** X18. For an accumulator with distinct days, [recent_activity] of
    [stats_json] lists at most thirty entries of [commits_by_day], days and
    counts together, in strictly ascending order of the days, and a day it
    leaves out is earlier than all the thirty it keeps. *)
Theorem recent_activity_last_thirty_days (generated_at : string)
  (stats : Stats) :
  NoDup (keys (commits_by_day stats)) ->
  let recent := recent_activity (stats_json generated_at stats) in
  StronglySorted (fun x y => ltb (fst x) (fst y) = true) recent /\
  (length recent <= 30)%nat /\
  (forall entry, In entry recent -> In entry (commits_by_day stats)) /\
  (forall entry,
      In entry (commits_by_day stats) ->
      In entry recent \/
      (length recent = 30%nat /\
       forall kept, In kept recent -> ltb (fst entry) (fst kept) = true)).
Proof.
  intros Hnd recent.
  set (s := sorted pair_before (items (commits_by_day stats))).
  assert (Hperm : Permutation s (commits_by_day stats))
    by apply sorted_perm.
  assert (Hstrict : StronglySorted (fun x y => ltb (fst x) (fst y) = true) s).
  { apply sorted_pairs_strict.
    - apply sorted_sorted; [apply pair_before_total | apply pair_before_trans].
    - apply (Permutation_NoDup (l := keys (commits_by_day stats)));
        [|exact Hnd].
      apply Permutation_map, Permutation_sym, Hperm. }
  destruct (lastn_suffix 30 s) as (front & Hs & Hlen).
  assert (Hrecent : recent = lastn 30 s).
  { subst recent. cbn [recent_activity stats_json].
    apply dict_of_items_distinct.
    apply (@NoDup_app_remove_l _ (map fst front)).
    rewrite <- map_app, <- Hs.
    apply (Permutation_NoDup (l := keys (commits_by_day stats)));
      [|exact Hnd].
    apply Permutation_map, Permutation_sym, Hperm. }
  rewrite Hrecent. rewrite Hs in Hstrict.
  apply StronglySorted_app in Hstrict. destruct Hstrict as (Hkept & Hcross).
  split; [exact Hkept|]. split; [lia|]. split.
  - intros entry Hin. apply (Permutation_in _ Hperm).
    rewrite Hs. apply in_or_app. now right.
  - intros entry Hin.
    apply (Permutation_in _ (Permutation_sym Hperm)) in Hin.
    rewrite Hs in Hin. apply in_app_or in Hin.
    destruct Hin as [Hfront|Hkeptin]; [right | now left].
    split.
    + assert (Hlong : (length s = length front + length (lastn 30 s))%nat)
        by (rewrite Hs at 1; apply length_app).
      destruct front; [destruct Hfront|]. simpl in Hlong. lia.
    + intros kept Hk. now apply Hcross.
Qed.

(** X19. [main] started without files opens its three files in a fixed
    order and leaves at most the last one it opened unfinished.  If the
    analysis raises, [main] ends with the same exception, or with the failure
    of its first [print], and opens no file.  If the analysis returns, the
    encoder and the report return as well, so [main] ends by returning or by
    the first operation on the outside world that fails; it returns exactly
    when all thirteen operations go through, and then it has printed its
    first line, the report and the five closing lines, and has written the
    score, the very report it printed, and [stats_json] to the three files;
    in every case the files written to the end are the first ones of the
    three, with their final contents, followed by at most one file that is
    cut and unfinished. *)
Theorem main_files_in_order (io_ok : nat -> bool) (generated_at : string)
  (w : World) :
  files w = [] ->
  let w' := fst (main io_ok generated_at w) in
  let outcome := snd (main io_ok generated_at w) in
  (forall e,
      analyze_git_history = Raise e ->
      files w' = [] /\
      ((io_ok 0%nat = true /\ outcome = Raised e /\ w' = print hello_text w) \/
       (io_ok 0%nat = false /\ outcome = Failed 0 /\ w' = w))) /\
  (forall commits stats,
      analyze_git_history = Ok (commits, stats) ->
      exists score report,
        create_musical_representation commits stats = Ok score /\
        generate_summary_report stats = Ok report /\
        let full :=
          complete_files score report (stats_json generated_at stats) in
        (outcome = Returned \/
         exists n,
           outcome = Failed n /\ (n < 13)%nat /\ io_ok n = false /\
           forall m, (m < n)%nat -> io_ok m = true) /\
        (outcome = Returned <-> forall n, (n < 13)%nat -> io_ok n = true) /\
        (outcome = Returned ->
         files w' = full /\
         stdout w' =
           stdout w ++
             [hello_text; report; done_text; done_report; done_symphony;
              done_stats; done_index]) /\
        exists written,
          (written <= 3)%nat /\
          (files w' = firstn written full \/
           exists name,
             nth_error (map fst full) written = Some name /\
             files w' = firstn written full ++ [(name, Truncated)])).
Proof.
  intros Hfiles w' outcome. split.
  - intros e He. subst w' outcome. unfold main, attempt. rewrite He.
    destruct (io_ok 0%nat) eqn:E0; cbn [fst snd].
    + split; [exact Hfiles|]. left. repeat split.
    + split; [exact Hfiles|]. right. repeat split.
  - intros commits stats Hrun.
    destruct (encoder_notes commits stats)
      as (ai & score & weeks & _ & Hscore & _).
    assert (Hreport : exists report, generate_summary_report stats = Ok report).
    { unfold analyze_git_history in Hrun. cbv zeta in Hrun.
      match type of Hrun with
      | context [aggregate ?raw] =>
          destruct (report_returns_after_aggregation_lemma raw)
            as (report & _ & Hreport);
          destruct (aggregate raw) as [commits0 stats0]
      end.
      cbn [snd] in Hreport.
      destruct (finalize stats0) as [stats1|e] eqn:Efin; [|discriminate].
      cbn [bind] in Hrun. injection Hrun as <- <-.
      exists report. now apply Hreport. }
    destruct Hreport as (report & Hreport).
    exists score, report. split; [exact Hscore|]. split; [exact Hreport|].
    cbv zeta. subst w' outcome. unfold main, attempt.
    rewrite Hrun, Hscore, Hreport.
    unfold complete_files, print, open_w, dump. cbn [stdout files].
    rewrite Hfiles.
    destruct (io_ok 0%nat) eqn:E0; cbn [fst snd];
      [destruct (io_ok 1%nat) eqn:E1; cbn [fst snd];
       [destruct (io_ok 2%nat) eqn:E2; cbn [fst snd];
        [destruct (io_ok 3%nat) eqn:E3; cbn [fst snd];
         [destruct (io_ok 4%nat) eqn:E4; cbn [fst snd];
          [destruct (io_ok 5%nat) eqn:E5; cbn [fst snd];
           [destruct (io_ok 6%nat) eqn:E6; cbn [fst snd];
            [destruct (io_ok 7%nat) eqn:E7; cbn [fst snd];
             [destruct (io_ok 8%nat) eqn:E8; cbn [fst snd];
              [destruct (io_ok 9%nat) eqn:E9; cbn [fst snd];
               [destruct (io_ok 10%nat) eqn:E10; cbn [fst snd];
                [destruct (io_ok 11%nat) eqn:E11; cbn [fst snd];
                 [destruct (io_ok 12%nat) eqn:E12; cbn [fst snd]
                 |]|]|]|]|]|]|]|]|]|]|]|].
    all: split;
      [first
         [ left; reflexivity
         | right; eexists; split; [reflexivity|];
           split; [lia|]; split; [eassumption|];
           intros m Hm;
           repeat (destruct m as [|m]; [assumption|]); lia ]
      |].
    all: split;
      [split;
       [ first
           [ intros _ n Hn;
             do 13 (destruct n as [|n]; [assumption|]); lia
           | discriminate ]
       | intros Hall;
         first
           [ reflexivity
           | exfalso;
             first
               [ rewrite (Hall 0%nat) in E0 by lia; discriminate
               | rewrite (Hall 1%nat) in E1 by lia; discriminate
               | rewrite (Hall 2%nat) in E2 by lia; discriminate
               | rewrite (Hall 3%nat) in E3 by lia; discriminate
               | rewrite (Hall 4%nat) in E4 by lia; discriminate
               | rewrite (Hall 5%nat) in E5 by lia; discriminate
               | rewrite (Hall 6%nat) in E6 by lia; discriminate
               | rewrite (Hall 7%nat) in E7 by lia; discriminate
               | rewrite (Hall 8%nat) in E8 by lia; discriminate
               | rewrite (Hall 9%nat) in E9 by lia; discriminate
               | rewrite (Hall 10%nat) in E10 by lia; discriminate
               | rewrite (Hall 11%nat) in E11 by lia; discriminate
               | rewrite (Hall 12%nat) in E12 by lia; discriminate ] ] ]
      |].
    all: split;
      [first
         [ discriminate
         | intros _; split;
           [reflexivity | rewrite <- !app_assoc; reflexivity] ]
      |].
    all: rewrite ?Hfiles.
    all: first
      [ exists 0%nat; split; [lia|]; left; reflexivity
      | exists 1%nat; split; [lia|]; left; reflexivity
      | exists 2%nat; split; [lia|]; left; reflexivity
      | exists 3%nat; split; [lia|]; left; reflexivity
      | exists 0%nat; split; [lia|]; right; eexists; split; reflexivity
      | exists 1%nat; split; [lia|]; right; eexists; split; reflexivity
      | exists 2%nat; split; [lia|]; right; eexists; split; reflexivity ].
Qed.

End MainExtras.

(** ** The further properties at the scenario *)

(** X5 at the first line of the scenario. *)
Lemma line_fields_round_trip_witness :
  @accepts scenario_runtime
    "abc123|Alice|a@x.com|2024-01-01T10:00:00+00:00|fix: null pointer|" = true /\
  map message
    (fst (@process_line scenario_runtime ([], empty_stats)
            "abc123|Alice|a@x.com|2024-01-01T10:00:00+00:00|fix: null pointer|"))
  = ["fix: null pointer"].
Proof.
  assert (Hparse : exists parsed,
             @parse_date scenario_runtime "2024-01-01T10:00:00+00:00"
             = Some parsed) by (eexists; reflexivity).
  destruct Hparse as (parsed & Hparse).
  assert (Hfree : forall s,
             PyStr.contains "|" s = false -> Spec.free_of "|" s)
    by (intros s; apply contains_char_free).
  destruct (@line_fields_round_trip scenario_runtime [] empty_stats
              "abc123" "Alice" "a@x.com" "2024-01-01T10:00:00+00:00"
              "fix: null pointer" "" parsed
              (Hfree "abc123" eq_refl) (Hfree "Alice" eq_refl)
              (Hfree "a@x.com" eq_refl)
              (Hfree "2024-01-01T10:00:00+00:00" eq_refl)
              (Hfree "fix: null pointer" eq_refl) Hparse) as (Hacc & Hfst).
  cbn [append] in Hacc, Hfst. split; [exact Hacc|].
  rewrite Hfst. reflexivity.
Defined.

(** X9 at the scenario. *)
Lemma analyze_git_history_result_witness :
  exists commits stats,
    @analyze_git_history scenario_runtime = Ok (commits, stats) /\
    commits = scenario_commits /\
    Dict.keys (productivity_score stats) = ["2024-01-01"; "2024-01-02"].
Proof.
  assert (Hnd : NoDup (Dict.keys (commits_by_day scenario_stats))).
  { cbv. repeat constructor; simpl; intuition discriminate. }
  assert (Hok : forall day,
             In day (Dict.keys (commits_by_day scenario_stats)) ->
             exists day_date,
               @fromisoformat scenario_runtime day = Some day_date /\
               @sub_days scenario_runtime
                 (@datetime_now scenario_runtime) day_date <> -30).
  { intros day Hday. cbv in Hday.
    destruct Hday as [<-|[<-|[]]]; eexists; (split; [reflexivity|]);
      cbv; discriminate. }
  destruct (@score_days_spec scenario_runtime (@datetime_now scenario_runtime)
              (Dict.items (commits_by_day scenario_stats)) scenario_stats
              Hnd Hok) as (stats' & Hfin & _).
  assert (Hraw : @run_git_command scenario_runtime
             ("git log --pretty=format:'" ++ log_format
              ++ "' --date=iso-strict --all") = scenario_log)
    by (vm_compute; reflexivity).
  assert (Hagg : @aggregate scenario_runtime scenario_log
                 = (scenario_commits, scenario_stats))
    by apply surjective_pairing.
  pose proof (@analyze_git_history_returns scenario_runtime scenario_log
                scenario_commits scenario_stats stats' Hraw Hagg Hfin) as E.
  destruct (@analyze_git_history_result scenario_runtime _ _ E)
    as (_ & Hk & _ & _ & Hd & _).
  exists scenario_commits, stats'.
  split; [exact E|]. split; [reflexivity|].
  rewrite Hk, Hd. vm_compute. reflexivity.
Defined.

(** X14 at the empty accumulator: 24 lines. *)
Lemma report_line_count_witness :
  exists lines,
    report_lines empty_stats = Ok lines /\ length lines = 24%nat /\
    hd "" lines = banner /\ last lines "" = banner.
Proof.
  assert (E : exists lines, report_lines empty_stats = Ok lines)
    by (eexists; reflexivity).
  destruct E as (lines & E).
  destruct (@report_line_count empty_stats lines E) as (Hlen & Hhd & Hlast).
  exists lines. split; [exact E|]. split; [exact Hlen|]. now split.
Defined.

(** X17 at the scenario: the three hours with a commit share the greatest
    counter. *)
Lemma hour_chart_extremes_witness :
  exists max_commits busiest,
    max_list (Dict.values (commits_by_hour scenario_stats))
      = Ok max_commits /\
    Dict.get busiest (commits_by_hour scenario_stats) = Some max_commits /\
    hour_bar scenario_stats max_commits busiest
      = Ok (PyStr.repeat block_glyph 8) /\
    hour_bar scenario_stats max_commits 3 = Ok dot_glyph.
Proof.
  assert (Hwc : well_counted (commits_by_hour scenario_stats)).
  { split; cbv.
    - repeat constructor; simpl; intuition discriminate.
    - repeat constructor; discriminate. }
  assert (Hne : commits_by_hour scenario_stats <> []) by (cbv; discriminate).
  destruct (@hour_chart_extremes scenario_stats Hwc Hne)
    as (m & busiest & Hmax & Hget & _ & Hfull & Hdot).
  exists m, busiest. split; [exact Hmax|]. split; [exact Hget|].
  split; [exact Hfull|]. apply Hdot. reflexivity.
Defined.

(** X18 at the scenario: both days are kept, the earlier one first. *)
Lemma recent_activity_last_thirty_days_witness :
  StronglySorted
    (fun x y => PyStr.ltb (fst x) (fst y) = true)
    (MainProgram.recent_activity
       (MainProgram.stats_json "2024-01-31T12:00:00" scenario_stats)) /\
  In ("2024-01-02", 1)
    (MainProgram.recent_activity
       (MainProgram.stats_json "2024-01-31T12:00:00" scenario_stats)).
Proof.
  assert (Hnd : NoDup (Dict.keys (commits_by_day scenario_stats))).
  { cbv. repeat constructor; simpl; intuition discriminate. }
  destruct (@recent_activity_last_thirty_days "2024-01-31T12:00:00"
              scenario_stats Hnd) as (Hsorted & _ & _ & Hall).
  split; [exact Hsorted|].
  destruct (Hall ("2024-01-02", 1)) as [Hin|(Hlen & _)].
  - cbv. tauto.
  - exact Hin.
  - cbv in Hlen. discriminate.
Defined.

(** X12 at the scenario: Alice, Bob, Alice. *)
Lemma pipeline_instruments_witness :
  exists score,
    @create_musical_representation scenario_runtime
      (fst (@aggregate scenario_runtime scenario_log))
      (snd (@aggregate scenario_runtime scenario_log)) = Ok score /\
    map instrument (all_notes score) = ["piano"; "violin"; "piano"].
Proof.
  destruct (@pipeline_instruments scenario_runtime scenario_log)
    as (score & Hrun & Hnotes & _).
  exists score. split; [exact Hrun|].
  assert (Hkept : exists c1 c2 c3,
             @retained_commits scenario_runtime
               (fst (@aggregate scenario_runtime scenario_log)) = [c1; c2; c3] /\
             author c1 = "Alice" /\ author c2 = "Bob" /\ author c3 = "Alice").
  { do 3 eexists. split; [reflexivity|]. repeat split. }
  destruct Hkept as (c1 & c2 & c3 & Hkept & A1 & A2 & A3).
  assert (Hseen : Spec.first_seen []
                    (map author (fst (@aggregate scenario_runtime scenario_log)))
                  = ["Alice"; "Bob"]) by reflexivity.
  rewrite Hkept, Hseen in Hnotes.
  inversion Hnotes as [|? n1 ? ? P1 Hrest1]; subst.
  inversion Hrest1 as [|? n2 ? ? P2 Hrest2]; subst.
  inversion Hrest2 as [|? n3 ? ? P3 Hrest3]; subst.
  inversion Hrest3; subst.
  destruct P1 as (i1 & N1 & I1). destruct P2 as (i2 & N2 & I2).
  destruct P3 as (i3 & N3 & I3).
  rewrite A1 in N1. rewrite A2 in N2. rewrite A3 in N3.
  assert (E1 : i1 = 0%nat).
  { destruct i1 as [|[|[|]]]; cbn in N1; try discriminate N1; reflexivity. }
  assert (E2 : i2 = 1%nat).
  { destruct i2 as [|[|[|]]]; cbn in N2; try discriminate N2; reflexivity. }
  assert (E3 : i3 = 0%nat).
  { destruct i3 as [|[|[|]]]; cbn in N3; try discriminate N3; reflexivity. }
  subst. cbv - [instrument] in I1, I2, I3. cbn [map]. congruence.
Defined.

(** The counters of the scenario are within the range. *)
Lemma exact_counts_scenario : exact_counts scenario_stats.
Proof. apply exact_countsb_ok. vm_compute. reflexivity. Qed.

(** X13 at an accumulator with a zero counter, where the report raises,
    and at the scenario, where it returns. *)
Lemma report_raises_on_zero_totals_witness :
  exact_counts zero_typed_stats /\
  generate_summary_report zero_typed_stats = Raise ZeroDivisionError /\
  exists report, generate_summary_report scenario_stats = Ok report.
Proof.
  assert (Hz : exact_counts zero_typed_stats)
    by (apply exact_countsb_ok; reflexivity).
  split; [exact Hz|]. split.
  - destruct (@report_raises_on_zero_totals zero_typed_stats Hz)
      as (Hraise & _).
    apply Hraise. reflexivity.
  - destruct (@report_raises_on_zero_totals scenario_stats
                exact_counts_scenario) as (_ & Hret & _).
    apply Hret. vm_compute. reflexivity.
Defined.

(** X16 at the scenario: the first of the two days has the greater
    count. *)
Lemma cosmic_facts_name_the_maxima_witness :
  exists facts,
    cosmic_facts scenario_stats = Ok facts /\
    hd "" facts = brightest_day_line ("2024-01-01", 2).
Proof.
  destruct (@cosmic_facts_name_the_maxima scenario_stats
              exact_counts_scenario)
    as (facts & Hrun & Hbest & _).
  exists facts. split; [exact Hrun|].
  destruct Hbest as (best & front & back & Hsplit & Hfront & Hback & _ & Hhd).
  { vm_compute. discriminate. }
  assert (Hdays : commits_by_day scenario_stats
                  = [("2024-01-01", 2); ("2024-01-02", 1)])
    by (vm_compute; reflexivity).
  rewrite Hdays in Hsplit. rewrite Hhd. f_equal.
  destruct front as [|x front].
  - now injection Hsplit as <- _.
  - injection Hsplit as <- Hrest.
    destruct front as [|y front].
    + injection Hrest as <- _. specialize (Hfront _ (or_introl eq_refl)).
      cbn in Hfront. lia.
    + injection Hrest as _ Hrest. destruct front; discriminate Hrest.
Defined.

(** X19 at the scenario, when the report cannot be written to its file:
    the score is on disk, the file of the report is cut and empty, and the
    statistics are not written. *)
Lemma main_files_in_order_witness :
  snd (@MainProgram.main scenario_runtime (fun n => negb (Nat.eqb n 5))
         "2024-01-31T12:00:00"
         {| MainProgram.stdout := []; MainProgram.files := [] |})
    = MainProgram.Failed 5 /\
  Dict.keys
    (MainProgram.files
       (fst (@MainProgram.main scenario_runtime
               (fun n => negb (Nat.eqb n 5)) "2024-01-31T12:00:00"
               {| MainProgram.stdout := []; MainProgram.files := [] |})))
    = ["git_symphony.json"; "cosmic_analysis.txt"] /\
  Dict.get "cosmic_analysis.txt"
    (MainProgram.files
       (fst (@MainProgram.main scenario_runtime
               (fun n => negb (Nat.eqb n 5)) "2024-01-31T12:00:00"
               {| MainProgram.stdout := []; MainProgram.files := [] |})))
    = Some MainProgram.Truncated.
Proof.
  set (run := @MainProgram.main scenario_runtime
                (fun n => negb (Nat.eqb n 5)) "2024-01-31T12:00:00"
                {| MainProgram.stdout := []; MainProgram.files := [] |}).
  assert (Hnd : NoDup (Dict.keys (commits_by_day scenario_stats))).
  { cbv. repeat constructor; simpl; intuition discriminate. }
  assert (Hok : forall day,
             In day (Dict.keys (commits_by_day scenario_stats)) ->
             exists day_date,
               @fromisoformat scenario_runtime day = Some day_date /\
               @sub_days scenario_runtime
                 (@datetime_now scenario_runtime) day_date <> -30).
  { intros day Hday. cbv in Hday.
    destruct Hday as [<-|[<-|[]]]; eexists; (split; [reflexivity|]);
      cbv; discriminate. }
  destruct (@score_days_spec scenario_runtime (@datetime_now scenario_runtime)
              (Dict.items (commits_by_day scenario_stats)) scenario_stats
              Hnd Hok) as (stats' & Hfin & _).
  assert (Hraw : @run_git_command scenario_runtime
             ("git log --pretty=format:'" ++ log_format
              ++ "' --date=iso-strict --all") = scenario_log)
    by (vm_compute; reflexivity).
  assert (Hagg : @aggregate scenario_runtime scenario_log
                 = (scenario_commits, scenario_stats))
    by apply surjective_pairing.
  pose proof (@analyze_git_history_returns scenario_runtime scenario_log
                scenario_commits scenario_stats stats' Hraw Hagg Hfin) as E.
  destruct (@main_files_in_order scenario_runtime
              (fun n => negb (Nat.eqb n 5)) "2024-01-31T12:00:00"
              {| MainProgram.stdout := []; MainProgram.files := [] |} eq_refl) as (_ & Hruns).
  destruct (Hruns _ _ E)
    as (score & report & _ & _ & Hend & Hall & _ & _).
  cbv zeta in Hend, Hall. fold run in Hend, Hall.
  split.
  - destruct Hend as [Hret|(n & Hn & _ & Hfalse & _)].
    + apply Hall with (n := 5%nat) in Hret; [discriminate Hret | lia].
    + rewrite Hn. f_equal. apply negb_false_iff, Nat.eqb_eq in Hfalse.
      exact Hfalse.
  - subst run. vm_compute. repeat split.
Defined.
